(** * Local-network deployment orchestrator (package [subnet])

    A shallow embedding of [LocalSubnetDeployer] and of the functions it is
    built from: [WaitForHealthy], [GetEndpoints], [alreadyDeployed],
    [installNeededPlugins], [getGenesis], [SetDefaultSnapshot],
    [startNetwork], [SetupLocalEnv], [doDeploy] and [DeployToLocalNetwork].

    Go values are modelled as the code has them: an [error] is its message
    ([None] is [nil]), a function returning [(T, error)] returns a pair, a
    Go map is a [gmap], a slice is a [list].  Effects (the file system, the
    calls made on the gRPC client, downloads) are threaded through a state
    monad over [World]; a run-time panic is an outcome of its own. *)

From Stdlib Require Import String Ascii List Arith Lia Permutation.
From Stdlib Require Import Sorting.Sorted Sorting.Mergesort.
From stdpp Require Import gmap strings list fin_maps pretty sorting.

Local Open Scope string_scope.
Local Open Scope list_scope.

(** ** Strings *)

Module GoStrings.

(** [strings.HasPrefix] *)
Fixpoint HasPrefix (s p : string) : bool :=
  match p with
  | EmptyString => true
  | String c p' =>
      match s with
      | EmptyString => false
      | String d s' => if Ascii.eqb c d then HasPrefix s' p' else false
      end
  end.

(** [strings.Contains s substr]: [substr] occurs at some offset of [s]. *)
Fixpoint Contains (s substr : string) : bool :=
  HasPrefix s substr ||
  match s with
  | EmptyString => false
  | String _ s' => Contains s' substr
  end.

(** The order of Go's [<] on strings is the byte-wise lexicographic one,
    which is what [String.leb] computes. *)
Module StringOrder <: Orders.TotalLeBool.

Definition t := string.

Definition leb (a b : string) : bool := String.leb a b.

Lemma leb_total : forall a b, leb a b = true \/ leb b a = true.
Proof. exact String.leb_total. Qed.

End StringOrder.

Module StringSort := Mergesort.Sort StringOrder.

(** [sort.Strings]: the argument in increasing order. *)
Definition sort_Strings (a : list string) : list string := StringSort.sort a.

Definition string_le (a b : string) : Prop := String.leb a b = true.

End GoStrings.

Import GoStrings.

(** ** Values of the Go program *)

(** A Go [error]: [None] is [nil], [Some msg] an error whose [Error()] is
    [msg].  [fmt.Errorf] with [%s] or [%w] of an error splices its message. *)
Definition error : Type := option string.

(** [ids.ID] is an array of 32 bytes; [ids.Empty] is the zero array. *)
Inductive ID : Type := mkID (bytes : list ascii).

Definition ids_Empty : ID := mkID (repeat Ascii.zero 32).

(** Modelled from the spec: the message types of the network runner
    ([rpcpb.NodeInfo], [rpcpb.CustomVmInfo], [rpcpb.ClusterInfo]) are declared
    outside the repository.  The data model gives cluster info an
    overall-healthy flag, a custom-VMs-healthy flag, an ordered set of node
    descriptors (name, URI), the provisioned subnet identifiers and a
    mapping from blockchain identifier to deployed-VM descriptor (VM
    identifier, blockchain identifier). *)
Record NodeInfo : Type := mkNodeInfo { Name : string; Uri : string }.

Record CustomVmInfo : Type := mkCustomVmInfo { VmId : string; BlockchainId : string }.

Record ClusterInfo : Type := mkClusterInfo {
  NodeInfos : list NodeInfo;
  Healthy : bool;
  CustomVmsHealthy : bool;
  CustomVms : gmap string CustomVmInfo;
  Subnets : list string
}.

(** [rpcpb.BlockchainSpec]: [SubnetId] is a pointer to a string. *)
Record BlockchainSpec : Type := mkBlockchainSpec {
  VmName : string;
  Genesis_path : string;
  SubnetId : option string
}.

(** [client.OpOption]: the options [startNetwork] passes to [LoadSnapshot]. *)
Inductive OpOption : Type :=
| WithPluginDir (pluginDir : string)
| WithExecPath (execPath : string)
| WithRootDataDir (rootDataDir : string)
| WithGlobalNodeConfig (nodeConfig : string).

(** Modelled from the spec: [core.Genesis] and [params.ChainConfig] are
    declared outside the repository.  A genesis descriptor carries the chain
    numeric ID and an address to balance allocation mapping; [Config] is a
    pointer, which [doDeploy] dereferences. *)
Record ChainConfig : Type := mkChainConfig { ChainID : Z }.

Record Genesis : Type := mkGenesis {
  Config : option ChainConfig;
  Alloc : list (string * Z)
}.

Definition zeroGenesis : Genesis := mkGenesis None [].

(** ** The world the deployer runs in *)

(** The file system: the paths that exist, each a file with its bytes or a
    directory. *)
Inductive FsNode : Type := File (content : string) | Dir.

(** What [http.Get] followed by [io.ReadAll] of the body observes. *)
Inductive HttpResult : Type :=
| HttpFail (msg : string)
| HttpResp (StatusCode : nat) (body : string * error).

(** What [cli.Health] answers: an error, or a response whose [ClusterInfo]
    may be [nil]. *)
Inductive HealthResult : Type :=
| HealthErr (msg : string)
| HealthResp (clusterInfo : option ClusterInfo).

(** What one [select] of the polling loop observes: the context is done
    (with [ctx.Err()]), or the timer fires and [cli.Health] is called and
    answers. *)
Inductive SelectEvent : Type :=
| CtxDone (ctxErr : string)
| Tick (health : HealthResult).

(** Every effect the deployer has on its surroundings, in the order issued. *)
Inductive Effect : Type :=
| EStartServerProcess
| EHttpGet (url : string)
| EWriteFile (path : string) (data : string)
| ERemoveAll (path : string)
| EInstallArchive (ext : string) (archive : string) (dir : string)
| ERename (oldpath newpath : string)
| EPluginDownload (vmIDs : gset string) (pluginDir binDir : string)
| EHealth
| ELoadSnapshot (name : string) (opts : list OpOption)
| ECreateBlockchains (specs : list BlockchainSpec)
| EClose.

Record World : Type := mkWorld {
  w_fs : gmap string FsNode;
  (** what the successive [select]s of [WaitForHealthy] will observe *)
  w_selects : list SelectEvent;
  (** the effects issued so far, oldest first *)
  w_trace : list Effect;
  (** the deployer's field [backendStartedHere] *)
  w_backendStartedHere : bool
}.

(** The libraries and constants the package imports, and the answers of the
    backend to the two mutating calls. *)
Record Env : Type := mkEnv {
  (* avalanchego/ids and avalanche-network-runner/utils *)
  ID_String : ID -> string;
  ids_FromString : string -> ID * error;
  utils_VMID : string -> ID * error;
  (* encoding/json into core.Genesis, fmt's %q, path/filepath *)
  json_Unmarshal : string -> Genesis * error;
  strconv_Quote : string -> string;
  filepath_Join : string -> string -> string;
  (* net/http, os, binutils *)
  http_Get : string -> HttpResult;
  os_WriteFile_err : string -> error;
  os_Rename : string -> string -> gmap string FsNode -> gmap string FsNode * error;
  binutils_InstallArchive :
    string -> string -> string -> gmap string FsNode -> gmap string FsNode * error;
  binutils_StartServerProcess : error;
  (* runtime and package constants *)
  runtime_GOOS : string;
  runtime_GOARCH : string;
  AvalancheCliBinDir : string;
  AvalancheGoReleaseVersion : string;
  BootstrapSnapshotArchiveName : string;
  BootstrapSnapshotURL : string;
  DefaultSnapshotName : string;
  (* the backend's answers to LoadSnapshot and CreateBlockchains *)
  backend_LoadSnapshot : string -> list OpOption -> error;
  backend_CreateBlockchains : list BlockchainSpec -> string * error
}.

(** ** The monad of the embedding *)

Inductive Outcome (A : Type) : Type :=
| Ret (a : A)            (* the function returned [a] *)
| Panic (msg : string)   (* a run-time panic unwound the function *)
| Pending.               (* blocked in a [select] the environment never wakes *)

Arguments Ret {A} a.
Arguments Panic {A} msg.
Arguments Pending {A}.

Definition M (A : Type) : Type := World -> Outcome A * World.

Definition ret {A : Type} (a : A) : M A := fun w => (Ret a, w).

Definition bind {A B : Type} (m : M A) (k : A -> M B) : M B :=
  fun w =>
    match m w with
    | (Ret a, w') => k a w'
    | (Panic msg, w') => (Panic msg, w')
    | (Pending, w') => (Pending, w')
    end.

Definition panic {A : Type} (msg : string) : M A := fun w => (Panic msg, w).

Declare Scope go_scope.
Delimit Scope go_scope with go.
Notation "'let*' x ':=' m 'in' k" := (bind m (fun x => k))
  (at level 10, x pattern, m at level 100, k at level 200) : go_scope.
Local Open Scope go_scope.

(** The world with one more effect on its trace. *)
Definition record (e : Effect) (w : World) : World :=
  mkWorld (w_fs w) (w_selects w) (w_trace w ++ [e]) (w_backendStartedHere w).

Definition emit (e : Effect) : M unit := fun w => (Ret tt, record e w).

Definition get_fs : M (gmap string FsNode) := fun w => (Ret (w_fs w), w).

Definition put_fs (fs : gmap string FsNode) : M unit :=
  fun w => (Ret tt, mkWorld fs (w_selects w) (w_trace w) (w_backendStartedHere w)).

(** [defer cleanup] around a body: [cleanup] runs when the body returns and
    when it panics. *)
Definition defer {A : Type} (body : M A) (cleanup : M unit) : M A :=
  fun w =>
    match body w with
    | (Ret a, w') => (Ret a, snd (cleanup w'))
    | (Panic msg, w') => (Panic msg, snd (cleanup w'))
    | (Pending, w') => (Pending, w')
    end.

Definition is_nil {A : Type} (o : option A) : bool :=
  match o with None => true | Some _ => false end.

(** ** The file system, as [os] and [storage] see it *)

Module Os.

(** [os.Stat path]: [nil] when the path exists, an error that
    [os.IsNotExist] recognises otherwise. *)
Definition Stat_exists (fs : gmap string FsNode) (path : string) : bool :=
  match fs !! path with Some _ => true | None => false end.

(** [os.ReadFile] *)
Definition ReadFile (fs : gmap string FsNode) (path : string) : string * error :=
  match fs !! path with
  | Some (File content) => (content, None)
  | Some Dir => (EmptyString, Some ("read " +:+ path +:+ ": is a directory"))
  | None => (EmptyString, Some ("open " +:+ path +:+ ": no such file or directory"))
  end.

(** The paths [os.RemoveAll path] removes: [path] and what lies below it. *)
Definition below (path : string) (p : string) : bool :=
  String.eqb p path || HasPrefix p (path +:+ "/").

Definition RemoveAll (fs : gmap string FsNode) (path : string) : gmap string FsNode :=
  filter (fun kv => below path (fst kv) = false) fs.

(** [storage.FileExists] and [storage.FolderExists]: [(true, nil)] when
    [os.Stat] succeeds, [(false, nil)] when the path does not exist. *)
Definition FileExists (fs : gmap string FsNode) (path : string) : bool * error :=
  (Stat_exists fs path, None).

Definition FolderExists (fs : gmap string FsNode) (path : string) : bool * error :=
  (Stat_exists fs path, None).

End Os.

Import Os.

(** ** The deployer *)

(** [application.Avalanche], as far as the deployer reads it. *)
Record Application : Type := mkApplication {
  GetRunDir : string;
  GetBaseDir : string;
  GetSnapshotsDir : string;
  LoadNodeConfig : string * error;
  GetTokenName : string -> string
}.

(** [LocalSubnetDeployer]: its injected collaborators.  The mutable field
    [backendStartedHere] lives in the [World]. *)
Record LocalSubnetDeployer : Type := mkLocalSubnetDeployer {
  (** [procChecker.IsServerProcessRunning] *)
  procChecker : bool * error;
  (** [binChecker.ExistsWithLatestVersion binDir binPrefix] *)
  binChecker : string -> string -> gmap string FsNode -> bool * string * error;
  (** [getClientFunc]: whether creating the client fails *)
  getClientFunc : error;
  (** [binaryDownloader.Download vmIDs pluginDir binDir] *)
  binaryDownloader :
    gset string -> string -> string -> gmap string FsNode -> gmap string FsNode * error;
  healthCheckInterval : Z;
  app : Application;
  setDefaultSnapshot : string -> bool -> M error
}.

Definition zipExtension : string := "zip".

Definition http_StatusOK : nat := 200.

(** [os.WriteFile path data WriteReadReadPerms] *)
Definition os_WriteFile (env : Env) (path data : string) : M error :=
  let* _ := emit (EWriteFile path data) in
  match os_WriteFile_err env path with
  | Some e => ret (Some e)
  | None =>
      let* fs := get_fs in
      let* _ := put_fs (<[path := File data]> fs) in
      ret None
  end.

(** [binutils.InstallArchive ext archive dir] *)
Definition InstallArchive (env : Env) (ext archive dir : string) : M error :=
  let* _ := emit (EInstallArchive ext archive dir) in
  let* fs := get_fs in
  let* _ := put_fs (fst (binutils_InstallArchive env ext archive dir fs)) in
  ret (snd (binutils_InstallArchive env ext archive dir fs)).

(** The first block of [SetDefaultSnapshot]: download the bootstrap archive
    and write it down. *)
Definition downloadBootstrapSnapshot (env : Env) (bootstrapSnapshotArchivePath : string)
  : M error :=
  let* _ := emit (EHttpGet (BootstrapSnapshotURL env)) in
  match http_Get env (BootstrapSnapshotURL env) with
  | HttpFail e => ret (Some ("failed downloading bootstrap snapshot: " +:+ e))
  | HttpResp StatusCode (bootstrapSnapshotBytes, readErr) =>
      if negb (Nat.eqb StatusCode http_StatusOK) then
        ret (Some ("failed downloading bootstrap snapshot: unexpected http status code: "
                   +:+ pretty StatusCode))
      else
        match readErr with
        | Some e => ret (Some ("failed downloading bootstrap snapshot: " +:+ e))
        | None =>
            let* err := os_WriteFile env bootstrapSnapshotArchivePath bootstrapSnapshotBytes in
            match err with
            | Some e => ret (Some ("failed writing down bootstrap snapshot: " +:+ e))
            | None => ret None
            end
        end
  end.

(** [SetDefaultSnapshot snapshotsDir force] *)
Definition SetDefaultSnapshot (env : Env) (snapshotsDir : string) (force : bool) : M error :=
  let bootstrapSnapshotArchivePath :=
    filepath_Join env snapshotsDir (BootstrapSnapshotArchiveName env) in
  let* fs := get_fs in
  let* err :=
    (if Stat_exists fs bootstrapSnapshotArchivePath then ret None
     else downloadBootstrapSnapshot env bootstrapSnapshotArchivePath) in
  match err with
  | Some e => ret (Some e)
  | None =>
      let defaultSnapshotPath :=
        filepath_Join env snapshotsDir ("anr-snapshot-" +:+ DefaultSnapshotName env) in
      let* _ :=
        (if force then
           let* _ := emit (ERemoveAll defaultSnapshotPath) in
           let* fs := get_fs in
           put_fs (RemoveAll fs defaultSnapshotPath)
         else ret tt) in
      let* fs := get_fs in
      if Stat_exists fs defaultSnapshotPath then ret None
      else
        let '(bootstrapSnapshotBytes, err) := ReadFile fs bootstrapSnapshotArchivePath in
        match err with
        | Some e => ret (Some ("failed reading bootstrap snapshot: " +:+ e))
        | None =>
            let* err := InstallArchive env "tar.gz" bootstrapSnapshotBytes snapshotsDir in
            match err with
            | Some e => ret (Some ("failed installing bootstrap snapshot: " +:+ e))
            | None => ret None
            end
        end
  end.

(** [NewLocalSubnetDeployer]: the production wiring of [setDefaultSnapshot]
    and of the polling interval (100 ms, in nanoseconds). *)
Definition NewLocalSubnetDeployer (env : Env) (a : Application)
    (pc : bool * error)
    (bc : string -> string -> gmap string FsNode -> bool * string * error)
    (gc : error)
    (bd : gset string -> string -> string -> gmap string FsNode -> gmap string FsNode * error)
  : LocalSubnetDeployer :=
  mkLocalSubnetDeployer pc bc gc bd (100 * 1000000)%Z a (SetDefaultSnapshot env).

(** The download URL and archive extension [setupLocalEnv] picks for the
    operating system; [None] is the [default:] branch of the switch. *)
Definition avalanchegoURL (goos arch version : string) : option (string * string) :=
  let base := "https://github.com/ava-labs/avalanchego/releases/download/" +:+ version in
  if String.eqb goos "linux" then
    Some (base +:+ "/avalanchego-linux-" +:+ arch +:+ "-" +:+ version +:+ ".tar.gz", "tar.gz")
  else if String.eqb goos "darwin" then
    Some (base +:+ "/avalanchego-macos-" +:+ version +:+ ".zip", zipExtension)
  else if String.eqb goos "windows" then
    Some (base +:+ "/avalanchego-win-" +:+ version +:+ "-experimental.zip", zipExtension)
  else None.

(** [(d *LocalSubnetDeployer) setupLocalEnv] *)
Definition setupLocalEnv (env : Env) (d : LocalSubnetDeployer) : M (string * error) :=
  let binDir := filepath_Join env (GetBaseDir (app d)) (AvalancheCliBinDir env) in
  let binPrefix := "avalanchego-v" in
  let* fs := get_fs in
  let '(exists_, avagoDir, err) := binChecker d binDir binPrefix fs in
  if negb (is_nil err) then
    ret (EmptyString, Some ("failed trying to locate avalanchego binary: " +:+ binDir))
  else if exists_ then ret (avagoDir, None)
  else
    let version := AvalancheGoReleaseVersion env in
    match avalanchegoURL (runtime_GOOS env) (runtime_GOARCH env) version with
    | None => ret (EmptyString, Some ("OS not supported: " +:+ runtime_GOOS env))
    | Some (url, ext) =>
        let* _ := emit (EHttpGet url) in
        match http_Get env url with
        | HttpFail e => ret (EmptyString, Some e)
        | HttpResp StatusCode (archive, readErr) =>
            if negb (Nat.eqb StatusCode http_StatusOK) then
              ret (EmptyString, Some ("unexpected http status code: " +:+ pretty StatusCode))
            else
              match readErr with
              | Some e => ret (EmptyString, Some e)
              | None =>
                  let* err := InstallArchive env ext archive binDir in
                  match err with
                  | Some e => ret (EmptyString, Some e)
                  | None =>
                      let avagoSubDir := "avalanchego-" +:+ version in
                      let* err :=
                        (if String.eqb ext zipExtension then
                           let oldpath := filepath_Join env binDir "build" in
                           let newpath := filepath_Join env binDir avagoSubDir in
                           let* _ := emit (ERename oldpath newpath) in
                           let* fs := get_fs in
                           let* _ := put_fs (fst (os_Rename env oldpath newpath fs)) in
                           ret (snd (os_Rename env oldpath newpath fs))
                         else ret None) in
                      match err with
                      | Some e => ret (EmptyString, Some e)
                      | None => ret (filepath_Join env binDir avagoSubDir, None)
                      end
                  end
              end
        end
    end.

(** [(d *LocalSubnetDeployer) SetupLocalEnv] *)
Definition SetupLocalEnv (env : Env) (d : LocalSubnetDeployer)
  : M (string * string * error) :=
  let* err := setDefaultSnapshot d (GetSnapshotsDir (app d)) false in
  match err with
  | Some e => ret (EmptyString, EmptyString, Some ("failed setting up snapshots: " +:+ e))
  | None =>
      let* (avagoDir, err) := setupLocalEnv env d in
      match err with
      | Some e =>
          ret (EmptyString, EmptyString,
               Some ("failed setting up local environment: " +:+ e))
      | None =>
          let pluginDir := filepath_Join env avagoDir "plugins" in
          let avalancheGoBinPath := filepath_Join env avagoDir "avalanchego" in
          let* fs := get_fs in
          let '(exists_, err) := FolderExists fs pluginDir in
          if negb exists_ || negb (is_nil err) then
            ret (EmptyString, EmptyString,
                 Some ("evaluated pluginDir to be " +:+ pluginDir +:+ " but it does not exist"))
          else
            let '(exists_, err) := FileExists fs avalancheGoBinPath in
            if negb exists_ || negb (is_nil err) then
              ret (EmptyString, EmptyString,
                   Some ("evaluated avalancheGoBinPath to be " +:+ avalancheGoBinPath
                         +:+ " but it does not exist"))
            else ret (avalancheGoBinPath, pluginDir, None)
      end
  end.

(** ** Health polling *)

(** The error [WaitForHealthy] makes of an error of [cli.Health]. *)
Definition healthCheckFailed (e : string) : string :=
  "the health check failed to complete. The server might be down or have crashed, check the logs! "
  +:+ e.


(** The body of the [for { select { ... } }] of [WaitForHealthy], one
    iteration per observed [SelectEvent].  The progress printer started with
    [go ux.PrintWait] only writes to the terminal and is left out. *)
Fixpoint pollLoop (selects : list SelectEvent) (trace : list Effect)
  : Outcome (option ClusterInfo * error) * list SelectEvent * list Effect :=
  match selects with
  | [] => (Pending, [], trace)
  | CtxDone ctxErr :: rest =>
      (* case <-ctx.Done(): return nil, ctx.Err() *)
      (Ret (None, Some ctxErr), rest, trace)
  | Tick health :: rest =>
      (* case <-time.After(healthCheckInterval): resp, err := cli.Health(ctx) *)
      let trace' := trace ++ [EHealth] in
      match health with
      | HealthErr e =>
          (Ret (None,
                Some (healthCheckFailed e)),
           rest, trace')
      | HealthResp None => pollLoop rest trace'
      | HealthResp (Some clusterInfo) =>
          if negb (Healthy clusterInfo) then pollLoop rest trace'
          else if negb (CustomVmsHealthy clusterInfo) then pollLoop rest trace'
          else (Ret (Some clusterInfo, None), rest, trace')
      end
  end.

(** [(d *LocalSubnetDeployer) WaitForHealthy ctx cli healthCheckInterval]:
    the context and the client are the [World]'s. *)
Definition WaitForHealthy (d : LocalSubnetDeployer) (healthCheckInterval : Z)
  : M (option ClusterInfo * error) :=
  fun w =>
    let '(out, rest, trace) := pollLoop (w_selects w) (w_trace w) in
    (out, mkWorld (w_fs w) rest trace (w_backendStartedHere w)).

(** A response on which the loop polls again: no cluster info, or one of
    the two health flags down. *)
Definition keepsPolling (ev : SelectEvent) : bool :=
  match ev with
  | Tick (HealthResp None) => true
  | Tick (HealthResp (Some ci)) => negb (Healthy ci) || negb (CustomVmsHealthy ci)
  | _ => false
  end.

(** The world after the poller has consumed one timer event. *)
Definition afterTick (w : World) (rest : list SelectEvent) : World :=
  mkWorld (w_fs w) rest (w_trace w ++ [EHealth]) (w_backendStartedHere w).

(** ** Endpoints *)

(** The [fmt.Sprintf] of [GetEndpoints]. *)
Definition endpointLine (env : Env) (nodeInfo : NodeInfo) (blockchainID : string)
    (vmInfo : CustomVmInfo) : string :=
  "Endpoint at node " +:+ Name nodeInfo +:+ " for blockchain "
  +:+ strconv_Quote env blockchainID +:+ " with VM ID " +:+ strconv_Quote env (VmId vmInfo)
  +:+ ": " +:+ Uri nodeInfo +:+ "/ext/bc/" +:+ blockchainID +:+ "/rpc".

(** [GetEndpoints clusterInfo].  Go leaves the order in which [range] visits
    a map unspecified; the embedding visits [map_to_list]'s order. *)
Definition GetEndpoints (env : Env) (clusterInfo : ClusterInfo) : list string :=
  fold_left
    (fun endpoints nodeInfo =>
       fold_left
         (fun endpoints kv =>
            endpoints ++ [endpointLine env nodeInfo (fst kv) (snd kv)])
         (map_to_list (CustomVms clusterInfo)) endpoints)
    (NodeInfos clusterInfo) [].

(** [alreadyDeployed chainVMID clusterInfo] *)
Definition alreadyDeployed (env : Env) (chainVMID : ID) (clusterInfo : option ClusterInfo)
  : bool :=
  match clusterInfo with
  | Some ci =>
      existsb (fun kv => String.eqb (VmId (snd kv)) (ID_String env chainVMID))
              (map_to_list (CustomVms ci))
  | None => false
  end.

(** [(d *LocalSubnetDeployer) installNeededPlugins chainVMID clusterInfo pluginDir] *)
Definition installNeededPlugins (env : Env) (d : LocalSubnetDeployer) (chainVMID : ID)
    (clusterInfo : option ClusterInfo) (pluginDir : string) : M error :=
  let toInstallVMIDs : gset string :=
    match clusterInfo with
    | Some ci =>
        fold_left (fun acc kv => acc ∪ {[ VmId (snd kv) ]})
                  (map_to_list (CustomVms ci)) {[ ID_String env chainVMID ]}
    | None => {[ ID_String env chainVMID ]}
    end in
  let binDir := filepath_Join env (GetBaseDir (app d)) (AvalancheCliBinDir env) in
  let* _ := emit (EPluginDownload toInstallVMIDs pluginDir binDir) in
  let* fs := get_fs in
  let* _ := put_fs (fst (binaryDownloader d toInstallVMIDs pluginDir binDir fs)) in
  match snd (binaryDownloader d toInstallVMIDs pluginDir binDir fs) with
  | Some e => ret (Some e)
  | None => ret None
  end.

(** [getGenesis genesisFile] *)
Definition getGenesis (env : Env) (genesisFile : string) : M (Genesis * error) :=
  let* fs := get_fs in
  let '(genBytes, err) := ReadFile fs genesisFile in
  match err with
  | Some e => ret (zeroGenesis, Some e)
  | None =>
      match json_Unmarshal env genBytes with
      | (genesis, Some e) => ret (genesis, Some e)
      | (genesis, None) => ret (genesis, None)
      end
  end.

(** [(d *LocalSubnetDeployer) startNetwork ctx cli avalancheGoBinPath pluginDir runDir] *)
Definition startNetwork (env : Env) (d : LocalSubnetDeployer)
    (avalancheGoBinPath pluginDir runDir : string) : M error :=
  let loadSnapshotOpts :=
    [WithPluginDir pluginDir; WithExecPath avalancheGoBinPath; WithRootDataDir runDir] in
  let '(configStr, err) := LoadNodeConfig (app d) in
  match err with
  | Some e => ret (Some e)
  | None =>
      let loadSnapshotOpts :=
        if negb (String.eqb configStr EmptyString)
        then loadSnapshotOpts ++ [WithGlobalNodeConfig configStr]
        else loadSnapshotOpts in
      let* _ := emit (ELoadSnapshot (DefaultSnapshotName env) loadSnapshotOpts) in
      match backend_LoadSnapshot env (DefaultSnapshotName env) loadSnapshotOpts with
      | Some e => ret (Some ("failed to start network :" +:+ e))
      | None => ret None
      end
  end.

(** [cli.CreateBlockchains ctx blockchainSpecs] *)
Definition cli_CreateBlockchains (env : Env) (blockchainSpecs : list BlockchainSpec)
  : M (string * error) :=
  let* _ := emit (ECreateBlockchains blockchainSpecs) in
  ret (backend_CreateBlockchains env blockchainSpecs).

(** [cli.Close ()] *)
Definition cli_Close : M unit := emit EClose.

(** ** [doDeploy]

    [doDeploy] is one Go function; it is cut here at the steps its comment
    lists, from the last step to the first.  Calls that only print or log
    ([ux.Logger.PrintToUser], [d.app.Log.Debug], [fmt.Println]) are left
    out. *)

(** What [doDeploy] returns: subnet ID, blockchain ID, error. *)
Definition Deployed : Type := ID * ID * error.

(** [return ids.Empty, ids.Empty, fmt.Errorf(...)] *)
Definition abort (msg : string) : M Deployed := ret (ids_Empty, ids_Empty, Some msg).

Definition lift {A : Type} (o : Outcome A) : M A := fun w => (o, w).

(** Lines 177-189: the subnet ID for the next blockchain, from the preloaded
    subnet IDs and the number of blockchains created so far.  [inl] is the
    returned error, a panic the index expression out of range. *)
Definition selectSubnetID (subnets : list string) (numBlockchains : nat)
  : Outcome (string + string) :=
  let subnetIDs := sort_Strings subnets in
  if Nat.eqb (length subnetIDs) 0 then
    Ret (inl "the network has not preloaded subnet IDs")
  else
    match subnetIDs !! (numBlockchains mod length subnetIDs) with
    | Some subnetIDStr => Ret (inr subnetIDStr)
    | None => Panic "index out of range"
    end.

(** Lines 218-252: print the endpoints and connection details, resolve the
    identifiers. *)
Definition report (env : Env) (chainVMID : ID) (subnetIDStr : string)
    (clusterInfo : ClusterInfo) : M Deployed :=
  let endpoints := GetEndpoints env clusterInfo in
  match endpoints !! 0%nat with
  | None => panic "index out of range [0] with length 0"   (* endpoints[0] *)
  | Some firstURL =>
      (* firstURL[strings.LastIndex(firstURL, "http"):] *)
      if negb (Contains firstURL "http") then panic "slice bounds out of range [-1:]"
      else
        let subnetID := fst (ids_FromString env subnetIDStr) in
        let blockchainID :=
          fold_left
            (fun blockchainID kv =>
               if String.eqb (VmId (snd kv)) (ID_String env chainVMID)
               then fst (ids_FromString env (BlockchainId (snd kv)))
               else blockchainID)
            (map_to_list (CustomVms clusterInfo)) ids_Empty in
        ret (subnetID, blockchainID, None)
  end.

(** Lines 173-216: wait for the network, select the subnet, create the
    blockchain, wait again. *)
Definition createBlockchain (env : Env) (d : LocalSubnetDeployer)
    (chain chainGenesis : string) (chainVMID : ID) : M Deployed :=
  let* (clusterInfo, err) := WaitForHealthy d (healthCheckInterval d) in
  match err with
  | Some e => abort ("failed to query network health: " +:+ e)
  | None =>
      match clusterInfo with
      | None => panic "invalid memory address or nil pointer dereference"
      | Some ci =>
          let* selected := lift (selectSubnetID (Subnets ci) (size (CustomVms ci))) in
          match selected with
          | inl e => abort e
          | inr subnetIDStr =>
              let blockchainSpecs :=
                [mkBlockchainSpec chain chainGenesis (Some subnetIDStr)] in
              let* (deployBlockchainsInfo, err) := cli_CreateBlockchains env blockchainSpecs in
              match err with
              | Some e => abort ("failed to deploy blockchain :" +:+ e)
              | None =>
                  let* (clusterInfo, err) := WaitForHealthy d (healthCheckInterval d) in
                  match err with
                  | Some e => abort ("failed to query network health: " +:+ e)
                  | None =>
                      match clusterInfo with
                      | None => panic "invalid memory address or nil pointer dereference"
                      | Some ci => report env chainVMID subnetIDStr ci
                      end
                  end
              end
          end
      end
  end.

(** Lines 150-171: the VM ID, the already-deployed check, the plugins, the
    network start. *)
Definition deployVM (env : Env) (d : LocalSubnetDeployer)
    (chain chainGenesis avalancheGoBinPath pluginDir runDir : string)
    (networkBooted : bool) (clusterInfo : option ClusterInfo) : M Deployed :=
  let '(chainVMID, err) := utils_VMID env chain in
  match err with
  | Some e => abort ("failed to create VM ID from " +:+ chain +:+ ": " +:+ e)
  | None =>
      if alreadyDeployed env chainVMID clusterInfo then ret (ids_Empty, ids_Empty, None)
      else
        let* err := installNeededPlugins env d chainVMID clusterInfo pluginDir in
        match err with
        | Some e => ret (ids_Empty, ids_Empty, Some e)
        | None =>
            let* err :=
              (if negb networkBooted
               then startNetwork env d avalancheGoBinPath pluginDir runDir
               else ret None) in
            match err with
            | Some e => ret (ids_Empty, ids_Empty, Some e)
            | None => createBlockchain env d chain chainGenesis chainVMID
            end
        end
  end.

(** Lines 120-148: the genesis file and the first health probe. *)
Definition probeNetwork (env : Env) (d : LocalSubnetDeployer)
    (chain chainGenesis avalancheGoBinPath pluginDir : string) : M Deployed :=
  let* fs := get_fs in
  let '(exists_, err) := FileExists fs chainGenesis in
  if negb exists_ || negb (is_nil err) then
    abort ("evaluated chain genesis file to be at " +:+ chainGenesis
           +:+ " but it does not seem to exist")
  else
    let* (genesis, err) := getGenesis env chainGenesis in
    match err with
    | Some e => abort ("failed to unpack chain ID from genesis: " +:+ e)
    | None =>
        match Config genesis with
        | None => panic "invalid memory address or nil pointer dereference"
        | Some config =>
            let chainID := ChainID config in
            let runDir := GetRunDir (app d) in
            let* (clusterInfo, err) := WaitForHealthy d (healthCheckInterval d) in
            match err with
            | Some e =>
                if Contains e "not bootstrapped" then
                  deployVM env d chain chainGenesis avalancheGoBinPath pluginDir runDir
                           false clusterInfo
                else abort ("failed to query network health: " +:+ e)
            | None =>
                deployVM env d chain chainGenesis avalancheGoBinPath pluginDir runDir
                         true clusterInfo
            end
        end
    end.

(** [(d *LocalSubnetDeployer) doDeploy chain chainGenesis] *)
Definition doDeploy (env : Env) (d : LocalSubnetDeployer) (chain chainGenesis : string)
  : M Deployed :=
  let* (avalancheGoBinPath, pluginDir, err) := SetupLocalEnv env d in
  match err with
  | Some e => ret (ids_Empty, ids_Empty, Some e)
  | None =>
      match getClientFunc d with
      | Some e => abort ("error creating gRPC Client: " +:+ e)
      | None =>
          defer (probeNetwork env d chain chainGenesis avalancheGoBinPath pluginDir)
                cli_Close
      end
  end.

(** [(d *LocalSubnetDeployer) StartServer] *)
Definition StartServer (env : Env) (d : LocalSubnetDeployer) : M error :=
  let '(isRunning, err) := procChecker d in
  match err with
  | Some e => ret (Some ("failed querying if server process is running: " +:+ e))
  | None =>
      if negb isRunning then
        let* _ := emit EStartServerProcess in
        match binutils_StartServerProcess env with
        | Some e => ret (Some ("failed starting gRPC server process: " +:+ e))
        | None =>
            fun w => (Ret None, mkWorld (w_fs w) (w_selects w) (w_trace w) true)
        end
      else ret None
  end.

(** [(d *LocalSubnetDeployer) BackendStartedHere] *)
Definition BackendStartedHere : M bool := fun w => (Ret (w_backendStartedHere w), w).

(** [(d *LocalSubnetDeployer) DeployToLocalNetwork chain chainGenesis] *)
Definition DeployToLocalNetwork (env : Env) (d : LocalSubnetDeployer)
    (chain chainGenesis : string) : M Deployed :=
  let* err := StartServer env d in
  match err with
  | Some e => ret (ids_Empty, ids_Empty, Some e)
  | None => doDeploy env d chain chainGenesis
  end.

(** [n] calls of [m], one after the other, with their results. *)
Fixpoint callTimes {A : Type} (n : nat) (m : M A) : M (list A) :=
  match n with
  | O => ret []
  | S n' =>
      let* a := m in
      let* rest := callTimes n' m in
      ret (a :: rest)
  end.

(** ** A concrete environment, to run the embedding on *)

Module Demo.

Definition quote : string := String (ascii_of_nat 34) EmptyString.

Definition env : Env := {|
  ID_String := fun i => match i with mkID b => string_of_list_ascii b end;
  ids_FromString := fun s => (mkID (list_ascii_of_string s), None);
  utils_VMID := fun s => (mkID (list_ascii_of_string s), None);
  json_Unmarshal := fun s =>
    if HasPrefix s "{" then (mkGenesis (Some (mkChainConfig 99)) [], None)
    else (zeroGenesis, Some "invalid character looking for beginning of value");
  strconv_Quote := fun s => quote +:+ s +:+ quote;
  filepath_Join := fun a b => a +:+ "/" +:+ b;
  http_Get := fun _ => HttpResp 404 (EmptyString, None);
  os_WriteFile_err := fun _ => None;
  os_Rename := fun _ _ fs => (fs, None);
  binutils_InstallArchive := fun _ _ _ fs => (fs, None);
  binutils_StartServerProcess := None;
  runtime_GOOS := "linux";
  runtime_GOARCH := "amd64";
  AvalancheCliBinDir := "bin";
  AvalancheGoReleaseVersion := "v1.7.13";
  BootstrapSnapshotArchiveName := "bootstrapSnapshot.tar.gz";
  BootstrapSnapshotURL := "https://example.org/bootstrapSnapshot.tar.gz";
  DefaultSnapshotName := "default";
  backend_LoadSnapshot := fun _ _ => None;
  backend_CreateBlockchains := fun _ => ("created", None)
|}.

Definition application : Application := {|
  GetRunDir := "base/runs";
  GetBaseDir := "base";
  GetSnapshotsDir := "base/snapshots";
  LoadNodeConfig := (EmptyString, None);
  GetTokenName := fun _ => "TEST"
|}.

(** The deployer [NewLocalSubnetDeployer] builds, with a server process
    already running, avalanchego found locally, a client that connects and a
    plugin downloader that succeeds. *)
Definition deployer : LocalSubnetDeployer :=
  NewLocalSubnetDeployer env application
    (true, None)
    (fun _ _ _ => (true, "base/bin/avalanchego-v1.7.13", None))
    None
    (fun _ _ _ fs => (fs, None)).

(** A file system with both snapshot artifacts, the avalanchego
    installation and two genesis files, one of them not JSON. *)
Definition fs : gmap string FsNode :=
  list_to_map [
    ("base/snapshots/bootstrapSnapshot.tar.gz", File "archive");
    ("base/snapshots/anr-snapshot-default", Dir);
    ("base/bin/avalanchego-v1.7.13/plugins", Dir);
    ("base/bin/avalanchego-v1.7.13/avalanchego", File "elf");
    ("genesis.json", File "{ }");
    ("broken.json", File "not json")
  ].

Definition world (selects : list SelectEvent) : World := mkWorld fs selects [] false.

Definition node1 : NodeInfo := mkNodeInfo "node1" "http://127.0.0.1:9650".
Definition node2 : NodeInfo := mkNodeInfo "node2" "http://127.0.0.1:9652".

(** Cluster info of a healthy network that already runs the VM of chain
    [test] as blockchain [bc1]. *)
Definition deployedInfo : ClusterInfo :=
  mkClusterInfo [node1; node2] true true
                {[ "bc1" := mkCustomVmInfo "test" "bc1" ]} ["s3"; "s1"; "s2"].

(** Cluster info of a healthy network without custom VMs. *)
Definition freshInfo : ClusterInfo :=
  mkClusterInfo [node1; node2] true true ∅ ["s3"; "s1"; "s2"].

(** The network is up but its custom VMs are not. *)
Definition vmsDownInfo : ClusterInfo :=
  mkClusterInfo [node1; node2] true false
                {[ "bc1" := mkCustomVmInfo "test" "bc1" ]} ["s3"; "s1"; "s2"].

(** A healthy report that lists no node. *)
Definition noNodesInfo : ClusterInfo :=
  mkClusterInfo [] true true {[ "bc1" := mkCustomVmInfo "test" "bc1" ]} ["s3"; "s1"; "s2"].

(** Two polls: custom VMs down, then everything healthy. *)
Definition pollTwice : World :=
  world [Tick (HealthResp (Some vmsDownInfo)); Tick (HealthResp (Some deployedInfo))].

Definition pollTwiceDone : World := mkWorld fs [] [EHealth; EHealth] false.

(** One poll with custom VMs down, then the context is cancelled. *)
Definition pollThenCancel : World :=
  world [Tick (HealthResp (Some vmsDownInfo)); CtxDone "context canceled"].

(** The network comes up after the snapshot is loaded, and the report
    polled after the blockchain creation lists no node. *)
Definition bootThenNoNodes : World :=
  world [Tick (HealthErr "not bootstrapped"); Tick (HealthResp (Some freshInfo));
         Tick (HealthResp (Some noNodesInfo))].

(** The deployment of a new chain on a running network: three healthy
    polls. *)
Definition threePolls (last : ClusterInfo) : World :=
  world [Tick (HealthResp (Some deployedInfo)); Tick (HealthResp (Some deployedInfo));
         Tick (HealthResp (Some last))].

(** The first probe fails for a reason other than a network not yet
    bootstrapped. *)
Definition probeFails : World := world [Tick (HealthErr "connection refused")].

End Demo.

(** ** Notions used to state properties of the code *)

(** The number of timer events among the events of a script. *)
Fixpoint countTicks (selects : list SelectEvent) : nat :=
  match selects with
  | [] => 0
  | Tick _ :: rest => S (countTicks rest)
  | CtxDone _ :: rest => countTicks rest
  end.

(** The VM IDs [installNeededPlugins] asks the downloader for. *)
Definition pluginsToInstall (env : Env) (chainVMID : ID) (clusterInfo : option ClusterInfo)
  : gset string :=
  match clusterInfo with
  | Some ci =>
      fold_left (fun acc kv => acc ∪ {[ VmId (snd kv) ]})
                (map_to_list (CustomVms ci)) {[ ID_String env chainVMID ]}
  | None => {[ ID_String env chainVMID ]}
  end.

(** Shapes of the calls [doDeploy] makes, in the order it makes them: the
    creation of the blockchain and the polls after it; the start of the
    network; the plugin download followed by both. *)
Definition creationCalls (chain chainGenesis : string) (tr : list Effect) : Prop :=
  tr = [] \/
  exists s k,
    tr = ECreateBlockchains [mkBlockchainSpec chain chainGenesis (Some s)]
         :: repeat EHealth k.

Definition bootCalls (env : Env) (tr : list Effect) : Prop :=
  tr = [] \/ exists opts, tr = [ELoadSnapshot (DefaultSnapshotName env) opts].

Definition deployCalls (env : Env) (chain chainGenesis pluginDir binDir : string)
    (tr : list Effect) : Prop :=
  tr = [] \/
  exists vmIDs boot k creation,
    tr = EPluginDownload vmIDs pluginDir binDir :: boot ++ repeat EHealth k ++ creation /\
    bootCalls env boot /\ creationCalls chain chainGenesis creation.

(** A computation that leaves the deployer's [backendStartedHere] as it is. *)
Definition keepsFlag {A : Type} (m : M A) : Prop :=
  forall w o w', m w = (o, w') -> w_backendStartedHere w' = w_backendStartedHere w.

(** ** Package [vm]: the prompts for the chain descriptors and the fees *)

(** A state monad for the packages whose effects are not those of the local
    deployer: the state is threaded, a panic or a blocked call ends the run. *)
Definition St (S A : Type) : Type := S -> Outcome A * S.

Definition st_ret {S A : Type} (a : A) : St S A := fun s => (Ret a, s).

Definition st_bind {S A B : Type} (m : St S A) (k : A -> St S B) : St S B :=
  fun s =>
    match m s with
    | (Ret a, s') => k a s'
    | (Panic msg, s') => (Panic msg, s')
    | (Pending, s') => (Pending, s')
    end.

Definition st_panic {S A : Type} (msg : string) : St S A := fun s => (Panic msg, s).

Declare Scope st_scope.
Delimit Scope st_scope with st.
Notation "'let*' x ':=' m 'in' k" := (st_bind m (fun x => k))
  (at level 10, x pattern, m at level 100, k at level 200) : st_scope.

Module Vm.

Local Open Scope st_scope.

(** [stateDirection]: where the wizard goes next. *)
Inductive stateDirection : Type := forward | backward | stop.

(** [params.FeeConfig] of subnet-evm: [*big.Int] fields are pointers,
    [TargetBlockRate] is a [uint64]. *)
Record FeeConfig : Type := mkFeeConfig {
  GasLimit : option Z;
  TargetBlockRate : Z;
  MinBaseFee : option Z;
  TargetGas : option Z;
  BaseFeeChangeDenominator : option Z;
  MinBlockGasCost : option Z;
  MaxBlockGasCost : option Z;
  BlockGasCostStep : option Z
}.

(** [params.ChainConfig] of subnet-evm, passed and returned by value: the
    fee configuration and all its other fields. *)
Record ChainConfig (Other : Type) : Type := mkChainConfig {
  otherFields : Other;
  FeeConfig_ : FeeConfig
}.

Arguments mkChainConfig {Other} otherFields FeeConfig_.
Arguments otherFields {Other} c.
Arguments FeeConfig_ {Other} c.

(** The package-level values the two files use and do not declare, and the
    part of [application.Avalanche] they call. *)
Record Package : Type := mkPackage {
  StarterFeeConfig : FeeConfig;
  fastTarget : option Z;
  mediumTarget : option Z;
  slowTarget : option Z;
  goBackMsg : string;
  (** [Uint64] of a [big.Int] *)
  big_Uint64 : Z -> Z;
  (** [app.ChainIDExists] *)
  ChainIDExists : string -> bool * error
}.

(** [String] of a [big.Int] pointer: decimal, and [<nil>] for a nil pointer. *)
Definition big_String (x : option Z) : string :=
  match x with
  | Some z => pretty z
  | None => "<nil>"
  end.

(** What the prompter is asked. *)
Inductive Question : Type :=
| AskList (prompt : string) (options : list string)
| AskPositiveBigInt (prompt : string)
| AskString (prompt : string).

(** What the prompter returns for one question: the text chosen or typed,
    the number entered, and the error. *)
Record Answer : Type := mkAnswer {
  a_text : string;
  a_number : option Z;
  a_err : error
}.

(** The user at the terminal: the answers still to come, and the questions
    asked so far, oldest first. *)
Record Console : Type := mkConsole {
  answers : list Answer;
  asked : list Question
}.

(** One question: it is asked, and answered if the user still answers. *)
Definition ask (q : Question) : St Console Answer :=
  fun c =>
    match answers c with
    | [] => (Pending, mkConsole [] (asked c ++ [q]))
    | a :: rest => (Ret a, mkConsole rest (asked c ++ [q]))
    end.

(** [app.Prompt.CaptureList] *)
Definition CaptureList (prompt : string) (options : list string)
  : St Console (string * error) :=
  let* a := ask (AskList prompt options) in st_ret (a_text a, a_err a).

(** [app.Prompt.CapturePositiveBigInt] *)
Definition CapturePositiveBigInt (prompt : string) : St Console (option Z * error) :=
  let* a := ask (AskPositiveBigInt prompt) in st_ret (a_number a, a_err a).

(** [app.Prompt.CaptureString] *)
Definition CaptureString (prompt : string) : St Console (string * error) :=
  let* a := ask (AskString prompt) in st_ret (a_text a, a_err a).

(** [getChainID app]: the function calls itself for as long as the user
    enters chain IDs that exist already; each call consumes one answer. *)
Fixpoint getChainID_loop (pkg : Package) (todo : list Answer) (done : list Question)
  : Outcome (option Z * error) * Console :=
  match todo with
  | [] => (Pending, mkConsole [] (done ++ [AskPositiveBigInt "ChainId"]))
  | a :: rest =>
      let done' := done ++ [AskPositiveBigInt "ChainId"] in
      (* chainID, err := app.Prompt.CapturePositiveBigInt("ChainId") *)
      let chainID := a_number a in
      match a_err a with
      | Some e => (Ret (None, Some e), mkConsole rest done')
      | None =>
          match ChainIDExists pkg (big_String chainID) with
          | (_, Some e) => (Ret (None, Some e), mkConsole rest done')
          | (true, None) => getChainID_loop pkg rest done'
          | (false, None) => (Ret (chainID, None), mkConsole rest done')
          end
      end
  end.

Definition getChainID (pkg : Package) : St Console (option Z * error) :=
  fun c => getChainID_loop pkg (answers c) (asked c).

(** [getTokenName app] *)
Definition getTokenName : St Console (string * error) :=
  let* (tokenName, err) := CaptureString "Token symbol" in
  match err with
  | Some e => st_ret (EmptyString, Some e)
  | None => st_ret (tokenName, None)
  end.

(** [getDescriptors app] *)
Definition getDescriptors (pkg : Package)
  : St Console (option Z * string * stateDirection * error) :=
  let* (chainID, err) := getChainID pkg in
  match err with
  | Some e => st_ret (None, EmptyString, stop, Some e)
  | None =>
      let* (tokenName, err) := getTokenName in
      match err with
      | Some e => st_ret (None, EmptyString, stop, Some e)
      | None => st_ret (chainID, tokenName, forward, None)
      end
  end.

Definition useFast : string := "High disk use   / High Throughput   5 mil   gas/s".
Definition useMedium : string := "Medium disk use / Medium Throughput 2 mil   gas/s".
Definition useSlow : string :=
  "Low disk use    / Low Throughput    1.5 mil gas/s (C-Chain's setting)".
Definition customFee : string := "Customize fee config".

Definition setGasLimit : string := "Set gas limit".
Definition setBlockRate : string := "Set target block rate".
Definition setMinBaseFee : string := "Set min base fee".
Definition setTargetGas : string := "Set target gas".
Definition setBaseFeeChangeDenominator : string := "Set base fee change denominator".
Definition setMinBlockGas : string := "Set min block gas cost".
Definition setMaxBlockGas : string := "Set max block gas cost".
Definition setGasStep : string := "Set block gas cost step".

(** [config.FeeConfig = f] and [config.FeeConfig.TargetGas = t] on the copy
    of the configuration the function holds. *)
Definition withFeeConfig {Other : Type} (config : ChainConfig Other) (f : FeeConfig)
  : ChainConfig Other :=
  mkChainConfig (otherFields config) f.

Definition withTargetGas (f : FeeConfig) (t : option Z) : FeeConfig :=
  mkFeeConfig (GasLimit f) (TargetBlockRate f) (MinBaseFee f) t
              (BaseFeeChangeDenominator f) (MinBlockGasCost f) (MaxBlockGasCost f)
              (BlockGasCostStep f).

(** The eight prompts of the custom fee configuration and the
    [params.FeeConfig] literal built from their answers. *)
Definition customFeeConfig {Other : Type} (pkg : Package) (config : ChainConfig Other)
  : St Console (ChainConfig Other * stateDirection * error) :=
  let* (gasLimit, err) := CapturePositiveBigInt setGasLimit in
  match err with
  | Some e => st_ret (config, stop, Some e)
  | None =>
  let* (blockRate, err) := CapturePositiveBigInt setBlockRate in
  match err with
  | Some e => st_ret (config, stop, Some e)
  | None =>
  let* (minBaseFee, err) := CapturePositiveBigInt setMinBaseFee in
  match err with
  | Some e => st_ret (config, stop, Some e)
  | None =>
  let* (targetGas, err) := CapturePositiveBigInt setTargetGas in
  match err with
  | Some e => st_ret (config, stop, Some e)
  | None =>
  let* (baseDenominator, err) := CapturePositiveBigInt setBaseFeeChangeDenominator in
  match err with
  | Some e => st_ret (config, stop, Some e)
  | None =>
  let* (minBlockGas, err) := CapturePositiveBigInt setMinBlockGas in
  match err with
  | Some e => st_ret (config, stop, Some e)
  | None =>
  let* (maxBlockGas, err) := CapturePositiveBigInt setMaxBlockGas in
  match err with
  | Some e => st_ret (config, stop, Some e)
  | None =>
  let* (gasStep, err) := CapturePositiveBigInt setGasStep in
  match err with
  | Some e => st_ret (config, stop, Some e)
  | None =>
      match blockRate with
      | None => st_panic "invalid memory address or nil pointer dereference"
      | Some rate =>
          let feeConf :=
            mkFeeConfig gasLimit (big_Uint64 pkg rate) minBaseFee targetGas
                        baseDenominator minBlockGas maxBlockGas gasStep in
          st_ret (withFeeConfig config feeConf, forward, None)
      end
  end end end end end end end end.

(** [getFeeConfig config app] *)
Definition getFeeConfig {Other : Type} (pkg : Package) (config : ChainConfig Other)
  : St Console (ChainConfig Other * stateDirection * error) :=
  let feeConfigOptions := [useSlow; useMedium; useFast; customFee; goBackMsg pkg] in
  let* (feeDefault, err) := CaptureList "How would you like to set fees" feeConfigOptions in
  match err with
  | Some e => st_ret (config, stop, Some e)
  | None =>
      let config := withFeeConfig config (StarterFeeConfig pkg) in
      if String.eqb feeDefault useFast then
        st_ret (withFeeConfig config (withTargetGas (FeeConfig_ config) (fastTarget pkg)),
                forward, None)
      else if String.eqb feeDefault useMedium then
        st_ret (withFeeConfig config (withTargetGas (FeeConfig_ config) (mediumTarget pkg)),
                forward, None)
      else if String.eqb feeDefault useSlow then
        st_ret (withFeeConfig config (withTargetGas (FeeConfig_ config) (slowTarget pkg)),
                forward, None)
      else if String.eqb feeDefault (goBackMsg pkg) then st_ret (config, backward, None)
      else customFeeConfig pkg config
  end.

End Vm.

(** ** Package [subnet]: the deployer to a public network *)

Module Public.

Local Open Scope st_scope.

(** [models.Network]: the two public networks, and any other value. *)
Inductive Network : Type := Fuji | Mainnet | OtherNetwork (n : nat).

(** What [key.LoadSoft] followed by [KeyChain()] yields. *)
Definition KeyChain : Type := string.

(** [primary.Wallet]: the wallet [primary.NewWalletWithTxs] builds for an
    API endpoint and a key chain, with the transactions preloaded. *)
Record Wallet : Type := mkWallet {
  wallet_api : string;
  wallet_keys : KeyChain;
  wallet_preloaded : list ID
}.

(** [secp256k1fx.OutputOwners] *)
Record OutputOwners : Type := mkOutputOwners {
  Addrs : list string;
  Threshold : Z;
  Locktime : Z
}.

(** [validator.SubnetValidator] *)
Record SubnetValidator (NodeID : Type) : Type := mkSubnetValidator {
  NodeID_ : NodeID;
  Start : Z;
  End_ : Z;
  Wght : Z;
  Subnet : ID
}.

Arguments mkSubnetValidator {NodeID} NodeID_ Start End_ Wght Subnet.
Arguments Start {NodeID} s.
Arguments End_ {NodeID} s.
Arguments Wght {NodeID} s.
Arguments Subnet {NodeID} s.
Arguments NodeID_ {NodeID} s.

(** The calls the public deployer makes on the key store and the wallet. *)
Inductive Call (NodeID : Type) : Type :=
| LoadSoft (networkID : Z) (privKeyPath : string)
| NewWalletWithTxs (api : string) (kc : KeyChain) (preloadTxs : list ID)
| IssueCreateSubnetTx (owners : OutputOwners)
| IssueCreateChainTx (subnetID : ID) (genesis : string) (vmID : ID) (fxIDs : list ID)
                     (chainName : string)
| IssueAddSubnetValidatorTx (v : SubnetValidator NodeID).

Arguments LoadSoft {NodeID} networkID privKeyPath.
Arguments NewWalletWithTxs {NodeID} api kc preloadTxs.
Arguments IssueCreateSubnetTx {NodeID} owners.
Arguments IssueCreateChainTx {NodeID} subnetID genesis vmID fxIDs chainName.
Arguments IssueAddSubnetValidatorTx {NodeID} v.

(** The libraries and constants [public.go] imports. *)
Record Libs (NodeID Time : Type) : Type := mkLibs {
  FujiAPIEndpoint : string;
  MainnetAPIEndpoint : string;
  FujiID : Z;
  MainnetID : Z;
  VMID : string -> ID * error;
  key_LoadSoft : Z -> string -> KeyChain * error;
  primary_NewWalletWithTxs : string -> KeyChain -> list ID -> error;
  address_ParseToIDs : list string -> list string * error;
  wallet_IssueCreateSubnetTx : Wallet -> OutputOwners -> ID * error;
  wallet_IssueCreateChainTx : Wallet -> ID -> string -> ID -> list ID -> string -> ID * error;
  wallet_IssueAddSubnetValidatorTx : Wallet -> SubnetValidator NodeID -> ID * error;
  (** [time.Time.Unix] and [time.Time.Add] *)
  time_Unix : Time -> Z;
  time_Add : Time -> Z -> Time
}.

Arguments FujiAPIEndpoint {NodeID Time} l.
Arguments MainnetAPIEndpoint {NodeID Time} l.
Arguments FujiID {NodeID Time} l.
Arguments MainnetID {NodeID Time} l.
Arguments VMID {NodeID Time} l.
Arguments key_LoadSoft {NodeID Time} l.
Arguments primary_NewWalletWithTxs {NodeID Time} l.
Arguments address_ParseToIDs {NodeID Time} l.
Arguments wallet_IssueCreateSubnetTx {NodeID Time} l.
Arguments wallet_IssueCreateChainTx {NodeID Time} l.
Arguments wallet_IssueAddSubnetValidatorTx {NodeID Time} l.
Arguments time_Unix {NodeID Time} l.
Arguments time_Add {NodeID Time} l.

(** [PublicDeployer]: the fields its methods read. *)
Record PublicDeployer : Type := mkPublicDeployer {
  privKeyPath : string;
  network : Network
}.

(** The conversion [uint64(x)] of an [int64]. *)
Definition uint64 (x : Z) : Z := x mod 2 ^ 64.

Section Methods.

Context {NodeID Time : Type}.
Variable libs : Libs NodeID Time.

(** The state is the list of calls made so far, oldest first. *)
Definition call (c : Call NodeID) : St (list (Call NodeID)) unit :=
  fun tr => (Ret tt, tr ++ [c]).

(** [(d *PublicDeployer) loadWallet preloadTxs] *)
Definition loadWallet (d : PublicDeployer) (preloadTxs : list ID)
  : St (list (Call NodeID)) (option Wallet * string * error) :=
  match
    match network d with
    | Fuji => Some (FujiAPIEndpoint libs, FujiID libs)
    | Mainnet => Some (MainnetAPIEndpoint libs, MainnetID libs)
    | OtherNetwork _ => None
    end
  with
  | None => st_ret (None, EmptyString, Some "unsupported public network")
  | Some (api, networkID) =>
      let* _ := call (LoadSoft networkID (privKeyPath d)) in
      match key_LoadSoft libs networkID (privKeyPath d) with
      | (_, Some e) => st_ret (None, EmptyString, Some e)
      | (kc, None) =>
          let* _ := call (NewWalletWithTxs api kc preloadTxs) in
          match primary_NewWalletWithTxs libs api kc preloadTxs with
          | Some e => st_ret (None, EmptyString, Some e)
          | None => st_ret (Some (mkWallet api kc preloadTxs), api, None)
          end
      end
  end.

(** [(d *PublicDeployer) createSubnetTx controlKeys threshold wallet] *)
Definition createSubnetTx (controlKeys : list string) (threshold : Z) (wallet : Wallet)
  : St (list (Call NodeID)) (ID * error) :=
  match address_ParseToIDs libs controlKeys with
  | (_, Some e) => st_ret (ids_Empty, Some e)
  | (addrs, None) =>
      let owners := mkOutputOwners addrs threshold 0 in
      let* _ := call (IssueCreateSubnetTx owners) in
      st_ret (wallet_IssueCreateSubnetTx libs wallet owners)
  end.

(** [(d *PublicDeployer) createBlockchainTx chainName vmID subnetID genesis wallet] *)
Definition createBlockchainTx (chainName : string) (vmID subnetID : ID) (genesis : string)
    (wallet : Wallet) : St (list (Call NodeID)) (ID * error) :=
  let fxIDs : list ID := [] in
  let* _ := call (IssueCreateChainTx subnetID genesis vmID fxIDs chainName) in
  st_ret (wallet_IssueCreateChainTx libs wallet subnetID genesis vmID fxIDs chainName).

(** [(d *PublicDeployer) Deploy controlKeys threshold chain genesis] *)
Definition Deploy (d : PublicDeployer) (controlKeys : list string) (threshold : Z)
    (chain genesis : string) : St (list (Call NodeID)) (ID * ID * error) :=
  let* (wallet, api, err) := loadWallet d [] in
  match err with
  | Some e => st_ret (ids_Empty, ids_Empty, Some e)
  | None =>
      match VMID libs chain with
      | (_, Some e) =>
          st_ret (ids_Empty, ids_Empty,
                  Some ("failed to create VM ID from " +:+ chain +:+ ": " +:+ e))
      | (vmID, None) =>
          match wallet with
          | None => st_panic "invalid memory address or nil pointer dereference"
          | Some wallet =>
              let* (subnetID, err) := createSubnetTx controlKeys threshold wallet in
              match err with
              | Some e => st_ret (ids_Empty, ids_Empty, Some e)
              | None =>
                  let* (blockchainID, err) :=
                    createBlockchainTx chain vmID subnetID genesis wallet in
                  match err with
                  | Some e => st_ret (ids_Empty, ids_Empty, Some e)
                  | None => st_ret (subnetID, blockchainID, None)
                  end
              end
          end
      end
  end.

(** [(d *PublicDeployer) AddValidator subnet nodeID weight startTime duration] *)
Definition AddValidator (d : PublicDeployer) (subnet : ID) (nodeID : NodeID) (weight : Z)
    (startTime : Time) (duration : Z) : St (list (Call NodeID)) error :=
  let* (wallet, _, err) := loadWallet d [subnet] in
  match err with
  | Some e => st_ret (Some e)
  | None =>
      match wallet with
      | None => st_panic "invalid memory address or nil pointer dereference"
      | Some wallet =>
          let validator :=
            mkSubnetValidator nodeID
              (uint64 (time_Unix libs startTime))
              (uint64 (time_Unix libs (time_Add libs startTime duration)))
              weight subnet in
          let* _ := call (IssueAddSubnetValidatorTx validator) in
          match wallet_IssueAddSubnetValidatorTx libs wallet validator with
          | (_, Some e) => st_ret (Some e)
          | (_, None) => st_ret None
          end
      end
  end.

End Methods.

End Public.

(** ** Sample inputs for the prompts and the public deployer *)

Module VmDemo.

Definition starter : Vm.FeeConfig :=
  Vm.mkFeeConfig (Some 8000000%Z) 2%Z (Some 25000000000%Z) (Some 15000000%Z)
                 (Some 36%Z) (Some 0%Z) (Some 1000000%Z) (Some 200000%Z).

(** Chain ID 43114 is the one that exists already. *)
Definition pkg : Vm.Package :=
  Vm.mkPackage starter (Some 50000000%Z) (Some 20000000%Z) (Some 15000000%Z)
               "Go back to previous step"
               (fun z => (z mod 2 ^ 64)%Z)
               (fun s => (String.eqb s "43114", None)).

Definition number (z : Z) : Vm.Answer := Vm.mkAnswer EmptyString (Some z) None.
Definition text (s : string) : Vm.Answer := Vm.mkAnswer s None None.
Definition failure (e : string) : Vm.Answer := Vm.mkAnswer EmptyString None (Some e).

Definition console (l : list Vm.Answer) : Vm.Console := Vm.mkConsole l [].

(** A chain configuration whose other fields are its chain ID. *)
Definition config : Vm.ChainConfig Z :=
  Vm.mkChainConfig 1%Z
    (Vm.mkFeeConfig (Some 1%Z) 1%Z (Some 1%Z) (Some 1%Z) (Some 1%Z) (Some 1%Z)
                    (Some 1%Z) (Some 1%Z)).

Definition customAnswers : list Vm.Answer :=
  [text "Customize fee config"; number 11; number 12; number 13; number 14;
   number 15; number 16; number 17; number 18].

End VmDemo.

(** The question [getFeeConfig] opens with, and the prompts of the custom
    fee configuration in the order the code asks them. *)
Definition feeQuestion (pkg : Vm.Package) : Vm.Question :=
  Vm.AskList "How would you like to set fees"
    [Vm.useSlow; Vm.useMedium; Vm.useFast; Vm.customFee; Vm.goBackMsg pkg].

Definition customPrompts : list Vm.Question :=
  map Vm.AskPositiveBigInt
    [Vm.setGasLimit; Vm.setBlockRate; Vm.setMinBaseFee; Vm.setTargetGas;
     Vm.setBaseFeeChangeDenominator; Vm.setMinBlockGas; Vm.setMaxBlockGas;
     Vm.setGasStep].

Module PublicDemo.

(** Node IDs are strings and times are seconds since the epoch; the key at
    [fuji.pk] loads, control keys parse to themselves, and transaction IDs
    are derived from their content. *)
Definition idOf (s : string) : ID := mkID (list_ascii_of_string s).

Definition libs : Public.Libs string Z :=
  Public.mkLibs string Z
    "https://api.avax-test.network" "https://api.avax.network" 5%Z 1%Z
    (fun chain => (idOf ("vm-" +:+ chain), None))
    (fun networkID path =>
       if String.eqb path "fuji.pk" then ("keychain", None)
       else (EmptyString, Some "open: no such file or directory"))
    (fun _ _ _ => None)
    (fun keys => (keys, None))
    (fun _ owners => (idOf "subnet-1", None))
    (fun _ subnetID _ _ _ chainName =>
       if String.eqb chainName "bad" then (ids_Empty, Some "tx rejected")
       else (idOf ("chain-" +:+ chainName), None))
    (fun _ _ => (idOf "tx-1", None))
    (fun t => t)
    (fun t d => (t + d)%Z).

Definition fuji : Public.PublicDeployer := Public.mkPublicDeployer "fuji.pk" Public.Fuji.

Definition other : Public.PublicDeployer :=
  Public.mkPublicDeployer "fuji.pk" (Public.OtherNetwork 0).

End PublicDemo.

(** * Properties *)

(** ** Strings and sorting *)

Lemma ascii_compare_refl (a : ascii) : Ascii.compare a a = Eq.
Proof. unfold Ascii.compare. apply N.compare_refl. Qed.

Lemma string_compare_refl (s : string) : String.compare s s = Eq.
Proof. induction s as [|c s IH]; simpl; [done|]. by rewrite ascii_compare_refl. Qed.

Lemma string_compare_lt_trans (a b c : string) :
  String.compare a b = Lt -> String.compare b c = Lt -> String.compare a c = Lt.
Proof.
  revert b c. induction a as [|x a IH]; intros [|y b] [|z c]; simpl; try done.
  unfold Ascii.compare.
  destruct (N.compare_spec (N_of_ascii x) (N_of_ascii y)) as [Hxy|Hxy|Hxy];
    destruct (N.compare_spec (N_of_ascii y) (N_of_ascii z)) as [Hyz|Hyz|Hyz];
    try done; intros H1 H2.
  - rewrite Hxy, Hyz, N.compare_refl. eauto.
  - rewrite Hxy. by rewrite (proj2 (N.compare_lt_iff _ _) Hyz).
  - rewrite <- Hyz. by rewrite (proj2 (N.compare_lt_iff _ _) Hxy).
  - assert (Hxz : (N_of_ascii x < N_of_ascii z)%N) by lia.
    by rewrite (proj2 (N.compare_lt_iff _ _) Hxz).
Qed.

#[local] Instance string_le_trans : Transitive string_le.
Proof.
  intros a b c. unfold string_le, String.leb.
  destruct (String.compare a b) eqn:Hab; [|
    destruct (String.compare b c) eqn:Hbc |]; try done.
  - apply String.compare_eq_iff in Hab. by subst.
  - apply String.compare_eq_iff in Hbc. subst. by rewrite Hab.
  - by rewrite (string_compare_lt_trans a b c).
Qed.

#[local] Instance string_le_antisym : AntiSymm (=) string_le.
Proof. intros a b. apply String.leb_antisym. Qed.

Lemma sort_Strings_Sorted (a : list string) : Sorted string_le (sort_Strings a).
Proof. apply StringSort.Sorted_sort. Qed.

Lemma sort_Strings_Permutation (a : list string) : Permutation a (sort_Strings a).
Proof. apply StringSort.Permuted_sort. Qed.

(** The increasing arrangement of a list of strings is unique: whatever
    algorithm [sort.Strings] runs, this is its result. *)
Lemma sort_Strings_unique (a sorted : list string) :
  Permutation a sorted -> Sorted string_le sorted -> sorted = sort_Strings a.
Proof.
  intros Hp Hs. apply (Sorted_unique string_le); [done|apply sort_Strings_Sorted|].
  rewrite <- Hp. apply sort_Strings_Permutation.
Qed.

Lemma sort_Strings_length (a : list string) : length (sort_Strings a) = length a.
Proof. symmetry. apply Permutation_length, sort_Strings_Permutation. Qed.

(** ** Running the monad *)

Lemma bind_Ret {A B : Type} (m : M A) (k : A -> M B) (w w' : World) (a : A) :
  m w = (Ret a, w') -> bind m k w = k a w'.
Proof. unfold bind. by intros ->. Qed.

Lemma cli_CreateBlockchains_run (env : Env) (specs : list BlockchainSpec) (w : World) :
  cli_CreateBlockchains env specs w
  = (Ret (backend_CreateBlockchains env specs), record (ECreateBlockchains specs) w).
Proof. reflexivity. Qed.

(** ** The polling loop: what it consumes and what it issues *)

Lemma pollLoop_keepsPolling (pre rest : list SelectEvent) (tr : list Effect) :
  forallb keepsPolling pre = true ->
  pollLoop (pre ++ rest) tr = pollLoop rest (tr ++ repeat EHealth (length pre)).
Proof.
  revert tr. induction pre as [|ev pre IH]; intros tr Hpre; simpl.
  - by rewrite app_nil_r.
  - simpl in Hpre. apply andb_prop in Hpre as [Hev Hpre].
    replace (tr ++ EHealth :: repeat EHealth (length pre))
      with ((tr ++ [EHealth]) ++ repeat EHealth (length pre))
      by (by rewrite <- app_assoc).
    rewrite <- (IH (tr ++ [EHealth]) Hpre).
    destruct ev as [e|[e|[ci|]]]; simpl in Hev; try done.
    destruct (Healthy ci); simpl in *; [|done].
    destruct (CustomVmsHealthy ci); simpl in *; done.
Qed.

(** Every return of the loop is explained by the events it consumed: a run
    of responses that keep it polling, then the one event that ends it. *)
Lemma pollLoop_inv (selects : list SelectEvent) (tr : list Effect)
    (r : option ClusterInfo * error) (rest : list SelectEvent) (tr' : list Effect) :
  pollLoop selects tr = (Ret r, rest, tr') ->
  exists pre ev,
    selects = pre ++ ev :: rest /\ forallb keepsPolling pre = true /\
    match ev with
    | CtxDone e => r = (None, Some e) /\ tr' = tr ++ repeat EHealth (length pre)
    | Tick (HealthErr e) =>
        r = (None,
             Some (healthCheckFailed e))
        /\ tr' = tr ++ repeat EHealth (S (length pre))
    | Tick (HealthResp None) => False
    | Tick (HealthResp (Some ci)) =>
        Healthy ci = true /\ CustomVmsHealthy ci = true /\ r = (Some ci, None)
        /\ tr' = tr ++ repeat EHealth (S (length pre))
    end.
Proof.
  revert tr. induction selects as [|ev selects IH]; intros tr H; simpl in H; [done|].
  assert (Hcont : pollLoop selects (tr ++ [EHealth]) = (Ret r, rest, tr') ->
          keepsPolling ev = true ->
          exists pre ev0, ev :: selects = pre ++ ev0 :: rest /\
            forallb keepsPolling pre = true /\
            match ev0 with
            | CtxDone e => r = (None, Some e) /\ tr' = tr ++ repeat EHealth (length pre)
            | Tick (HealthErr e) =>
                r = (None,
                     Some (healthCheckFailed e))
                /\ tr' = tr ++ repeat EHealth (S (length pre))
            | Tick (HealthResp None) => False
            | Tick (HealthResp (Some ci)) =>
                Healthy ci = true /\ CustomVmsHealthy ci = true /\ r = (Some ci, None)
                /\ tr' = tr ++ repeat EHealth (S (length pre))
            end).
  { intros Hrec Hev. destruct (IH _ Hrec) as (pre & ev0 & -> & Hpre & Hev0).
    exists (ev :: pre), ev0. split; [done|]. split; [simpl; by rewrite Hev, Hpre|].
    destruct ev0 as [e|[e|[ci|]]]; simpl; rewrite <- ?app_assoc in Hev0; simpl in Hev0;
      done. }
  destruct ev as [e|[e|[ci|]]].
  - inversion H; subst. exists [], (CtxDone e). simpl. by rewrite app_nil_r.
  - inversion H; subst. exists [], (Tick (HealthErr e)). by simpl.
  - destruct (Healthy ci) eqn:Hh; simpl in H.
    + destruct (CustomVmsHealthy ci) eqn:Hc; simpl in H.
      * inversion H; subst. exists [], (Tick (HealthResp (Some ci))). by simpl.
      * apply Hcont; [done|]. simpl. by rewrite Hh, Hc.
    + apply Hcont; [done|]. simpl. by rewrite Hh.
  - by apply Hcont.
Qed.

(** The loop only adds [Health] calls to the trace, also when it panics or
    stays blocked. *)
Lemma pollLoop_trace (selects : list SelectEvent) (tr : list Effect)
    (o : Outcome (option ClusterInfo * error)) (rest : list SelectEvent)
    (tr' : list Effect) :
  pollLoop selects tr = (o, rest, tr') -> exists k, tr' = tr ++ repeat EHealth k.
Proof.
  revert tr. induction selects as [|ev selects IH]; intros tr H; simpl in H.
  - inversion H; subst. exists 0. by rewrite app_nil_r.
  - assert (Hcont : pollLoop selects (tr ++ [EHealth]) = (o, rest, tr') ->
                    exists k, tr' = tr ++ repeat EHealth k).
    { intros Hrec. destruct (IH _ Hrec) as [k ->]. exists (S k).
      by rewrite <- app_assoc. }
    destruct ev as [e|[e|[ci|]]]; [| | |by auto].
    + inversion H; subst. exists 0. by rewrite app_nil_r.
    + inversion H; subst. by exists 1.
    + destruct (Healthy ci); simpl in H; [|by auto].
      destruct (CustomVmsHealthy ci); simpl in H; [|by auto].
      inversion H; subst. by exists 1.
Qed.

Lemma WaitForHealthy_frame (d : LocalSubnetDeployer) (i : Z) (w w' : World)
    (o : Outcome (option ClusterInfo * error)) :
  WaitForHealthy d i w = (o, w') ->
  w_fs w' = w_fs w /\ w_backendStartedHere w' = w_backendStartedHere w /\
  exists k, w_trace w' = w_trace w ++ repeat EHealth k.
Proof.
  unfold WaitForHealthy. destruct (pollLoop (w_selects w) (w_trace w)) as [[o' rest] tr] eqn:H.
  intros [= <- <-]. simpl. repeat split. by apply pollLoop_trace in H.
Qed.

(** C2 (as amended). [WaitForHealthy] returns a nil error only on a Health
    response that carries cluster info with both the overall-healthy and
    the custom-VMs-healthy flag set, and returns that cluster info; every
    response before it kept the loop polling.  On a response with
    healthy=true and customVmsHealthy=false the poller does not return: it
    goes back to the select, where it polls once more if the timer fires
    and returns the context's error, without a further poll, if the
    context is done. *)
Theorem WaitForHealthy_success_needs_both_flags
    (d : LocalSubnetDeployer) (i : Z) (w : World) :
  (forall r w',
      WaitForHealthy d i w = (Ret (r, None), w') ->
      exists pre ci,
        w_selects w = pre ++ Tick (HealthResp (Some ci)) :: w_selects w' /\
        forallb keepsPolling pre = true /\
        Healthy ci = true /\ CustomVmsHealthy ci = true /\ r = Some ci /\
        w_trace w' = w_trace w ++ repeat EHealth (S (length pre)))
  /\
  (forall ci rest,
      w_selects w = Tick (HealthResp (Some ci)) :: rest ->
      Healthy ci = true -> CustomVmsHealthy ci = false ->
      WaitForHealthy d i w = WaitForHealthy d i (afterTick w rest) /\
      (forall h rest', rest = Tick h :: rest' ->
         exists o w' k,
           WaitForHealthy d i w = (o, w') /\
           w_trace w' = w_trace w ++ [EHealth; EHealth] ++ repeat EHealth k) /\
      (forall e rest', rest = CtxDone e :: rest' ->
         WaitForHealthy d i w = (Ret (None, Some e), afterTick w rest'))).
Proof.
  split.
  - intros r w' H. unfold WaitForHealthy in H.
    destruct (pollLoop (w_selects w) (w_trace w)) as [[o rest] tr] eqn:Hloop.
    injection H as -> <-. simpl.
    apply pollLoop_inv in Hloop as (pre & ev & Hsel & Hpre & Hev).
    destruct ev as [e|[e|[ci|]]]; try done; [by destruct Hev..|].
    destruct Hev as (Hh & Hc & [= ->] & ->). by exists pre, ci.
  - intros ci rest Hsel Hh Hc.
    assert (Hstep : WaitForHealthy d i w = WaitForHealthy d i (afterTick w rest)).
    { unfold WaitForHealthy, afterTick. rewrite Hsel. simpl. by rewrite Hh, Hc. }
    split; [done|]. split.
    + intros h rest' ->. rewrite Hstep.
      destruct (WaitForHealthy d i (afterTick w (Tick h :: rest'))) as [o w'] eqn:Hrun.
      exists o, w'.
      assert (Hrun' : WaitForHealthy d i (afterTick (afterTick w (Tick h :: rest')) rest')
                      = (o, w') \/ exists k, w_trace w' = w_trace w ++ [EHealth; EHealth] ++ repeat EHealth k).
      { unfold WaitForHealthy, afterTick in Hrun |- *. simpl in Hrun |- *.
        destruct h as [e|[ci'|]]; [| |by left].
        - right. injection Hrun as <- <-. exists 0. simpl. by rewrite <- app_assoc.
        - destruct (Healthy ci'); simpl in Hrun; [|by left].
          destruct (CustomVmsHealthy ci'); simpl in Hrun; [|by left].
          right. injection Hrun as <- <-. exists 0. simpl. by rewrite <- app_assoc. }
      destruct Hrun' as [Hrun'|[k Hk]]; [|by exists k].
      apply WaitForHealthy_frame in Hrun' as (_ & _ & k & Hk). exists k.
      split; [done|]. rewrite Hk. simpl. by rewrite <- !app_assoc.
    + intros e rest' ->. rewrite Hstep. reflexivity.
Qed.

Lemma WaitForHealthy_success_needs_both_flags_witness :
  (exists pre ci,
      w_selects Demo.pollTwice
        = pre ++ Tick (HealthResp (Some ci)) :: w_selects Demo.pollTwiceDone /\
      forallb keepsPolling pre = true /\
      Healthy ci = true /\ CustomVmsHealthy ci = true /\
      Some Demo.deployedInfo = Some ci /\
      w_trace Demo.pollTwiceDone
        = w_trace Demo.pollTwice ++ repeat EHealth (S (length pre)))
  /\
  WaitForHealthy Demo.deployer 100 Demo.pollThenCancel
    = (Ret (None, Some "context canceled"), afterTick Demo.pollThenCancel []).
Proof.
  split.
  - apply (proj1 (WaitForHealthy_success_needs_both_flags
                    Demo.deployer 100 Demo.pollTwice)).
    reflexivity.
  - apply (proj2 (WaitForHealthy_success_needs_both_flags
                    Demo.deployer 100 Demo.pollThenCancel) Demo.vmsDownInfo
                 [CtxDone "context canceled"]); reflexivity.
Defined.

(** C2, as stated, fails: after a response with healthy=true and
    customVmsHealthy=false the context may be done at the next select, and
    the poller returns the context's error with that one Health call made
    and no further poll. *)
Lemma poll_again_preempted_by_cancellation :
  Healthy Demo.vmsDownInfo = true /\ CustomVmsHealthy Demo.vmsDownInfo = false /\
  w_selects Demo.pollThenCancel
    = [Tick (HealthResp (Some Demo.vmsDownInfo)); CtxDone "context canceled"] /\
  WaitForHealthy Demo.deployer 100 Demo.pollThenCancel
    = (Ret (None, Some "context canceled"), mkWorld Demo.fs [] [EHealth] false) /\
  ~ (exists o w' k,
        WaitForHealthy Demo.deployer 100 Demo.pollThenCancel = (o, w') /\
        w_trace w' = w_trace Demo.pollThenCancel ++ [EHealth; EHealth] ++ repeat EHealth k).
Proof.
  repeat split.
  intros (o & w' & k & Hrun & Htr).
  change (WaitForHealthy Demo.deployer 100 Demo.pollThenCancel)
    with (Ret (A := option ClusterInfo * error) (None, Some "context canceled"),
          mkWorld Demo.fs [] [EHealth] false) in Hrun.
  injection Hrun as <- <-. simpl in Htr. discriminate Htr.
Qed.

(** ** Cancellation

    The [select] of the polling loop is modelled by what it observes.  When
    it observes the context done, [WaitForHealthy] returns the context's
    error at once: [Health] is not called again, whatever the backend would
    have answered. *)
Lemma WaitForHealthy_context_done (d : LocalSubnetDeployer) (i : Z) (w : World)
    (pre rest : list SelectEvent) (ctxErr : string) :
  w_selects w = pre ++ CtxDone ctxErr :: rest ->
  forallb keepsPolling pre = true ->
  WaitForHealthy d i w
  = (Ret (None, Some ctxErr),
     mkWorld (w_fs w) rest (w_trace w ++ repeat EHealth (length pre))
             (w_backendStartedHere w)).
Proof.
  intros Hsel Hpre. unfold WaitForHealthy.
  by rewrite Hsel, (pollLoop_keepsPolling pre _ _ Hpre).
Qed.

(** ** Endpoints *)

Lemma append_assoc (a b c : string) : (a +:+ b) +:+ c = a +:+ (b +:+ c).
Proof.
  induction a as [|x a IH]; [done|].
  change (String x ((a +:+ b) +:+ c) = String x (a +:+ (b +:+ c))). congruence.
Qed.

Lemma fold_left_snoc {A B : Type} (f : A -> B) (l : list A) (acc : list B) :
  fold_left (fun acc x => acc ++ [f x]) l acc = acc ++ map f l.
Proof.
  revert acc. induction l as [|x l IH]; intros acc; simpl.
  - by rewrite app_nil_r.
  - by rewrite IH, <- app_assoc.
Qed.

(** The two nested loops of [GetEndpoints] as one comprehension. *)
Lemma GetEndpoints_flat_map (env : Env) (ci : ClusterInfo) :
  GetEndpoints env ci
  = flat_map (fun nodeInfo =>
                map (fun kv => endpointLine env nodeInfo (fst kv) (snd kv))
                    (map_to_list (CustomVms ci)))
             (NodeInfos ci).
Proof.
  unfold GetEndpoints.
  enough (H : forall nodes acc,
             fold_left
               (fun endpoints nodeInfo =>
                  fold_left
                    (fun endpoints kv =>
                       endpoints ++ [endpointLine env nodeInfo (fst kv) (snd kv)])
                    (map_to_list (CustomVms ci)) endpoints) nodes acc
             = acc ++ flat_map
                        (fun nodeInfo =>
                           map (fun kv => endpointLine env nodeInfo (fst kv) (snd kv))
                               (map_to_list (CustomVms ci))) nodes)
    by apply (H _ []).
  induction nodes as [|n nodes IH]; intros acc; simpl.
  - by rewrite app_nil_r.
  - rewrite IH. rewrite (fold_left_snoc (fun kv => endpointLine env n (fst kv) (snd kv))).
    by rewrite <- app_assoc.
Qed.

Lemma GetEndpoints_list_prod (env : Env) (ci : ClusterInfo) :
  GetEndpoints env ci
  = map (fun p => endpointLine env (fst p) (fst (snd p)) (snd (snd p)))
        (list_prod (NodeInfos ci) (map_to_list (CustomVms ci))).
Proof.
  rewrite GetEndpoints_flat_map.
  induction (NodeInfos ci) as [|n nodes IH]; simpl; [done|].
  by rewrite map_app, map_map, IH.
Qed.

Lemma GetEndpoints_length (env : Env) (ci : ClusterInfo) :
  length (GetEndpoints env ci) = length (NodeInfos ci) * size (CustomVms ci).
Proof.
  rewrite GetEndpoints_list_prod, length_map, length_prod.
  by rewrite length_map_to_list.
Qed.

(** C7. [GetEndpoints] is a function of the cluster info alone (and of the
    formatting of [%q]); it returns the empty list when there is no node or
    no custom VM, and in general one line for each pair of a node and an
    entry of the custom-VM mapping, each entry of the mapping counted once,
    the line ending in [<node-uri>/ext/bc/<blockchain-id>/rpc]. *)
Theorem GetEndpoints_one_line_per_pair (env : Env) (nodes : list NodeInfo)
    (healthy vmsHealthy : bool) (vms : gmap string CustomVmInfo) (subnets : list string) :
  GetEndpoints env (mkClusterInfo [] healthy vmsHealthy vms subnets) = []
  /\ GetEndpoints env (mkClusterInfo nodes healthy vmsHealthy ∅ subnets) = []
  /\ Permutation
       (GetEndpoints env (mkClusterInfo nodes healthy vmsHealthy vms subnets))
       (map (fun p => endpointLine env (fst p) (fst (snd p)) (snd (snd p)))
            (list_prod nodes (map_to_list vms)))
  /\ NoDup (map_to_list vms)
  /\ (forall blockchainID vmInfo,
        (blockchainID, vmInfo) ∈ map_to_list vms <-> vms !! blockchainID = Some vmInfo)
  /\ length (GetEndpoints env (mkClusterInfo nodes healthy vmsHealthy vms subnets))
     = length nodes * size vms
  /\ (forall nodeInfo blockchainID vmInfo,
        endpointLine env nodeInfo blockchainID vmInfo
        = ("Endpoint at node " +:+ Name nodeInfo +:+ " for blockchain "
           +:+ strconv_Quote env blockchainID +:+ " with VM ID "
           +:+ strconv_Quote env (VmId vmInfo) +:+ ": ")
          +:+ (Uri nodeInfo +:+ "/ext/bc/" +:+ blockchainID +:+ "/rpc")).
Proof.
  split; [reflexivity|]. split.
  { rewrite GetEndpoints_flat_map. simpl. rewrite map_to_list_empty.
    induction nodes as [|n nodes IH]; simpl; done. }
  split; [by rewrite GetEndpoints_list_prod|].
  split; [apply NoDup_map_to_list|].
  split; [intros; apply elem_of_map_to_list|].
  split; [apply GetEndpoints_length|].
  intros nodeInfo blockchainID vmInfo. unfold endpointLine.
  by rewrite !append_assoc.
Qed.

Lemma GetEndpoints_one_line_per_pair_witness :
  length (GetEndpoints Demo.env Demo.deployedInfo) = 2
  /\ ("bc1", mkCustomVmInfo "test" "bc1") ∈ map_to_list (CustomVms Demo.deployedInfo).
Proof.
  destruct (GetEndpoints_one_line_per_pair
              Demo.env [Demo.node1; Demo.node2] true true
              {[ "bc1" := mkCustomVmInfo "test" "bc1" ]} ["s3"; "s1"; "s2"])
    as (_ & _ & _ & _ & Hin & Hlen & _).
  split.
  - exact Hlen.
  - apply Hin. reflexivity.
Defined.

Lemma GetEndpoints_first (env : Env) (ci : ClusterInfo) :
  is_Some (GetEndpoints env ci !! 0) <-> NodeInfos ci <> [] /\ CustomVms ci <> ∅.
Proof.
  rewrite lookup_lt_is_Some, GetEndpoints_length, <- (map_size_empty_iff (CustomVms ci)).
  destruct (NodeInfos ci) as [|n nodes]; simpl.
  - split; [lia|]. by intros [? _].
  - split; [|lia]. intros H. split; [done|]. lia.
Qed.

(** ** [doDeploy], step by step *)

Lemma doDeploy_probeNetwork (env : Env) (d : LocalSubnetDeployer)
    (chain chainGenesis avalancheGoBinPath pluginDir : string) (w w1 : World) :
  SetupLocalEnv env d w = (Ret (avalancheGoBinPath, pluginDir, None), w1) ->
  getClientFunc d = None ->
  doDeploy env d chain chainGenesis w
  = defer (probeNetwork env d chain chainGenesis avalancheGoBinPath pluginDir)
          cli_Close w1.
Proof.
  intros Hsetup Hclient. unfold doDeploy.
  rewrite (bind_Ret _ _ _ _ _ Hsetup). by rewrite Hclient.
Qed.

Lemma getGenesis_run (env : Env) (genesisFile genBytes : string) (w : World) :
  w_fs w !! genesisFile = Some (File genBytes) ->
  getGenesis env genesisFile w = (Ret (json_Unmarshal env genBytes), w).
Proof.
  intros Hfile. unfold getGenesis, get_fs, bind, ReadFile. rewrite Hfile.
  by destruct (json_Unmarshal env genBytes) as [g [e|]].
Qed.

Lemma probeNetwork_bad_genesis (env : Env) (d : LocalSubnetDeployer)
    (chain chainGenesis avalancheGoBinPath pluginDir genBytes e : string)
    (genesis : Genesis) (w : World) :
  w_fs w !! chainGenesis = Some (File genBytes) ->
  json_Unmarshal env genBytes = (genesis, Some e) ->
  probeNetwork env d chain chainGenesis avalancheGoBinPath pluginDir w
  = (Ret (ids_Empty, ids_Empty, Some ("failed to unpack chain ID from genesis: " +:+ e)), w).
Proof.
  intros Hfile Hjson. unfold probeNetwork, get_fs, bind at 1, FileExists, Stat_exists.
  rewrite Hfile. simpl.
  rewrite (bind_Ret _ _ _ _ _ (getGenesis_run env _ _ _ Hfile)). by rewrite Hjson.
Qed.

Lemma probeNetwork_wait (env : Env) (d : LocalSubnetDeployer)
    (chain chainGenesis avalancheGoBinPath pluginDir genBytes : string)
    (genesis : Genesis) (config : ChainConfig) (w w' : World)
    (clusterInfo : option ClusterInfo) (err : error) :
  w_fs w !! chainGenesis = Some (File genBytes) ->
  json_Unmarshal env genBytes = (genesis, None) ->
  Config genesis = Some config ->
  WaitForHealthy d (healthCheckInterval d) w = (Ret (clusterInfo, err), w') ->
  probeNetwork env d chain chainGenesis avalancheGoBinPath pluginDir w
  = match err with
    | Some e =>
        if Contains e "not bootstrapped" then
          deployVM env d chain chainGenesis avalancheGoBinPath pluginDir
                   (GetRunDir (app d)) false clusterInfo w'
        else (Ret (ids_Empty, ids_Empty, Some ("failed to query network health: " +:+ e)),
              w')
    | None =>
        deployVM env d chain chainGenesis avalancheGoBinPath pluginDir
                 (GetRunDir (app d)) true clusterInfo w'
    end.
Proof.
  intros Hfile Hjson Hconfig Hwait.
  unfold probeNetwork, get_fs, bind at 1, FileExists, Stat_exists.
  rewrite Hfile. simpl.
  rewrite (bind_Ret _ _ _ _ _ (getGenesis_run env _ _ _ Hfile)), Hjson, Hconfig.
  rewrite (bind_Ret _ _ _ _ _ Hwait).
  destruct err as [e|]; [|done]. by destruct (Contains e "not bootstrapped").
Qed.

(** An error of the poller always comes with a nil cluster info. *)
Lemma WaitForHealthy_error_nil (d : LocalSubnetDeployer) (i : Z) (w w' : World)
    (clusterInfo : option ClusterInfo) (e : string) :
  WaitForHealthy d i w = (Ret (clusterInfo, Some e), w') -> clusterInfo = None.
Proof.
  unfold WaitForHealthy.
  destruct (pollLoop (w_selects w) (w_trace w)) as [[o rest] tr] eqn:Hloop.
  intros [= -> <-]. apply pollLoop_inv in Hloop as (pre & ev & _ & _ & Hev).
  destruct ev as [e'|[e'|[ci|]]]; try done.
  - by destruct Hev as [[= -> _] _].
  - by destruct Hev as [[= -> _] _].
  - by destruct Hev as (_ & _ & [=] & _).
Qed.

Lemma alreadyDeployed_true (env : Env) (chainVMID : ID) (ci : ClusterInfo) :
  alreadyDeployed env chainVMID (Some ci) = true <->
  exists blockchainID vmInfo,
    CustomVms ci !! blockchainID = Some vmInfo /\ VmId vmInfo = ID_String env chainVMID.
Proof.
  unfold alreadyDeployed. rewrite existsb_exists. split.
  - intros [[bid vm] [Hin Heq]]. exists bid, vm.
    apply list_elem_of_In, elem_of_map_to_list in Hin.
    by apply String.eqb_eq in Heq.
  - intros (bid & vm & Hlook & Heq). exists (bid, vm). split.
    + by apply list_elem_of_In, elem_of_map_to_list.
    + by apply String.eqb_eq.
Qed.

(** C3. When the VM identifier of the chain is among the VM identifiers of
    the cluster info the first health probe returned, [doDeploy] returns a
    nil error, and from that probe on it does nothing but close the client:
    no plugin download, no [LoadSnapshot], no [CreateBlockchains], no further
    [Health]. *)
Theorem doDeploy_already_deployed_is_noop (env : Env) (d : LocalSubnetDeployer)
    (chain chainGenesis avalancheGoBinPath pluginDir genBytes : string)
    (genesis : Genesis) (config : ChainConfig) (ci : ClusterInfo) (chainVMID : ID)
    (w w1 w2 : World) :
  SetupLocalEnv env d w = (Ret (avalancheGoBinPath, pluginDir, None), w1) ->
  getClientFunc d = None ->
  w_fs w1 !! chainGenesis = Some (File genBytes) ->
  json_Unmarshal env genBytes = (genesis, None) ->
  Config genesis = Some config ->
  WaitForHealthy d (healthCheckInterval d) w1 = (Ret (Some ci, None), w2) ->
  utils_VMID env chain = (chainVMID, None) ->
  (exists blockchainID vmInfo,
      CustomVms ci !! blockchainID = Some vmInfo /\
      VmId vmInfo = ID_String env chainVMID) ->
  exists w' : World,
    doDeploy env d chain chainGenesis w = (Ret (ids_Empty, ids_Empty, None), w') /\
    w_trace w' = w_trace w2 ++ [EClose] /\
    w_fs w' = w_fs w1 /\
    exists k, w_trace w2 = w_trace w1 ++ repeat EHealth k.
Proof.
  intros Hsetup Hclient Hfile Hjson Hconfig Hwait Hvmid Hdeployed.
  exists (record EClose w2).
  rewrite (doDeploy_probeNetwork _ _ _ _ _ _ _ _ Hsetup Hclient).
  unfold defer. rewrite (probeNetwork_wait _ _ _ _ _ _ _ _ _ _ _ _ _ Hfile Hjson Hconfig Hwait).
  unfold deployVM. rewrite Hvmid.
  apply alreadyDeployed_true in Hdeployed. rewrite Hdeployed.
  apply WaitForHealthy_frame in Hwait as (Hfs & _ & k & Hk).
  repeat split; [done|]. by exists k.
Qed.

Lemma doDeploy_already_deployed_is_noop_witness :
  exists w' : World,
    doDeploy Demo.env Demo.deployer "test" "genesis.json" Demo.pollTwice
    = (Ret (ids_Empty, ids_Empty, None), w') /\
    w_trace w' = w_trace Demo.pollTwiceDone ++ [EClose] /\
    w_fs w' = w_fs Demo.pollTwice /\
    exists k, w_trace Demo.pollTwiceDone = w_trace Demo.pollTwice ++ repeat EHealth k.
Proof.
  apply (doDeploy_already_deployed_is_noop
           Demo.env Demo.deployer "test" "genesis.json"
           "base/bin/avalanchego-v1.7.13/avalanchego"
           "base/bin/avalanchego-v1.7.13/plugins" "{ }"
           (mkGenesis (Some (mkChainConfig 99)) []) (mkChainConfig 99)
           Demo.deployedInfo (mkID (list_ascii_of_string "test"))
           Demo.pollTwice Demo.pollTwice Demo.pollTwiceDone).
  - reflexivity.
  - reflexivity.
  - reflexivity.
  - reflexivity.
  - reflexivity.
  - reflexivity.
  - reflexivity.
  - exists "bc1", (mkCustomVmInfo "test" "bc1"). split; reflexivity.
Defined.

(** C10. On the already-deployed path [doDeploy], and with it
    [DeployToLocalNetwork], returns [ids.Empty] for the subnet and for the
    blockchain together with a nil error, whatever identifier the existing
    deployment has in the cluster info. *)
Theorem already_deployed_returns_empty_ids (env : Env) (d : LocalSubnetDeployer)
    (chain chainGenesis avalancheGoBinPath pluginDir genBytes : string)
    (genesis : Genesis) (config : ChainConfig) (ci : ClusterInfo) (chainVMID : ID)
    (blockchainID : string) (vmInfo : CustomVmInfo) (w0 w w1 w2 : World) :
  StartServer env d w0 = (Ret None, w) ->
  SetupLocalEnv env d w = (Ret (avalancheGoBinPath, pluginDir, None), w1) ->
  getClientFunc d = None ->
  w_fs w1 !! chainGenesis = Some (File genBytes) ->
  json_Unmarshal env genBytes = (genesis, None) ->
  Config genesis = Some config ->
  WaitForHealthy d (healthCheckInterval d) w1 = (Ret (Some ci, None), w2) ->
  utils_VMID env chain = (chainVMID, None) ->
  CustomVms ci !! blockchainID = Some vmInfo ->
  VmId vmInfo = ID_String env chainVMID ->
  doDeploy env d chain chainGenesis w
  = (Ret (ids_Empty, ids_Empty, None), record EClose w2)
  /\ DeployToLocalNetwork env d chain chainGenesis w0
     = (Ret (ids_Empty, ids_Empty, None), record EClose w2)
  /\ forall subnetID existingID : ID,
       fst (ids_FromString env (BlockchainId vmInfo)) = existingID ->
       existingID <> ids_Empty ->
       fst (DeployToLocalNetwork env d chain chainGenesis w0)
       <> Ret (subnetID, existingID, None).
Proof.
  intros Hstart Hsetup Hclient Hfile Hjson Hconfig Hwait Hvmid Hlookup Hsame.
  assert (Hdo : doDeploy env d chain chainGenesis w
                = (Ret (ids_Empty, ids_Empty, None), record EClose w2)).
  { rewrite (doDeploy_probeNetwork _ _ _ _ _ _ _ _ Hsetup Hclient).
    unfold defer.
    rewrite (probeNetwork_wait _ _ _ _ _ _ _ _ _ _ _ _ _ Hfile Hjson Hconfig Hwait).
    unfold deployVM. rewrite Hvmid.
    assert (Hdeployed : alreadyDeployed env chainVMID (Some ci) = true)
      by (apply alreadyDeployed_true; eauto).
    by rewrite Hdeployed. }
  assert (Hdeploy : DeployToLocalNetwork env d chain chainGenesis w0
                    = (Ret (ids_Empty, ids_Empty, None), record EClose w2)).
  { unfold DeployToLocalNetwork. by rewrite (bind_Ret _ _ _ _ _ Hstart). }
  split; [done|]. split; [done|].
  intros subnetID existingID _ Hne. rewrite Hdeploy. simpl. congruence.
Qed.

Lemma already_deployed_returns_empty_ids_witness :
  doDeploy Demo.env Demo.deployer "test" "genesis.json" Demo.pollTwice
  = (Ret (ids_Empty, ids_Empty, None), record EClose Demo.pollTwiceDone)
  /\ DeployToLocalNetwork Demo.env Demo.deployer "test" "genesis.json" Demo.pollTwice
     = (Ret (ids_Empty, ids_Empty, None), record EClose Demo.pollTwiceDone)
  /\ forall subnetID existingID : ID,
       fst (ids_FromString Demo.env (BlockchainId (mkCustomVmInfo "test" "bc1")))
       = existingID ->
       existingID <> ids_Empty ->
       fst (DeployToLocalNetwork Demo.env Demo.deployer "test" "genesis.json"
              Demo.pollTwice)
       <> Ret (subnetID, existingID, None).
Proof.
  apply (already_deployed_returns_empty_ids
           Demo.env Demo.deployer "test" "genesis.json"
           "base/bin/avalanchego-v1.7.13/avalanchego"
           "base/bin/avalanchego-v1.7.13/plugins" "{ }"
           (mkGenesis (Some (mkChainConfig 99)) []) (mkChainConfig 99)
           Demo.deployedInfo (mkID (list_ascii_of_string "test"))
           "bc1" (mkCustomVmInfo "test" "bc1")
           Demo.pollTwice Demo.pollTwice Demo.pollTwice Demo.pollTwiceDone);
    reflexivity.
Defined.

(** C4. When the genesis file exists and its content fails to parse,
    [doDeploy] returns an error; from the creation of the client to the
    return the only call made on it is [Close]: no [Health], no
    [LoadSnapshot], no [CreateBlockchains], and no health event is
    consumed. *)
Theorem doDeploy_bad_genesis_fails_before_mutation (env : Env) (d : LocalSubnetDeployer)
    (chain chainGenesis avalancheGoBinPath pluginDir genBytes e : string)
    (genesis : Genesis) (w w1 : World) :
  SetupLocalEnv env d w = (Ret (avalancheGoBinPath, pluginDir, None), w1) ->
  getClientFunc d = None ->
  w_fs w1 !! chainGenesis = Some (File genBytes) ->
  json_Unmarshal env genBytes = (genesis, Some e) ->
  exists w' : World,
    doDeploy env d chain chainGenesis w
    = (Ret (ids_Empty, ids_Empty,
            Some ("failed to unpack chain ID from genesis: " +:+ e)), w') /\
    w_trace w' = w_trace w1 ++ [EClose] /\
    w_selects w' = w_selects w1 /\
    (forall name opts,
        ELoadSnapshot name opts ∈ w_trace w' -> ELoadSnapshot name opts ∈ w_trace w1) /\
    (forall specs,
        ECreateBlockchains specs ∈ w_trace w' -> ECreateBlockchains specs ∈ w_trace w1).
Proof.
  intros Hsetup Hclient Hfile Hjson. exists (record EClose w1).
  rewrite (doDeploy_probeNetwork _ _ _ _ _ _ _ _ Hsetup Hclient).
  unfold defer. rewrite (probeNetwork_bad_genesis _ _ _ _ _ _ _ _ _ _ Hfile Hjson).
  split; [done|]. split; [done|]. split; [done|].
  split; simpl; intros *; rewrite elem_of_app, list_elem_of_singleton;
    by intros [?|?].
Qed.

Lemma doDeploy_bad_genesis_fails_before_mutation_witness :
  exists w' : World,
    doDeploy Demo.env Demo.deployer "test" "broken.json" Demo.pollTwice
    = (Ret (ids_Empty, ids_Empty,
            Some ("failed to unpack chain ID from genesis: "
                  +:+ "invalid character looking for beginning of value")), w') /\
    w_trace w' = w_trace Demo.pollTwice ++ [EClose] /\
    w_selects w' = w_selects Demo.pollTwice /\
    (forall name opts,
        ELoadSnapshot name opts ∈ w_trace w' ->
        ELoadSnapshot name opts ∈ w_trace Demo.pollTwice) /\
    (forall specs,
        ECreateBlockchains specs ∈ w_trace w' ->
        ECreateBlockchains specs ∈ w_trace Demo.pollTwice).
Proof.
  apply (doDeploy_bad_genesis_fails_before_mutation
           Demo.env Demo.deployer "test" "broken.json"
           "base/bin/avalanchego-v1.7.13/avalanchego"
           "base/bin/avalanchego-v1.7.13/plugins" "not json"
           "invalid character looking for beginning of value" zeroGenesis
           Demo.pollTwice Demo.pollTwice); reflexivity.
Defined.

Lemma report_frame (env : Env) (chainVMID : ID) (subnetIDStr : string)
    (ci : ClusterInfo) (w w' : World) (o : Outcome Deployed) :
  report env chainVMID subnetIDStr ci w = (o, w') -> w' = w.
Proof.
  unfold report, panic, ret.
  destruct (GetEndpoints env ci !! 0) as [firstURL|];
    [destruct (negb (Contains firstURL "http"))|]; by intros [= _ <-].
Qed.

(** The tail of [doDeploy] only adds to the trace. *)
Lemma createBlockchain_trace (env : Env) (d : LocalSubnetDeployer)
    (chain chainGenesis : string) (chainVMID : ID) (w w' : World)
    (o : Outcome Deployed) :
  createBlockchain env d chain chainGenesis chainVMID w = (o, w') ->
  exists tr, w_trace w' = w_trace w ++ tr.
Proof.
  unfold createBlockchain, bind at 1.
  destruct (WaitForHealthy d (healthCheckInterval d) w) as [[[ci1 err1]| |] w1] eqn:Hwait1;
    apply WaitForHealthy_frame in Hwait1 as (_ & _ & k1 & Hk1);
    [|intros [= _ <-]; eauto..].
  destruct err1 as [e|]; [intros [= _ <-]; eauto|].
  destruct ci1 as [ci1|]; [|intros [= _ <-]; eauto].
  unfold lift, bind at 1.
  destruct (selectSubnetID (Subnets ci1) (size (CustomVms ci1))) as [[e|s]| |];
    [intros [= _ <-]; eauto| |intros [= _ <-]; eauto..].
  rewrite (bind_Ret _ _ _ _ _ (cli_CreateBlockchains_run _ _ _)).
  destruct (backend_CreateBlockchains env _) as [info [e|]].
  { intros [= _ <-]. simpl. rewrite Hk1, <- app_assoc. eauto. }
  unfold bind at 1.
  match goal with
  | |- context [WaitForHealthy d ?i ?w0] =>
      destruct (WaitForHealthy d i w0) as [[[ci2 err2]| |] w2] eqn:Hwait2;
        apply WaitForHealthy_frame in Hwait2 as (_ & _ & k2 & Hk2); simpl in Hk2
  end.
  2,3: intros [= _ <-]; rewrite Hk2, Hk1, <- !app_assoc; eauto.
  destruct err2 as [e|]; [intros [= _ <-]; rewrite Hk2, Hk1, <- !app_assoc; eauto|].
  destruct ci2 as [ci2|]; [|intros [= _ <-]; rewrite Hk2, Hk1, <- !app_assoc; eauto].
  intros Hrep. apply report_frame in Hrep as ->.
  rewrite Hk2, Hk1, <- !app_assoc; eauto.
Qed.

(** The options [startNetwork] passes to [LoadSnapshot]. *)
Lemma startNetwork_run (env : Env) (d : LocalSubnetDeployer)
    (avalancheGoBinPath pluginDir runDir configStr : string) (w : World) :
  LoadNodeConfig (app d) = (configStr, None) ->
  exists o,
    startNetwork env d avalancheGoBinPath pluginDir runDir w
    = (o, record (ELoadSnapshot (DefaultSnapshotName env)
                    ([WithPluginDir pluginDir; WithExecPath avalancheGoBinPath;
                      WithRootDataDir runDir]
                     ++ (if String.eqb configStr EmptyString then []
                         else [WithGlobalNodeConfig configStr]))) w) /\
    (o = Ret None \/ exists e, o = Ret (Some e)).
Proof.
  intros Hconf. unfold startNetwork. rewrite Hconf.
  unfold bind, emit.
  destruct (String.eqb configStr EmptyString); simpl.
  - destruct (backend_LoadSnapshot env _ _) as [e|]; eexists; split; eauto.
  - destruct (backend_LoadSnapshot env _ _) as [e|]; eexists; split; eauto.
Qed.

(** C6. In the network-health probe an error whose message contains
    "not bootstrapped" does not abort: [doDeploy] goes on with
    [networkBooted = false] (so that, once the plugins are in place, the
    snapshot is loaded); any other error of the probe makes [doDeploy]
    return "failed to query network health: ..." at once. *)
Theorem probe_not_bootstrapped_is_not_fatal (env : Env) (d : LocalSubnetDeployer)
    (chain chainGenesis avalancheGoBinPath pluginDir genBytes e : string)
    (genesis : Genesis) (config : ChainConfig) (w w1 w2 : World) :
  SetupLocalEnv env d w = (Ret (avalancheGoBinPath, pluginDir, None), w1) ->
  getClientFunc d = None ->
  w_fs w1 !! chainGenesis = Some (File genBytes) ->
  json_Unmarshal env genBytes = (genesis, None) ->
  Config genesis = Some config ->
  WaitForHealthy d (healthCheckInterval d) w1 = (Ret (None, Some e), w2) ->
  (Contains e "not bootstrapped" = true ->
   doDeploy env d chain chainGenesis w
   = defer (deployVM env d chain chainGenesis avalancheGoBinPath pluginDir
                     (GetRunDir (app d)) false None)
           cli_Close w2)
  /\
  (Contains e "not bootstrapped" = true ->
   forall (chainVMID : ID) (configStr : string),
     utils_VMID env chain = (chainVMID, None) ->
     snd (binaryDownloader d {[ ID_String env chainVMID ]} pluginDir
            (filepath_Join env (GetBaseDir (app d)) (AvalancheCliBinDir env))
            (w_fs w2)) = None ->
     LoadNodeConfig (app d) = (configStr, None) ->
     exists o w' tr,
       doDeploy env d chain chainGenesis w = (o, w') /\
       w_trace w'
       = w_trace w2
         ++ EPluginDownload {[ ID_String env chainVMID ]} pluginDir
              (filepath_Join env (GetBaseDir (app d)) (AvalancheCliBinDir env))
         :: ELoadSnapshot (DefaultSnapshotName env)
              ([WithPluginDir pluginDir; WithExecPath avalancheGoBinPath;
                WithRootDataDir (GetRunDir (app d))]
               ++ (if String.eqb configStr EmptyString then []
                   else [WithGlobalNodeConfig configStr]))
         :: tr)
  /\
  (Contains e "not bootstrapped" = false ->
   doDeploy env d chain chainGenesis w
   = (Ret (ids_Empty, ids_Empty, Some ("failed to query network health: " +:+ e)),
      record EClose w2)).
Proof.
  intros Hsetup Hclient Hfile Hjson Hconfig Hwait.
  assert (Hdo : doDeploy env d chain chainGenesis w
                = defer (fun w2 =>
                           if Contains e "not bootstrapped" then
                             deployVM env d chain chainGenesis avalancheGoBinPath pluginDir
                                      (GetRunDir (app d)) false None w2
                           else
                             (Ret (ids_Empty, ids_Empty,
                                   Some ("failed to query network health: " +:+ e)), w2))
                        cli_Close w2).
  { rewrite (doDeploy_probeNetwork _ _ _ _ _ _ _ _ Hsetup Hclient). unfold defer.
    by rewrite (probeNetwork_wait _ _ _ _ _ _ _ _ _ _ _ _ _ Hfile Hjson Hconfig Hwait). }
  split; [|split].
  - intros Hnb. rewrite Hdo. unfold defer. by rewrite Hnb.
  - intros Hnb chainVMID configStr Hvmid Hplugins Hconf.
    rewrite Hdo. unfold defer. rewrite Hnb.
    unfold deployVM. rewrite Hvmid. simpl.
    unfold installNeededPlugins, bind at 1 2 3 4, emit, get_fs, put_fs. simpl.
    rewrite Hplugins. unfold ret at 1. simpl.
    destruct (startNetwork_run env d avalancheGoBinPath pluginDir (GetRunDir (app d))
                configStr
                (mkWorld
                   (fst (binaryDownloader d {[ ID_String env chainVMID ]} pluginDir
                           (filepath_Join env (GetBaseDir (app d)) (AvalancheCliBinDir env))
                           (w_fs w2)))
                   (w_selects w2)
                   (w_trace w2
                    ++ [EPluginDownload {[ ID_String env chainVMID ]} pluginDir
                          (filepath_Join env (GetBaseDir (app d))
                                         (AvalancheCliBinDir env))])
                   (w_backendStartedHere w2)) Hconf)
      as (o & Hstart & Ho).
    unfold bind at 1. rewrite Hstart.
    destruct Ho as [->|[e' ->]].
    + match goal with
      | |- context [createBlockchain env d chain chainGenesis chainVMID ?w3] =>
          destruct (createBlockchain env d chain chainGenesis chainVMID w3)
            as [o' w'] eqn:Hcreate;
            apply createBlockchain_trace in Hcreate as [tr Htr]
      end.
      simpl in Htr. rewrite <- !app_assoc in Htr. simpl in Htr.
      destruct o' as [r|msg|].
      * eexists _, _, (tr ++ [EClose]). split; [reflexivity|].
        simpl. rewrite Htr, <- app_assoc. reflexivity.
      * eexists _, _, (tr ++ [EClose]). split; [reflexivity|].
        simpl. rewrite Htr, <- app_assoc. reflexivity.
      * eexists _, _, tr. split; [reflexivity|]. done.
    + eexists _, _, [EClose]. split; [reflexivity|].
      simpl. by rewrite <- !app_assoc.
  - intros Hnb. rewrite Hdo. unfold defer. by rewrite Hnb.
Qed.

Lemma probe_not_bootstrapped_is_not_fatal_witness :
  doDeploy Demo.env Demo.deployer "chain2" "genesis.json" Demo.bootThenNoNodes
  = defer (deployVM Demo.env Demo.deployer "chain2" "genesis.json"
                    "base/bin/avalanchego-v1.7.13/avalanchego"
                    "base/bin/avalanchego-v1.7.13/plugins"
                    (GetRunDir (app Demo.deployer)) false None)
          cli_Close
          (afterTick Demo.bootThenNoNodes
             [Tick (HealthResp (Some Demo.freshInfo));
              Tick (HealthResp (Some Demo.noNodesInfo))])
  /\
  doDeploy Demo.env Demo.deployer "chain2" "genesis.json" Demo.probeFails
  = (Ret (ids_Empty, ids_Empty,
          Some ("failed to query network health: "
                +:+ healthCheckFailed "connection refused")),
     record EClose (afterTick Demo.probeFails [])).
Proof.
  split.
  - destruct (probe_not_bootstrapped_is_not_fatal
                Demo.env Demo.deployer "chain2" "genesis.json"
                "base/bin/avalanchego-v1.7.13/avalanchego"
                "base/bin/avalanchego-v1.7.13/plugins" "{ }"
                (healthCheckFailed "not bootstrapped")
                (mkGenesis (Some (mkChainConfig 99)) []) (mkChainConfig 99)
                Demo.bootThenNoNodes Demo.bootThenNoNodes
                (afterTick Demo.bootThenNoNodes
                   [Tick (HealthResp (Some Demo.freshInfo));
                    Tick (HealthResp (Some Demo.noNodesInfo))]))
      as (Hcontinue & _ & _); [reflexivity..|].
    apply Hcontinue. reflexivity.
  - destruct (probe_not_bootstrapped_is_not_fatal
                Demo.env Demo.deployer "chain2" "genesis.json"
                "base/bin/avalanchego-v1.7.13/avalanchego"
                "base/bin/avalanchego-v1.7.13/plugins" "{ }"
                (healthCheckFailed "connection refused")
                (mkGenesis (Some (mkChainConfig 99)) []) (mkChainConfig 99)
                Demo.probeFails Demo.probeFails
                (afterTick Demo.probeFails []))
      as (_ & _ & Habort); [reflexivity..|].
    apply Habort. reflexivity.
Defined.

(** ** Reaching the blockchain creation *)

Lemma deployVM_createBlockchain (env : Env) (d : LocalSubnetDeployer)
    (chain chainGenesis avalancheGoBinPath pluginDir runDir : string)
    (networkBooted : bool) (clusterInfo : option ClusterInfo) (chainVMID : ID)
    (w w' w'' : World) :
  utils_VMID env chain = (chainVMID, None) ->
  alreadyDeployed env chainVMID clusterInfo = false ->
  installNeededPlugins env d chainVMID clusterInfo pluginDir w = (Ret None, w') ->
  (if negb networkBooted
   then startNetwork env d avalancheGoBinPath pluginDir runDir
   else ret None) w' = (Ret None, w'') ->
  deployVM env d chain chainGenesis avalancheGoBinPath pluginDir runDir
           networkBooted clusterInfo w
  = createBlockchain env d chain chainGenesis chainVMID w''.
Proof.
  intros Hvmid Hnot Hplugins Hstart. unfold deployVM. rewrite Hvmid, Hnot.
  rewrite (bind_Ret _ _ _ _ _ Hplugins). by rewrite (bind_Ret _ _ _ _ _ Hstart).
Qed.

(** The conditions under which [doDeploy] gets as far as the health check
    that precedes the slot selection: the environment is set up, the
    genesis file parses, the probe finds the network healthy or not yet
    bootstrapped, the VM is not deployed yet, the plugins install and the
    network, if it had to be started, starts. *)
Lemma doDeploy_createBlockchain (env : Env) (d : LocalSubnetDeployer)
    (chain chainGenesis avalancheGoBinPath pluginDir genBytes : string)
    (genesis : Genesis) (config : ChainConfig)
    (clusterInfo : option ClusterInfo) (err : error) (chainVMID : ID)
    (w w1 w2 w3 w4 : World) :
  SetupLocalEnv env d w = (Ret (avalancheGoBinPath, pluginDir, None), w1) ->
  getClientFunc d = None ->
  w_fs w1 !! chainGenesis = Some (File genBytes) ->
  json_Unmarshal env genBytes = (genesis, None) ->
  Config genesis = Some config ->
  WaitForHealthy d (healthCheckInterval d) w1 = (Ret (clusterInfo, err), w2) ->
  match err with Some e => Contains e "not bootstrapped" = true | None => True end ->
  utils_VMID env chain = (chainVMID, None) ->
  alreadyDeployed env chainVMID clusterInfo = false ->
  installNeededPlugins env d chainVMID clusterInfo pluginDir w2 = (Ret None, w3) ->
  (if is_nil err then ret None
   else startNetwork env d avalancheGoBinPath pluginDir (GetRunDir (app d))) w3
  = (Ret None, w4) ->
  doDeploy env d chain chainGenesis w
  = defer (createBlockchain env d chain chainGenesis chainVMID) cli_Close w4.
Proof.
  intros Hsetup Hclient Hfile Hjson Hconfig Hwait Herr Hvmid Hnot Hplugins Hstart.
  rewrite (doDeploy_probeNetwork _ _ _ _ _ _ _ _ Hsetup Hclient). unfold defer.
  rewrite (probeNetwork_wait _ _ _ _ _ _ _ _ _ _ _ _ _ Hfile Hjson Hconfig Hwait).
  destruct err as [e|]; [rewrite Herr|].
  - by rewrite (deployVM_createBlockchain env d chain chainGenesis avalancheGoBinPath
                  pluginDir (GetRunDir (app d)) false clusterInfo chainVMID w2 w3 w4
                  Hvmid Hnot Hplugins Hstart).
  - by rewrite (deployVM_createBlockchain env d chain chainGenesis avalancheGoBinPath
                  pluginDir (GetRunDir (app d)) true clusterInfo chainVMID w2 w3 w4
                  Hvmid Hnot Hplugins Hstart).
Qed.

(** ** Subnet slot selection *)

Lemma selectSubnetID_nonempty (pool : list string) (C : nat) :
  pool <> [] ->
  exists s, sort_Strings pool !! (C mod length pool) = Some s /\
            selectSubnetID pool C = Ret (inr s).
Proof.
  intros Hne. unfold selectSubnetID. rewrite sort_Strings_length.
  assert (Hlen : length pool <> 0) by (destruct pool; simpl; [done|lia]).
  destruct (Nat.eqb_spec (length pool) 0) as [|_]; [done|].
  destruct (lookup_lt_is_Some_2 (sort_Strings pool) (C mod length pool)) as [s Hs].
  { rewrite sort_Strings_length. by apply Nat.mod_upper_bound. }
  exists s. by rewrite Hs.
Qed.

(** In [doDeploy] the pool is the cluster info's [Subnets] and the count is
    the number of entries of its [CustomVms]; the selected subnet is the one
    sent in the single blockchain specification. *)
Lemma createBlockchain_uses_selection (env : Env) (d : LocalSubnetDeployer)
    (chain chainGenesis : string) (chainVMID : ID) (w w1 : World) (ci : ClusterInfo) :
  WaitForHealthy d (healthCheckInterval d) w = (Ret (Some ci, None), w1) ->
  match selectSubnetID (Subnets ci) (size (CustomVms ci)) with
  | Ret (inl e) =>
      createBlockchain env d chain chainGenesis chainVMID w
      = (Ret (ids_Empty, ids_Empty, Some e), w1)
  | Ret (inr s) =>
      exists o w2 k,
        createBlockchain env d chain chainGenesis chainVMID w = (o, w2) /\
        w_trace w2 = w_trace w1
                     ++ ECreateBlockchains [mkBlockchainSpec chain chainGenesis (Some s)]
                     :: repeat EHealth k
  | _ => True
  end.
Proof.
  intros Hwait.
  destruct (selectSubnetID (Subnets ci) (size (CustomVms ci))) as [[e|s]| |] eqn:Hsel;
    [| |done..]; unfold createBlockchain; rewrite (bind_Ret _ _ _ _ _ Hwait);
    unfold lift, bind at 1; rewrite Hsel; [done|].
  rewrite (bind_Ret _ _ _ _ _ (cli_CreateBlockchains_run _ _ _)).
  destruct (backend_CreateBlockchains env _) as [info [e|]].
  { eexists _, _, 0. split; [reflexivity|]. done. }
  match goal with
  | |- context [bind (WaitForHealthy d ?i) ?k ?w'] =>
      destruct (WaitForHealthy d i w') as [[[ci2 [e|]]| |] w2] eqn:Hwait2;
        unfold bind; rewrite Hwait2;
        apply WaitForHealthy_frame in Hwait2 as (_ & _ & k' & Hk); simpl in Hk
  end.
  1,3,4: eexists _, _, k'; split; [reflexivity|]; by rewrite Hk, <- app_assoc.
  destruct ci2 as [ci2|].
  - unfold report, panic, ret.
    destruct (GetEndpoints env ci2 !! 0) as [firstURL|];
      [destruct (negb (Contains firstURL "http"))|];
      eexists _, _, k'; (split; [reflexivity|]); by rewrite Hk, <- app_assoc.
  - eexists _, _, k'. split; [reflexivity|]. by rewrite Hk, <- app_assoc.
Qed.

(** C1. For a non-empty pool and any count [C], the subnet selected is the
    element at index [C mod N] of the pool in lexicographic order, whichever
    way that order is computed; pool [s3; s1; s2] with C = 4 selects [s2];
    on an empty pool the selection returns the error.  In [doDeploy] the
    pool is the [Subnets] of the cluster info just polled and [C] the number
    of entries of its [CustomVms]: the subnet selected is the one sent with
    the blockchain specification, and on an empty pool [doDeploy] returns
    the error without creating anything. *)
Theorem slot_selection_sorted_modulo :
  (forall (pool sorted : list string) (C : nat),
      pool <> [] -> Permutation pool sorted -> Sorted string_le sorted ->
      exists s, sorted !! (C mod length pool) = Some s /\
                selectSubnetID pool C = Ret (inr s))
  /\ selectSubnetID ["s3"; "s1"; "s2"] 4 = Ret (inr "s2")
  /\ (forall C : nat,
        selectSubnetID [] C = Ret (inl "the network has not preloaded subnet IDs"))
  /\ (forall (env : Env) (d : LocalSubnetDeployer) (chain chainGenesis : string)
             (chainVMID : ID) (w w1 w2 : World) (ci : ClusterInfo)
             (sorted : list string),
        doDeploy env d chain chainGenesis w
        = defer (createBlockchain env d chain chainGenesis chainVMID) cli_Close w1 ->
        WaitForHealthy d (healthCheckInterval d) w1 = (Ret (Some ci, None), w2) ->
        (Subnets ci = [] ->
         doDeploy env d chain chainGenesis w
         = (Ret (ids_Empty, ids_Empty, Some "the network has not preloaded subnet IDs"),
            record EClose w2))
        /\
        (Subnets ci <> [] ->
         Permutation (Subnets ci) sorted -> Sorted string_le sorted ->
         exists s o w' tr,
           sorted !! (size (CustomVms ci) mod length (Subnets ci)) = Some s /\
           doDeploy env d chain chainGenesis w = (o, w') /\
           w_trace w'
           = w_trace w2
             ++ ECreateBlockchains [mkBlockchainSpec chain chainGenesis (Some s)]
             :: tr)).
Proof.
  assert (Hselect : forall (pool sorted : list string) (C : nat),
             pool <> [] -> Permutation pool sorted -> Sorted string_le sorted ->
             exists s, sorted !! (C mod length pool) = Some s /\
                       selectSubnetID pool C = Ret (inr s)).
  { intros pool sorted C Hne Hperm Hsorted.
    rewrite (sort_Strings_unique pool sorted Hperm Hsorted).
    by apply selectSubnetID_nonempty. }
  split; [done|]. split; [reflexivity|]. split; [intros C; reflexivity|].
  intros env d chain chainGenesis chainVMID w w1 w2 ci sorted Hreach Hwait.
  pose proof (createBlockchain_uses_selection env d chain chainGenesis chainVMID
                w1 w2 ci Hwait) as Huses.
  split.
  - intros Hempty. rewrite Hempty in Huses. simpl in Huses.
    rewrite Hreach. unfold defer. by rewrite Huses.
  - intros Hne Hperm Hsorted.
    destruct (Hselect (Subnets ci) sorted (size (CustomVms ci)) Hne Hperm Hsorted)
      as (s & Hs & Hsel).
    rewrite Hsel in Huses. destruct Huses as (o & w' & k & Hrun & Htr).
    exists s. rewrite Hreach. unfold defer. rewrite Hrun.
    destruct o as [r|msg|].
    + eexists _, _, (repeat EHealth k ++ [EClose]). split; [done|].
      split; [reflexivity|]. simpl. rewrite Htr, <- app_assoc. reflexivity.
    + eexists _, _, (repeat EHealth k ++ [EClose]). split; [done|].
      split; [reflexivity|]. simpl. rewrite Htr, <- app_assoc. reflexivity.
    + eexists _, _, (repeat EHealth k). split; [done|]. by split.
Qed.

Lemma slot_selection_sorted_modulo_witness :
  (exists s, ["s1"; "s2"; "s3"] !! (4 mod length ["s3"; "s1"; "s2"]) = Some s /\
             selectSubnetID ["s3"; "s1"; "s2"] 4 = Ret (inr s))
  /\
  (exists s o w' tr,
      ["s1"; "s2"; "s3"]
        !! (size (CustomVms Demo.deployedInfo) mod length (Subnets Demo.deployedInfo))
      = Some s /\
      doDeploy Demo.env Demo.deployer "chain2" "genesis.json"
               (Demo.threePolls Demo.deployedInfo) = (o, w') /\
      w_trace w'
      = [EHealth;
         EPluginDownload {[ "test"; "chain2" ]}
           "base/bin/avalanchego-v1.7.13/plugins" "base/bin";
         EHealth]
        ++ ECreateBlockchains [mkBlockchainSpec "chain2" "genesis.json" (Some s)]
        :: tr).
Proof.
  assert (Hperm : Permutation ["s3"; "s1"; "s2"] ["s1"; "s2"; "s3"]).
  { apply perm_trans with ("s1" :: "s3" :: "s2" :: nil);
      [apply perm_swap | apply perm_skip, perm_swap]. }
  assert (Hsorted : Sorted string_le ["s1"; "s2"; "s3"]) by (repeat constructor).
  split.
  - apply (proj1 slot_selection_sorted_modulo ["s3"; "s1"; "s2"] ["s1"; "s2"; "s3"] 4);
      [discriminate|exact Hperm|exact Hsorted].
  - destruct (proj2 (proj2 (proj2 slot_selection_sorted_modulo))
                Demo.env Demo.deployer "chain2" "genesis.json"
                (mkID (list_ascii_of_string "chain2"))
                (Demo.threePolls Demo.deployedInfo)
                (mkWorld Demo.fs
                   [Tick (HealthResp (Some Demo.deployedInfo));
                    Tick (HealthResp (Some Demo.deployedInfo))]
                   [EHealth;
                    EPluginDownload {[ "test"; "chain2" ]}
                      "base/bin/avalanchego-v1.7.13/plugins" "base/bin"]
                   false)
                (mkWorld Demo.fs
                   [Tick (HealthResp (Some Demo.deployedInfo))]
                   [EHealth;
                    EPluginDownload {[ "test"; "chain2" ]}
                      "base/bin/avalanchego-v1.7.13/plugins" "base/bin";
                    EHealth]
                   false)
                Demo.deployedInfo ["s1"; "s2"; "s3"])
      as [_ Hcreate]; [reflexivity..|].
    apply Hcreate; [discriminate|exact Hperm|exact Hsorted].
Defined.

(** ** The report step *)

(** C9. The report step takes [endpoints[0]] without a length check.  The
    index is defined exactly when the cluster info has a node and a custom
    VM; with no node or no custom VM the step panics on the index, and so
    does [doDeploy]'s tail from the blockchain creation on, after the
    creation succeeded: no error is returned. *)
Theorem report_first_endpoint_unchecked (env : Env) (chainVMID : ID)
    (subnetIDStr : string) (ci : ClusterInfo) :
  (is_Some (GetEndpoints env ci !! 0) <-> NodeInfos ci <> [] /\ CustomVms ci <> ∅)
  /\ (NodeInfos ci = [] \/ CustomVms ci = ∅ ->
      forall w : World,
        report env chainVMID subnetIDStr ci w
        = (Panic "index out of range [0] with length 0", w))
  /\ (forall (d : LocalSubnetDeployer) (chain chainGenesis : string)
             (w w1 w2 : World) (ci1 : ClusterInfo) (info : string),
        WaitForHealthy d (healthCheckInterval d) w = (Ret (Some ci1, None), w1) ->
        selectSubnetID (Subnets ci1) (size (CustomVms ci1)) = Ret (inr subnetIDStr) ->
        backend_CreateBlockchains env
          [mkBlockchainSpec chain chainGenesis (Some subnetIDStr)] = (info, None) ->
        WaitForHealthy d (healthCheckInterval d)
          (record (ECreateBlockchains
                     [mkBlockchainSpec chain chainGenesis (Some subnetIDStr)]) w1)
        = (Ret (Some ci, None), w2) ->
        NodeInfos ci = [] \/ CustomVms ci = ∅ ->
        createBlockchain env d chain chainGenesis chainVMID w
        = (Panic "index out of range [0] with length 0", w2)
        /\ forall w0 : World,
             doDeploy env d chain chainGenesis w0
             = defer (createBlockchain env d chain chainGenesis chainVMID) cli_Close w ->
             doDeploy env d chain chainGenesis w0
             = (Panic "index out of range [0] with length 0", record EClose w2)).
Proof.
  assert (Hreport : NodeInfos ci = [] \/ CustomVms ci = ∅ ->
            forall w : World,
              report env chainVMID subnetIDStr ci w
              = (Panic "index out of range [0] with length 0", w)).
  { intros Hempty w. unfold report.
    destruct (GetEndpoints env ci !! 0) as [firstURL|] eqn:Hfirst; [|done].
    assert (Hsome : is_Some (GetEndpoints env ci !! 0)) by (by rewrite Hfirst).
    apply GetEndpoints_first in Hsome as [Hn Hv]. by destruct Hempty. }
  split; [apply GetEndpoints_first|]. split; [done|].
  intros d chain chainGenesis w w1 w2 ci1 info Hwait1 Hsel Hcreate Hwait2 Hempty.
  assert (Hcreate' : createBlockchain env d chain chainGenesis chainVMID w
                     = (Panic "index out of range [0] with length 0", w2)).
  { unfold createBlockchain. rewrite (bind_Ret _ _ _ _ _ Hwait1).
    unfold lift, bind at 1. rewrite Hsel.
    rewrite (bind_Ret _ _ _ _ _ (cli_CreateBlockchains_run _ _ _)), Hcreate.
    rewrite (bind_Ret _ _ _ _ _ Hwait2). by apply Hreport. }
  split; [done|]. intros w0 Hreach. rewrite Hreach. unfold defer. by rewrite Hcreate'.
Qed.

Lemma report_first_endpoint_unchecked_witness :
  (forall w : World,
      report Demo.env (mkID []) "s1" Demo.noNodesInfo w
      = (Panic "index out of range [0] with length 0", w))
  /\ doDeploy Demo.env Demo.deployer "chain2" "genesis.json" Demo.bootThenNoNodes
     = (Panic "index out of range [0] with length 0",
        mkWorld Demo.fs []
          [EHealth;
           EPluginDownload {[ "chain2" ]} "base/bin/avalanchego-v1.7.13/plugins" "base/bin";
           ELoadSnapshot "default"
             [WithPluginDir "base/bin/avalanchego-v1.7.13/plugins";
              WithExecPath "base/bin/avalanchego-v1.7.13/avalanchego";
              WithRootDataDir "base/runs"];
           EHealth;
           ECreateBlockchains [mkBlockchainSpec "chain2" "genesis.json" (Some "s1")];
           EHealth; EClose] false).
Proof.
  split.
  - apply (proj1 (proj2 (report_first_endpoint_unchecked
                           Demo.env (mkID []) "s1" Demo.noNodesInfo))).
    left. reflexivity.
  - destruct (proj2 (proj2 (report_first_endpoint_unchecked
                              Demo.env (mkID (list_ascii_of_string "chain2")) "s1"
                              Demo.noNodesInfo))
                Demo.deployer "chain2" "genesis.json"
                (mkWorld Demo.fs
                   [Tick (HealthResp (Some Demo.freshInfo));
                    Tick (HealthResp (Some Demo.noNodesInfo))]
                   [EHealth;
                    EPluginDownload {[ "chain2" ]}
                      "base/bin/avalanchego-v1.7.13/plugins" "base/bin";
                    ELoadSnapshot "default"
                      [WithPluginDir "base/bin/avalanchego-v1.7.13/plugins";
                       WithExecPath "base/bin/avalanchego-v1.7.13/avalanchego";
                       WithRootDataDir "base/runs"]] false)
                (mkWorld Demo.fs
                   [Tick (HealthResp (Some Demo.noNodesInfo))]
                   [EHealth;
                    EPluginDownload {[ "chain2" ]}
                      "base/bin/avalanchego-v1.7.13/plugins" "base/bin";
                    ELoadSnapshot "default"
                      [WithPluginDir "base/bin/avalanchego-v1.7.13/plugins";
                       WithExecPath "base/bin/avalanchego-v1.7.13/avalanchego";
                       WithRootDataDir "base/runs"];
                    EHealth] false)
                (mkWorld Demo.fs []
                   [EHealth;
                    EPluginDownload {[ "chain2" ]}
                      "base/bin/avalanchego-v1.7.13/plugins" "base/bin";
                    ELoadSnapshot "default"
                      [WithPluginDir "base/bin/avalanchego-v1.7.13/plugins";
                       WithExecPath "base/bin/avalanchego-v1.7.13/avalanchego";
                       WithRootDataDir "base/runs"];
                    EHealth;
                    ECreateBlockchains
                      [mkBlockchainSpec "chain2" "genesis.json" (Some "s1")];
                    EHealth] false)
                Demo.freshInfo "created")
      as [_ Hdo]; [reflexivity|reflexivity|reflexivity|reflexivity|left; reflexivity|].
    apply Hdo. reflexivity.
Defined.

(** ** The default snapshot *)

Lemma SetDefaultSnapshot_both_exist (env : Env) (snapshotsDir : string) (w : World) :
  Stat_exists (w_fs w)
    (filepath_Join env snapshotsDir (BootstrapSnapshotArchiveName env)) = true ->
  Stat_exists (w_fs w)
    (filepath_Join env snapshotsDir ("anr-snapshot-" +:+ DefaultSnapshotName env)) = true ->
  SetDefaultSnapshot env snapshotsDir false w = (Ret None, w).
Proof.
  intros Harchive Hdir. unfold SetDefaultSnapshot, get_fs, bind, ret.
  by rewrite Harchive, Hdir.
Qed.

(** C8. Once the bootstrap snapshot archive and the extracted default
    snapshot both exist, a call of [SetDefaultSnapshot] with [force = false]
    returns nil and leaves the world as it was: nothing is downloaded,
    written or extracted (the trace is unchanged) and the file system is
    the same; so also for any number of calls in a row. *)
Theorem SetDefaultSnapshot_idempotent (env : Env) (snapshotsDir : string) (w : World)
    (n : nat) :
  Stat_exists (w_fs w)
    (filepath_Join env snapshotsDir (BootstrapSnapshotArchiveName env)) = true ->
  Stat_exists (w_fs w)
    (filepath_Join env snapshotsDir ("anr-snapshot-" +:+ DefaultSnapshotName env)) = true ->
  SetDefaultSnapshot env snapshotsDir false w = (Ret None, w)
  /\ callTimes n (SetDefaultSnapshot env snapshotsDir false) w = (Ret (repeat None n), w).
Proof.
  intros Harchive Hdir.
  assert (Hone := SetDefaultSnapshot_both_exist env snapshotsDir w Harchive Hdir).
  split; [done|].
  induction n as [|n IH]; simpl; [done|].
  rewrite (bind_Ret _ _ _ _ _ Hone), (bind_Ret _ _ _ _ _ IH). reflexivity.
Qed.

Lemma SetDefaultSnapshot_idempotent_witness :
  SetDefaultSnapshot Demo.env "base/snapshots" false (Demo.world [])
  = (Ret None, Demo.world [])
  /\ callTimes 3 (SetDefaultSnapshot Demo.env "base/snapshots" false) (Demo.world [])
     = (Ret [None; None; None], Demo.world []).
Proof.
  apply (SetDefaultSnapshot_idempotent Demo.env "base/snapshots" (Demo.world []) 3);
    reflexivity.
Defined.

(** * Further properties of the code *)

(** ** Slot selection: bounds, reuse by wrap-around, independence of order *)

Lemma selectSubnetID_Ret (pool : list string) (C : nat) :
  (pool = [] /\
   selectSubnetID pool C = Ret (inl "the network has not preloaded subnet IDs"))
  \/ (exists s, sort_Strings pool !! (C mod length pool) = Some s /\
                selectSubnetID pool C = Ret (inr s)).
Proof.
  destruct pool as [|x pool]; [by left|right].
  by apply selectSubnetID_nonempty.
Qed.

(** X1. The index expression [subnetIDs[numBlockchains%len(subnetIDs)]] never
    goes out of range: the selection always returns, and what it selects
    is one of the preloaded subnet IDs. *)
Theorem selectSubnetID_in_range (pool : list string) (C : nat) :
  (exists r, selectSubnetID pool C = Ret r)
  /\ (forall s, selectSubnetID pool C = Ret (inr s) -> s ∈ pool).
Proof.
  destruct (selectSubnetID_Ret pool C) as [[_ Hsel]|(s & Hs & Hsel)]; rewrite Hsel.
  - split; [eauto|]. intros s [=].
  - split; [eauto|]. intros s' [= <-].
    rewrite (sort_Strings_Permutation pool). by eapply list_elem_of_lookup_2.
Qed.

Lemma selectSubnetID_in_range_witness : "s2" ∈ ["s3"; "s1"; "s2"].
Proof. apply (proj2 (selectSubnetID_in_range ["s3"; "s1"; "s2"] 4)). reflexivity. Defined.

(** X2. The selection does not depend on the order in which the backend
    lists the preloaded subnets: pools that are permutations of one another
    give the same subnet for every count. *)
Theorem selectSubnetID_order_independent (pool pool' : list string) (C : nat) :
  Permutation pool pool' -> selectSubnetID pool C = selectSubnetID pool' C.
Proof.
  intros Hperm. unfold selectSubnetID.
  assert (Hsort : sort_Strings pool' = sort_Strings pool).
  { apply sort_Strings_unique; [|apply sort_Strings_Sorted].
    rewrite Hperm. apply sort_Strings_Permutation. }
  by rewrite Hsort.
Qed.

Lemma selectSubnetID_order_independent_witness :
  selectSubnetID ["s3"; "s1"; "s2"] 4 = selectSubnetID ["s1"; "s3"; "s2"] 4.
Proof.
  apply (selectSubnetID_order_independent ["s3"; "s1"; "s2"] ["s1"; "s3"; "s2"] 4).
  apply perm_swap.
Defined.

(** X3. Slots are reused by wrap-around: counts that agree modulo the size
    of the pool select the same subnet, and on a pool without duplicates
    counts that differ modulo its size select different subnets; so each of
    N slots is used once in every N consecutive deployments. *)
Theorem selectSubnetID_wraps_around (pool : list string) (C C' : nat) (s s' : string) :
  selectSubnetID pool C = Ret (inr s) ->
  selectSubnetID pool C' = Ret (inr s') ->
  (C mod length pool = C' mod length pool -> s = s')
  /\ (NoDup pool -> C mod length pool <> C' mod length pool -> s <> s')
  /\ selectSubnetID pool (C + length pool) = Ret (inr s).
Proof.
  intros Hsel Hsel'.
  destruct (selectSubnetID_Ret pool C) as [[_ H]|(t & Ht & H)];
    rewrite H in Hsel; [done|]. injection Hsel as ->.
  destruct (selectSubnetID_Ret pool C') as [[_ H']|(t' & Ht' & H')];
    rewrite H' in Hsel'; [done|]. injection Hsel' as ->.
  split; [|split].
  - intros Hmod. rewrite Hmod in Ht. congruence.
  - intros Hnodup Hmod ->. apply Hmod.
    apply (NoDup_lookup (sort_Strings pool) _ _ s'); [|done..].
    by rewrite <- (sort_Strings_Permutation pool).
  - destruct (selectSubnetID_Ret pool (C + length pool)) as [[-> _]|(u & Hu & ->)];
      [done|].
    replace ((C + length pool) mod length pool) with (C mod length pool) in Hu.
    + congruence.
    + rewrite <- (Nat.Div0.add_mod_idemp_r C (length pool) (length pool)).
      by rewrite Nat.Div0.mod_same, Nat.add_0_r.
Qed.

Lemma selectSubnetID_wraps_around_witness :
  ("s1" <> "s2") /\ selectSubnetID ["s3"; "s1"; "s2"] (0 + 3) = Ret (inr "s1").
Proof.
  destruct (selectSubnetID_wraps_around ["s3"; "s1"; "s2"] 0 1 "s1" "s2")
    as (_ & Hdiff & Hwrap); [reflexivity|reflexivity|].
  split; [|exact Hwrap].
  apply Hdiff; [|discriminate].
  apply (bool_decide_unpack _). vm_compute. reflexivity.
Defined.

(** ** The poller: accounting of events and calls *)

Lemma pollLoop_accounting (selects : list SelectEvent) (tr : list Effect)
    (o : Outcome (option ClusterInfo * error)) (rest : list SelectEvent)
    (tr' : list Effect) :
  pollLoop selects tr = (o, rest, tr') ->
  exists used,
    selects = used ++ rest /\ tr' = tr ++ repeat EHealth (countTicks used) /\
    (forall msg, o <> Panic msg) /\ (o = Pending -> rest = []) /\
    (forall r err, o = Ret (r, err) -> (is_Some r <-> err = None)).
Proof.
  revert tr. induction selects as [|ev selects IH]; intros tr H; simpl in H.
  - injection H as <- <- <-. exists []. simpl. rewrite app_nil_r.
    by do 4 (split; [done|]).
  - assert (Hcont : forall h, ev = Tick h ->
              pollLoop selects (tr ++ [EHealth]) = (o, rest, tr') ->
              exists used,
                ev :: selects = used ++ rest /\
                tr' = tr ++ repeat EHealth (countTicks used) /\
                (forall msg, o <> Panic msg) /\ (o = Pending -> rest = []) /\
                (forall r err, o = Ret (r, err) -> (is_Some r <-> err = None))).
    { intros h -> Hrec. destruct (IH _ Hrec) as (used & -> & -> & Hrest).
      exists (Tick h :: used). split; [done|]. split; [|done].
      simpl. by rewrite <- app_assoc. }
    destruct ev as [e|[e|[ci|]]].
    + injection H as <- <- <-. exists [CtxDone e]. simpl. rewrite app_nil_r.
      do 4 (split; [done|]). intros r err [= <- <-]. split; [by intros []|done].
    + injection H as <- <- <-. exists [Tick (HealthErr e)]. simpl.
      do 4 (split; [done|]). intros r err [= <- <-]. split; [by intros []|done].
    + destruct (Healthy ci); simpl in H; [|by eapply Hcont].
      destruct (CustomVmsHealthy ci); simpl in H; [|by eapply Hcont].
      injection H as <- <- <-. exists [Tick (HealthResp (Some ci))]. simpl.
      do 4 (split; [done|]). intros r err [= <- <-]. split; [done|eauto].
    + by eapply Hcont.
Qed.

(** X4. Whatever the backend and the context do, [WaitForHealthy] consumes a
    prefix of the select events and leaves the rest untouched, calls
    [Health] exactly once per timer event consumed and never for a context
    event, does not touch the file system, never panics, and when it
    returns, returns either cluster info with a nil error or a nil cluster
    info with an error, never both and never neither. *)
Theorem WaitForHealthy_accounting (d : LocalSubnetDeployer) (i : Z) (w w' : World)
    (o : Outcome (option ClusterInfo * error)) :
  WaitForHealthy d i w = (o, w') ->
  exists used,
    w_selects w = used ++ w_selects w' /\
    w_trace w' = w_trace w ++ repeat EHealth (countTicks used) /\
    w_fs w' = w_fs w /\
    (forall msg, o <> Panic msg) /\
    (o = Pending -> w_selects w' = []) /\
    (forall r err, o = Ret (r, err) -> (is_Some r <-> err = None)).
Proof.
  unfold WaitForHealthy.
  destruct (pollLoop (w_selects w) (w_trace w)) as [[o' rest] tr] eqn:Hloop.
  intros [= <- <-]. simpl.
  apply pollLoop_accounting in Hloop as (used & Hsel & Htr & Hrest).
  exists used. destruct Hrest as (Hpanic & Hpending & Hwf). by do 5 (split; [done|]).
Qed.

Lemma WaitForHealthy_accounting_witness :
  exists used,
    w_selects Demo.pollThenCancel = used ++ w_selects (afterTick Demo.pollThenCancel []) /\
    w_trace (afterTick Demo.pollThenCancel [])
    = w_trace Demo.pollThenCancel ++ repeat EHealth (countTicks used) /\
    w_fs (afterTick Demo.pollThenCancel []) = w_fs Demo.pollThenCancel.
Proof.
  destruct (WaitForHealthy_accounting Demo.deployer 100 Demo.pollThenCancel
              (afterTick Demo.pollThenCancel [])
              (Ret (None, Some "context canceled")))
    as (used & Hsel & Htr & Hfs & _); [reflexivity|].
  exists used. by split.
Defined.

(** X5. An error of the [Health] call itself is not retried: after any
    number of responses that kept the poller polling, the first such error
    ends the wait with the wrapped error; the events after it are not
    consumed, however healthy the backend would have reported later. *)
Theorem WaitForHealthy_rpc_error_is_fatal (d : LocalSubnetDeployer) (i : Z) (w : World)
    (pre rest : list SelectEvent) (e : string) :
  w_selects w = pre ++ Tick (HealthErr e) :: rest ->
  forallb keepsPolling pre = true ->
  WaitForHealthy d i w
  = (Ret (None, Some (healthCheckFailed e)),
     mkWorld (w_fs w) rest (w_trace w ++ repeat EHealth (length pre) ++ [EHealth])
             (w_backendStartedHere w)).
Proof.
  intros Hsel Hpre. unfold WaitForHealthy.
  rewrite Hsel, (pollLoop_keepsPolling pre _ _ Hpre). simpl.
  by rewrite <- app_assoc.
Qed.

Lemma WaitForHealthy_rpc_error_is_fatal_witness :
  WaitForHealthy Demo.deployer 100
    (Demo.world [Tick (HealthResp None); Tick (HealthErr "connection refused");
                 Tick (HealthResp (Some Demo.deployedInfo))])
  = (Ret (None, Some (healthCheckFailed "connection refused")),
     mkWorld Demo.fs [Tick (HealthResp (Some Demo.deployedInfo))]
             [EHealth; EHealth] false).
Proof.
  apply (WaitForHealthy_rpc_error_is_fatal Demo.deployer 100
           (Demo.world [Tick (HealthResp None); Tick (HealthErr "connection refused");
                        Tick (HealthResp (Some Demo.deployedInfo))])
           [Tick (HealthResp None)] [Tick (HealthResp (Some Demo.deployedInfo))]
           "connection refused"); reflexivity.
Defined.

(** ** The calls of [doDeploy], in order *)

Lemma installNeededPlugins_run (env : Env) (d : LocalSubnetDeployer) (chainVMID : ID)
    (clusterInfo : option ClusterInfo) (pluginDir : string) (w : World) :
  installNeededPlugins env d chainVMID clusterInfo pluginDir w
  = (Ret (snd (binaryDownloader d (pluginsToInstall env chainVMID clusterInfo) pluginDir
                 (filepath_Join env (GetBaseDir (app d)) (AvalancheCliBinDir env))
                 (w_fs w))),
     mkWorld
       (fst (binaryDownloader d (pluginsToInstall env chainVMID clusterInfo) pluginDir
               (filepath_Join env (GetBaseDir (app d)) (AvalancheCliBinDir env))
               (w_fs w)))
       (w_selects w)
       (w_trace w
        ++ [EPluginDownload (pluginsToInstall env chainVMID clusterInfo) pluginDir
              (filepath_Join env (GetBaseDir (app d)) (AvalancheCliBinDir env))])
       (w_backendStartedHere w)).
Proof.
  unfold installNeededPlugins, pluginsToInstall, bind, emit, get_fs, put_fs, ret, record.
  simpl.
  by destruct (snd (binaryDownloader d _ pluginDir _ (w_fs w))).
Qed.

Lemma startNetwork_calls (env : Env) (d : LocalSubnetDeployer)
    (avalancheGoBinPath pluginDir runDir : string) (w w' : World) (o : Outcome error) :
  startNetwork env d avalancheGoBinPath pluginDir runDir w = (o, w') ->
  exists err boot,
    o = Ret err /\ w_trace w' = w_trace w ++ boot /\ bootCalls env boot /\
    (boot = [] -> err <> None).
Proof.
  unfold startNetwork. destruct (LoadNodeConfig (app d)) as [configStr [e|]].
  { intros [= <- <-]. exists (Some e), []. rewrite app_nil_r.
    split; [done|]. split; [done|]. split; [by left|done]. }
  unfold bind, emit.
  match goal with
  | |- context [backend_LoadSnapshot env ?n ?opts] =>
      destruct (backend_LoadSnapshot env n opts) as [e|];
        intros [= <- <-]; eexists _, [ELoadSnapshot n opts];
        (split; [reflexivity|]); (split; [done|]); (split; [right; by eexists|done])
  end.
Qed.

Lemma createBlockchain_calls (env : Env) (d : LocalSubnetDeployer)
    (chain chainGenesis : string) (chainVMID : ID) (w w' : World)
    (o : Outcome Deployed) :
  createBlockchain env d chain chainGenesis chainVMID w = (o, w') ->
  exists k creation,
    w_trace w' = w_trace w ++ repeat EHealth k ++ creation /\
    creationCalls chain chainGenesis creation.
Proof.
  unfold createBlockchain, bind at 1.
  destruct (WaitForHealthy d (healthCheckInterval d) w) as [[[ci1 err1]| |] w1] eqn:Hwait1;
    apply WaitForHealthy_frame in Hwait1 as (_ & _ & k1 & Hk1).
  2,3: intros [= _ <-]; exists k1, []; rewrite app_nil_r; split; [done|by left].
  destruct err1 as [e|];
    [intros [= _ <-]; exists k1, []; rewrite app_nil_r; split; [done|by left]|].
  destruct ci1 as [ci1|];
    [|intros [= _ <-]; exists k1, []; rewrite app_nil_r; split; [done|by left]].
  unfold lift, bind at 1.
  destruct (selectSubnetID (Subnets ci1) (size (CustomVms ci1))) as [[e|s]| |].
  1,3,4: intros [= _ <-]; exists k1, []; rewrite app_nil_r; split; [done|by left].
  rewrite (bind_Ret _ _ _ _ _ (cli_CreateBlockchains_run _ _ _)).
  destruct (backend_CreateBlockchains env _) as [info [e|]].
  { intros [= _ <-]. exists k1. eexists. simpl. rewrite Hk1, <- app_assoc.
    split; [reflexivity|]. right. by exists s, 0. }
  unfold bind at 1.
  match goal with
  | |- context [WaitForHealthy d ?i ?w0] =>
      destruct (WaitForHealthy d i w0) as [[[ci2 err2]| |] w2] eqn:Hwait2;
        apply WaitForHealthy_frame in Hwait2 as (_ & _ & k2 & Hk2); simpl in Hk2
  end.
  2,3: intros [= _ <-]; exists k1; eexists; rewrite Hk2, Hk1, <- !app_assoc;
       (split; [reflexivity|]); right; by exists s, k2.
  destruct err2 as [e|];
    [intros [= _ <-]; exists k1; eexists; rewrite Hk2, Hk1, <- !app_assoc;
     (split; [reflexivity|]); right; by exists s, k2|].
  destruct ci2 as [ci2|];
    [|intros [= _ <-]; exists k1; eexists; rewrite Hk2, Hk1, <- !app_assoc;
      (split; [reflexivity|]); right; by exists s, k2].
  intros Hrep. apply report_frame in Hrep as ->.
  exists k1. eexists. rewrite Hk2, Hk1, <- !app_assoc.
  split; [reflexivity|]. right. by exists s, k2.
Qed.

Lemma deployVM_calls (env : Env) (d : LocalSubnetDeployer)
    (chain chainGenesis avalancheGoBinPath pluginDir runDir : string)
    (networkBooted : bool) (clusterInfo : option ClusterInfo) (w w' : World)
    (o : Outcome Deployed) :
  deployVM env d chain chainGenesis avalancheGoBinPath pluginDir runDir
           networkBooted clusterInfo w = (o, w') ->
  exists tr,
    w_trace w' = w_trace w ++ tr /\
    deployCalls env chain chainGenesis pluginDir
      (filepath_Join env (GetBaseDir (app d)) (AvalancheCliBinDir env)) tr /\
    (networkBooted = true -> forall name opts, ELoadSnapshot name opts ∉ tr).
Proof.
  unfold deployVM. destruct (utils_VMID env chain) as [chainVMID [e|]].
  { intros [= _ <-]. exists []. rewrite app_nil_r. split; [done|]. split; [by left|].
    intros _ ? ?. apply not_elem_of_nil. }
  destruct (alreadyDeployed env chainVMID clusterInfo).
  { intros [= _ <-]. exists []. rewrite app_nil_r. split; [done|]. split; [by left|].
    intros _ ? ?. apply not_elem_of_nil. }
  rewrite (bind_Ret _ _ _ _ _ (installNeededPlugins_run _ _ _ _ _ _)).
  set (vmIDs := pluginsToInstall env chainVMID clusterInfo).
  set (binDir := filepath_Join env (GetBaseDir (app d)) (AvalancheCliBinDir env)).
  destruct (snd (binaryDownloader d vmIDs pluginDir binDir (w_fs w))) as [e|].
  { intros [= _ <-]. simpl. exists [EPluginDownload vmIDs pluginDir binDir].
    split; [done|]. split.
    - right. exists vmIDs, [], 0, []. split; [done|]. split; by left.
    - intros _ ? ?. rewrite list_elem_of_singleton. done. }
  unfold bind at 1.
  destruct networkBooted; simpl.
  - intros Hcreate. apply createBlockchain_calls in Hcreate as (k & creation & Htr & Hcreation).
    simpl in Htr. exists (EPluginDownload vmIDs pluginDir binDir :: repeat EHealth k ++ creation).
    split; [by rewrite Htr, <- app_assoc|]. split.
    + right. exists vmIDs, [], k, creation. split; [done|]. split; [by left|done].
    + intros _ name opts. rewrite elem_of_cons, elem_of_app.
      intros [?|[Hin|Hin]]; [done| |].
      * apply list_elem_of_In, repeat_spec in Hin. done.
      * destruct Hcreation as [->|(s & k' & ->)]; [by apply not_elem_of_nil in Hin|].
        apply elem_of_cons in Hin as [?|Hin]; [done|].
        apply list_elem_of_In, repeat_spec in Hin. done.
  - match goal with
    | |- context [startNetwork env d ?a ?b ?c ?w0] =>
        destruct (startNetwork env d a b c w0) as [o1 w1] eqn:Hstart;
          apply startNetwork_calls in Hstart as (err & boot & -> & Hboot & Hshape & _)
    end.
    simpl in Hboot. destruct err as [e|].
    + intros [= _ <-]. exists (EPluginDownload vmIDs pluginDir binDir :: boot).
      split; [by rewrite Hboot, <- app_assoc|]. split; [|done].
      right. exists vmIDs, boot, 0, []. rewrite app_nil_r. split; [done|]. split; [done|by left].
    + intros Hcreate.
      apply createBlockchain_calls in Hcreate as (k & creation & Htr & Hcreation).
      exists (EPluginDownload vmIDs pluginDir binDir :: boot ++ repeat EHealth k ++ creation).
      split; [by rewrite Htr, Hboot, <- !app_assoc|]. split; [|done].
      right. by exists vmIDs, boot, k, creation.
Qed.

Lemma getGenesis_frame (env : Env) (genesisFile : string) (w : World) :
  exists r, getGenesis env genesisFile w = (Ret r, w).
Proof.
  unfold getGenesis, get_fs, bind.
  destruct (ReadFile (w_fs w) genesisFile) as [genBytes [e|]]; [by eexists|].
  destruct (json_Unmarshal env genBytes) as [g [e|]]; by eexists.
Qed.

Lemma probeNetwork_calls (env : Env) (d : LocalSubnetDeployer)
    (chain chainGenesis avalancheGoBinPath pluginDir : string) (w w' : World)
    (o : Outcome Deployed) :
  probeNetwork env d chain chainGenesis avalancheGoBinPath pluginDir w = (o, w') ->
  exists k tr,
    w_trace w' = w_trace w ++ repeat EHealth k ++ tr /\
    deployCalls env chain chainGenesis pluginDir
      (filepath_Join env (GetBaseDir (app d)) (AvalancheCliBinDir env)) tr /\
    (forall r w2,
        WaitForHealthy d (healthCheckInterval d) w = (Ret (r, None), w2) ->
        forall name opts, ELoadSnapshot name opts ∉ tr).
Proof.
  assert (Hnone : forall w0 : World,
             exists k tr,
               w_trace w0 = w_trace w0 ++ repeat EHealth k ++ tr /\
               deployCalls env chain chainGenesis pluginDir
                 (filepath_Join env (GetBaseDir (app d)) (AvalancheCliBinDir env)) tr /\
               (forall r w2,
                   WaitForHealthy d (healthCheckInterval d) w = (Ret (r, None), w2) ->
                   forall name opts, ELoadSnapshot name opts ∉ tr)).
  { intros w0. exists 0, []. simpl. rewrite app_nil_r. split; [done|]. split; [by left|].
    intros. apply not_elem_of_nil. }
  unfold probeNetwork, get_fs, bind at 1, FileExists. simpl.
  destruct (negb (Stat_exists (w_fs w) chainGenesis) || false);
    [intros [= _ <-]; apply Hnone|].
  destruct (getGenesis_frame env chainGenesis w) as [[genesis err] Hgen].
  rewrite (bind_Ret _ _ _ _ _ Hgen).
  destruct err as [e|]; [intros [= _ <-]; apply Hnone|].
  destruct (Config genesis) as [config|]; [|intros [= _ <-]; apply Hnone].
  unfold bind at 1.
  destruct (WaitForHealthy d (healthCheckInterval d) w) as [[[ci err]| |] w1] eqn:Hwait;
    pose proof (WaitForHealthy_frame _ _ _ _ _ Hwait) as (_ & _ & k & Hk).
  2,3: intros [= _ <-]; exists k, []; rewrite app_nil_r; split; [done|];
       split; [by left|]; intros; apply not_elem_of_nil.
  destruct err as [e|].
  - destruct (Contains e "not bootstrapped").
    + intros Hdeploy. apply deployVM_calls in Hdeploy as (tr & Htr & Hshape & _).
      exists k, tr. split; [by rewrite Htr, Hk, <- app_assoc|]. split; [done|].
      intros r w2 [=].
    + intros [= _ <-]. exists k, []. rewrite app_nil_r. split; [done|].
      split; [by left|]. intros; apply not_elem_of_nil.
  - intros Hdeploy. apply deployVM_calls in Hdeploy as (tr & Htr & Hshape & Hboot).
    exists k, tr. split; [by rewrite Htr, Hk, <- app_assoc|]. split; [done|].
    intros _ _ _. by apply Hboot.
Qed.

(** X6. From the creation of the client on, the calls of [doDeploy] come in
    one order: health polls; then, unless it stops early, one plugin
    download, at most one [LoadSnapshot] of the default snapshot, health
    polls, and at most one [CreateBlockchains], of a single specification
    for this chain and genesis, followed by health polls; last, unless the
    run is still blocked in a poll, exactly one [Close].  So no blockchain
    is created before the plugins are downloaded, and none twice. *)
Theorem doDeploy_call_order (env : Env) (d : LocalSubnetDeployer)
    (chain chainGenesis avalancheGoBinPath pluginDir : string) (w w1 w' : World)
    (o : Outcome Deployed) :
  SetupLocalEnv env d w = (Ret (avalancheGoBinPath, pluginDir, None), w1) ->
  getClientFunc d = None ->
  doDeploy env d chain chainGenesis w = (o, w') ->
  exists k tr closing,
    w_trace w' = w_trace w1 ++ repeat EHealth k ++ tr ++ closing /\
    deployCalls env chain chainGenesis pluginDir
      (filepath_Join env (GetBaseDir (app d)) (AvalancheCliBinDir env)) tr /\
    (closing = [EClose] \/ (closing = [] /\ o = Pending)).
Proof.
  intros Hsetup Hclient. rewrite (doDeploy_probeNetwork _ _ _ _ _ _ _ _ Hsetup Hclient).
  unfold defer.
  destruct (probeNetwork env d chain chainGenesis avalancheGoBinPath pluginDir w1)
    as [o1 w2] eqn:Hprobe.
  apply probeNetwork_calls in Hprobe as (k & tr & Htr & Hshape & _).
  destruct o1 as [r|msg|]; intros [= <- <-]; exists k, tr.
  - exists [EClose]. simpl. rewrite Htr, <- !app_assoc. by split; [|split; [|left]].
  - exists [EClose]. simpl. rewrite Htr, <- !app_assoc. by split; [|split; [|left]].
  - exists []. rewrite app_nil_r. by split; [|split; [|right]].
Qed.

Lemma doDeploy_call_order_witness :
  exists k tr closing,
    [EHealth;
     EPluginDownload {[ "test"; "chain2" ]} "base/bin/avalanchego-v1.7.13/plugins" "base/bin";
     EHealth;
     ECreateBlockchains [mkBlockchainSpec "chain2" "genesis.json" (Some "s2")];
     EHealth; EClose]
    = w_trace (Demo.threePolls Demo.deployedInfo) ++ repeat EHealth k ++ tr ++ closing /\
    deployCalls Demo.env "chain2" "genesis.json" "base/bin/avalanchego-v1.7.13/plugins"
      (filepath_Join Demo.env (GetBaseDir (app Demo.deployer))
                     (AvalancheCliBinDir Demo.env)) tr /\
    (closing = [EClose] \/
     (closing = [] /\
      fst (doDeploy Demo.env Demo.deployer "chain2" "genesis.json"
             (Demo.threePolls Demo.deployedInfo)) = Pending)).
Proof.
  apply (doDeploy_call_order Demo.env Demo.deployer "chain2" "genesis.json"
           "base/bin/avalanchego-v1.7.13/avalanchego"
           "base/bin/avalanchego-v1.7.13/plugins"
           (Demo.threePolls Demo.deployedInfo) (Demo.threePolls Demo.deployedInfo)
           (snd (doDeploy Demo.env Demo.deployer "chain2" "genesis.json"
                   (Demo.threePolls Demo.deployedInfo)))
           (fst (doDeploy Demo.env Demo.deployer "chain2" "genesis.json"
                   (Demo.threePolls Demo.deployedInfo)))); reflexivity.
Defined.

(** X7. A network the first probe found healthy is never restarted: when
    that probe returns a nil error, [doDeploy] issues no [LoadSnapshot],
    whatever happens afterwards. *)
Theorem doDeploy_keeps_running_network (env : Env) (d : LocalSubnetDeployer)
    (chain chainGenesis avalancheGoBinPath pluginDir : string) (w w1 w2 w' : World)
    (o : Outcome Deployed) (r : option ClusterInfo) :
  SetupLocalEnv env d w = (Ret (avalancheGoBinPath, pluginDir, None), w1) ->
  getClientFunc d = None ->
  WaitForHealthy d (healthCheckInterval d) w1 = (Ret (r, None), w2) ->
  doDeploy env d chain chainGenesis w = (o, w') ->
  exists tr,
    w_trace w' = w_trace w1 ++ tr /\
    forall name opts, ELoadSnapshot name opts ∉ tr.
Proof.
  intros Hsetup Hclient Hwait.
  rewrite (doDeploy_probeNetwork _ _ _ _ _ _ _ _ Hsetup Hclient). unfold defer.
  destruct (probeNetwork env d chain chainGenesis avalancheGoBinPath pluginDir w1)
    as [o1 w3] eqn:Hprobe.
  apply probeNetwork_calls in Hprobe as (k & tr & Htr & _ & Hboot).
  specialize (Hboot r w2 Hwait).
  assert (Hin : forall closing name opts,
             closing = [] \/ closing = [EClose] ->
             ELoadSnapshot name opts ∉ repeat EHealth k ++ tr ++ closing).
  { intros closing name opts Hclosing. rewrite !elem_of_app.
    intros [Hin|[Hin|Hin]].
    - apply list_elem_of_In, repeat_spec in Hin. done.
    - by apply (Hboot name opts).
    - destruct Hclosing as [->| ->]; [by apply not_elem_of_nil in Hin|].
      by apply list_elem_of_singleton in Hin. }
  destruct o1 as [res|msg|]; intros [= <- <-].
  - exists (repeat EHealth k ++ tr ++ [EClose]). simpl. rewrite Htr, <- !app_assoc.
    split; [done|]. intros. apply Hin. by right.
  - exists (repeat EHealth k ++ tr ++ [EClose]). simpl. rewrite Htr, <- !app_assoc.
    split; [done|]. intros. apply Hin. by right.
  - exists (repeat EHealth k ++ tr ++ []). rewrite Htr.
    split; [by rewrite app_nil_r|]. intros. apply Hin. by left.
Qed.

Lemma doDeploy_keeps_running_network_witness :
  exists tr,
    w_trace (snd (doDeploy Demo.env Demo.deployer "chain2" "genesis.json"
                    (Demo.threePolls Demo.deployedInfo)))
    = w_trace (Demo.threePolls Demo.deployedInfo) ++ tr /\
    forall name opts, ELoadSnapshot name opts ∉ tr.
Proof.
  apply (doDeploy_keeps_running_network Demo.env Demo.deployer "chain2" "genesis.json"
           "base/bin/avalanchego-v1.7.13/avalanchego"
           "base/bin/avalanchego-v1.7.13/plugins"
           (Demo.threePolls Demo.deployedInfo) (Demo.threePolls Demo.deployedInfo)
           (afterTick (Demo.threePolls Demo.deployedInfo)
              [Tick (HealthResp (Some Demo.deployedInfo));
               Tick (HealthResp (Some Demo.deployedInfo))])
           (snd (doDeploy Demo.env Demo.deployer "chain2" "genesis.json"
                   (Demo.threePolls Demo.deployedInfo)))
           (fst (doDeploy Demo.env Demo.deployer "chain2" "genesis.json"
                   (Demo.threePolls Demo.deployedInfo)))
           (Some Demo.deployedInfo)); reflexivity.
Defined.

(** X8. [doDeploy] closes the client exactly when it created one.  When the
    local environment cannot be set up its error is returned as it is, and
    when the client cannot be created the error is wrapped; in both cases
    nothing is called.  When the genesis file is missing the error is
    returned with the client closed and not a single health poll made. *)
Theorem doDeploy_early_failures (env : Env) (d : LocalSubnetDeployer)
    (chain chainGenesis avalancheGoBinPath pluginDir : string) (w w1 : World)
    (err : error) :
  SetupLocalEnv env d w = (Ret (avalancheGoBinPath, pluginDir, err), w1) ->
  (forall e, err = Some e ->
     doDeploy env d chain chainGenesis w = (Ret (ids_Empty, ids_Empty, Some e), w1))
  /\ (forall e, err = None -> getClientFunc d = Some e ->
        doDeploy env d chain chainGenesis w
        = (Ret (ids_Empty, ids_Empty, Some ("error creating gRPC Client: " +:+ e)), w1))
  /\ (err = None -> getClientFunc d = None -> w_fs w1 !! chainGenesis = None ->
      doDeploy env d chain chainGenesis w
      = (Ret (ids_Empty, ids_Empty,
              Some ("evaluated chain genesis file to be at " +:+ chainGenesis
                    +:+ " but it does not seem to exist")),
         record EClose w1)).
Proof.
  intros Hsetup. split; [|split].
  - intros e ->. unfold doDeploy. by rewrite (bind_Ret _ _ _ _ _ Hsetup).
  - intros e -> Hclient. unfold doDeploy. rewrite (bind_Ret _ _ _ _ _ Hsetup).
    by rewrite Hclient.
  - intros -> Hclient Hfile.
    rewrite (doDeploy_probeNetwork _ _ _ _ _ _ _ _ Hsetup Hclient).
    unfold defer, probeNetwork, get_fs, bind, FileExists, Stat_exists.
    by rewrite Hfile.
Qed.

Lemma doDeploy_early_failures_witness :
  doDeploy Demo.env Demo.deployer "test" "missing.json" Demo.pollTwice
  = (Ret (ids_Empty, ids_Empty,
          Some ("evaluated chain genesis file to be at " +:+ "missing.json"
                +:+ " but it does not seem to exist")),
     record EClose Demo.pollTwice).
Proof.
  destruct (doDeploy_early_failures Demo.env Demo.deployer "test" "missing.json"
              "base/bin/avalanchego-v1.7.13/avalanchego"
              "base/bin/avalanchego-v1.7.13/plugins"
              Demo.pollTwice Demo.pollTwice None)
    as (_ & _ & Hmissing); [reflexivity|].
  apply Hmissing; reflexivity.
Defined.

(** ** The report step: identifiers and the slicing of the first endpoint *)

Lemma resolve_blockchainID (env : Env) (chainVMID : ID)
    (l : list (string * CustomVmInfo)) (acc : ID) :
  let result :=
    fold_left
      (fun blockchainID kv =>
         if String.eqb (VmId (snd kv)) (ID_String env chainVMID)
         then fst (ids_FromString env (BlockchainId (snd kv)))
         else blockchainID) l acc in
  ((forall kv, kv ∈ l -> VmId (snd kv) <> ID_String env chainVMID) -> result = acc)
  /\ ((exists kv, kv ∈ l /\ VmId (snd kv) = ID_String env chainVMID) ->
      exists kv, kv ∈ l /\ VmId (snd kv) = ID_String env chainVMID /\
                 result = fst (ids_FromString env (BlockchainId (snd kv)))).
Proof.
  revert acc. induction l as [|kv l IH]; intros acc; simpl.
  - split; [done|]. intros (kv & Hin & _). by apply not_elem_of_nil in Hin.
  - destruct (IH (if String.eqb (VmId (snd kv)) (ID_String env chainVMID)
                  then fst (ids_FromString env (BlockchainId (snd kv))) else acc))
      as [IHnone IHsome].
    split.
    + intros Hnone. rewrite IHnone.
      * destruct (String.eqb_spec (VmId (snd kv)) (ID_String env chainVMID)) as [Heq|_];
          [|done]. exfalso. apply (Hnone kv); [by left|done].
      * intros kv' Hin. apply Hnone. by right.
    + intros (kv' & Hin & Hmatch).
      destruct (existsb (fun kv0 => String.eqb (VmId (snd kv0)) (ID_String env chainVMID)) l)
        eqn:Hex.
      * apply existsb_exists in Hex as (kv'' & Hin'' & Heq'').
        destruct IHsome as (kv3 & Hin3 & Hm3 & Hres).
        { exists kv''. split; [by apply list_elem_of_In|]. by apply String.eqb_eq. }
        exists kv3. split; [by right|]. by split.
      * assert (Hnone : forall kv0, kv0 ∈ l -> VmId (snd kv0) <> ID_String env chainVMID).
        { intros kv0 Hin0 Heq0.
          assert (Htrue : existsb (fun kv0 => String.eqb (VmId (snd kv0))
                                                (ID_String env chainVMID)) l = true).
          { apply existsb_exists. exists kv0. split; [by apply list_elem_of_In|].
            by apply String.eqb_eq. }
          congruence. }
        rewrite (IHnone Hnone). apply elem_of_cons in Hin as [->|Hin].
        -- exists kv. split; [by left|]. split; [done|].
           by rewrite (proj2 (String.eqb_eq _ _) Hmatch).
        -- by destruct (Hnone kv' Hin).
Qed.

(** X9. When the report step returns, the error is nil, the subnet ID is the
    parsed selected subnet, and the blockchain ID is resolved through the
    VM ID: it is [ids.Empty] when no custom VM of the cluster info has the
    chain's VM ID, and otherwise the parsed blockchain identifier of a
    custom VM that has it. *)
Theorem report_resolves_identifiers (env : Env) (chainVMID : ID) (subnetIDStr : string)
    (ci : ClusterInfo) (w w' : World) (subnetID blockchainID : ID) (err : error) :
  report env chainVMID subnetIDStr ci w = (Ret (subnetID, blockchainID, err), w') ->
  err = None /\ w' = w /\ subnetID = fst (ids_FromString env subnetIDStr)
  /\ ((forall k vmInfo, CustomVms ci !! k = Some vmInfo ->
                        VmId vmInfo <> ID_String env chainVMID) ->
      blockchainID = ids_Empty)
  /\ ((exists k vmInfo, CustomVms ci !! k = Some vmInfo /\
                        VmId vmInfo = ID_String env chainVMID) ->
      exists k vmInfo,
        CustomVms ci !! k = Some vmInfo /\ VmId vmInfo = ID_String env chainVMID /\
        blockchainID = fst (ids_FromString env (BlockchainId vmInfo))).
Proof.
  unfold report, panic, ret.
  destruct (GetEndpoints env ci !! 0) as [firstURL|]; [|done].
  destruct (negb (Contains firstURL "http")); [done|].
  intros [= <- <- <- <-].
  destruct (resolve_blockchainID env chainVMID (map_to_list (CustomVms ci)) ids_Empty)
    as [Hnone Hsome].
  split; [done|]. split; [done|]. split; [done|]. split.
  - intros Habsent. apply Hnone. intros [k vm] Hin. apply elem_of_map_to_list in Hin.
    by apply (Habsent k vm).
  - intros (k & vm & Hlook & Hmatch).
    destruct Hsome as ([k' vm'] & Hin & Hm & Hres).
    { exists (k, vm). split; [by apply elem_of_map_to_list|done]. }
    exists k', vm'. split; [by apply elem_of_map_to_list|]. by split.
Qed.

Lemma report_resolves_identifiers_witness :
  exists k vmInfo,
    CustomVms Demo.deployedInfo !! k = Some vmInfo /\
    VmId vmInfo = ID_String Demo.env (mkID (list_ascii_of_string "test")) /\
    mkID (list_ascii_of_string "bc1")
    = fst (ids_FromString Demo.env (BlockchainId vmInfo)).
Proof.
  destruct (report_resolves_identifiers Demo.env (mkID (list_ascii_of_string "test"))
              "s1" Demo.deployedInfo (Demo.world []) (Demo.world [])
              (mkID (list_ascii_of_string "s1")) (mkID (list_ascii_of_string "bc1")) None)
    as (_ & _ & _ & _ & Hfound); [reflexivity|].
  apply Hfound. exists "bc1", (mkCustomVmInfo "test" "bc1"). split; reflexivity.
Defined.

Lemma append_cons (c : ascii) (a b : string) : String c a +:+ b = String c (a +:+ b).
Proof. reflexivity. Qed.

Lemma HasPrefix_append (a b s : string) :
  HasPrefix a s = true -> HasPrefix (a +:+ b) s = true.
Proof.
  revert a. induction s as [|c s IH]; intros a; [intros _; by destruct (a +:+ b)|].
  destruct a as [|x a]; [done|]. rewrite append_cons. simpl.
  destruct (Ascii.eqb c x); [apply IH|done].
Qed.

Lemma Contains_append_l (a b s : string) :
  Contains a s = true -> Contains (a +:+ b) s = true.
Proof.
  induction a as [|x a IH].
  - simpl. rewrite orb_false_r. intros H. destruct s as [|c s]; [|done].
    by destruct b.
  - rewrite append_cons. simpl. intros H. apply orb_true_iff in H as [H|H].
    + apply orb_true_iff. left. by apply (HasPrefix_append (String x a) b s).
    + apply orb_true_iff. right. by apply IH.
Qed.

Lemma Contains_append_r (a b s : string) :
  Contains b s = true -> Contains (a +:+ b) s = true.
Proof.
  intros H. induction a as [|x a IH]; [done|].
  rewrite append_cons. simpl. rewrite IH. apply orb_true_r.
Qed.

Lemma endpointLine_Contains_uri (env : Env) (nodeInfo : NodeInfo) (blockchainID : string)
    (vmInfo : CustomVmInfo) (s : string) :
  Contains (Uri nodeInfo) s = true ->
  Contains (endpointLine env nodeInfo blockchainID vmInfo) s = true.
Proof.
  intros H. unfold endpointLine.
  do 7 apply Contains_append_r. by apply Contains_append_l.
Qed.

(** X10. The report step slices the first endpoint from the last "http" on.
    With at least one node and one custom VM it returns normally exactly
    when that first endpoint contains "http", and panics on the slice
    otherwise; it always contains it when every node URI does. *)
Theorem report_slices_first_endpoint (env : Env) (chainVMID : ID) (subnetIDStr : string)
    (ci : ClusterInfo) (w : World) (firstURL : string) :
  GetEndpoints env ci !! 0 = Some firstURL ->
  (Contains firstURL "http" = false ->
   report env chainVMID subnetIDStr ci w = (Panic "slice bounds out of range [-1:]", w))
  /\ (Contains firstURL "http" = true ->
      exists subnetID blockchainID,
        report env chainVMID subnetIDStr ci w = (Ret (subnetID, blockchainID, None), w))
  /\ ((forall nodeInfo, nodeInfo ∈ NodeInfos ci -> Contains (Uri nodeInfo) "http" = true) ->
      Contains firstURL "http" = true).
Proof.
  intros Hfirst. split; [|split].
  - intros Hno. unfold report. by rewrite Hfirst, Hno.
  - intros Hyes. unfold report. rewrite Hfirst, Hyes. by eexists _, _.
  - intros Huris.
    assert (Hin : firstURL ∈ GetEndpoints env ci) by (by eapply list_elem_of_lookup_2).
    rewrite GetEndpoints_list_prod in Hin.
    apply list_elem_of_fmap in Hin as ([n [k vm]] & -> & Hin).
    apply list_elem_of_In, in_prod_iff in Hin as [Hn _].
    apply (endpointLine_Contains_uri env n k vm), Huris. by apply list_elem_of_In.
Qed.

Lemma report_slices_first_endpoint_witness :
  report Demo.env (mkID (list_ascii_of_string "test")) "s1"
         (mkClusterInfo [mkNodeInfo "node1" "127.0.0.1:9650"] true true
                        {[ "bc1" := mkCustomVmInfo "test" "bc1" ]} ["s1"])
         (Demo.world [])
  = (Panic "slice bounds out of range [-1:]", Demo.world []).
Proof.
  destruct (report_slices_first_endpoint Demo.env (mkID (list_ascii_of_string "test")) "s1"
              (mkClusterInfo [mkNodeInfo "node1" "127.0.0.1:9650"] true true
                             {[ "bc1" := mkCustomVmInfo "test" "bc1" ]} ["s1"])
              (Demo.world [])
              (endpointLine Demo.env (mkNodeInfo "node1" "127.0.0.1:9650") "bc1"
                            (mkCustomVmInfo "test" "bc1")))
    as (Hpanic & _ & _); [reflexivity|].
  apply Hpanic. reflexivity.
Defined.

(** ** The plugins to install *)

Lemma pluginsToInstall_fold (l : list (string * CustomVmInfo)) (acc : gset string)
    (x : string) :
  x ∈ fold_left (fun acc kv => acc ∪ {[ VmId (snd kv) ]}) l acc <->
  x ∈ acc \/ exists kv, kv ∈ l /\ VmId (snd kv) = x.
Proof.
  revert acc. induction l as [|kv l IH]; intros acc; simpl.
  - split; [by left|]. intros [?|(kv & Hin & _)]; [done|]. by apply not_elem_of_nil in Hin.
  - rewrite IH, elem_of_union, elem_of_singleton. split.
    + intros [[? | ->] | (kv' & Hin & <-)].
      * by left.
      * right. exists kv. split; [by left|done].
      * right. exists kv'. split; [by right|done].
    + intros [?|(kv' & Hin & <-)]; [by left; left|].
      apply elem_of_cons in Hin as [-> | Hin]; [by left; right|].
      right. by exists kv'.
Qed.

(** X11. [installNeededPlugins] asks the downloader, in one call, for the
    plugin of the new VM and for the plugin of every custom VM the cluster
    info lists, and for nothing else; with a nil cluster info, for the new
    VM alone.  It returns the downloader's error unchanged. *)
Theorem installNeededPlugins_covers_deployed_vms (env : Env) (d : LocalSubnetDeployer)
    (chainVMID : ID) (clusterInfo : option ClusterInfo) (pluginDir : string)
    (w w' : World) (o : Outcome error) :
  installNeededPlugins env d chainVMID clusterInfo pluginDir w = (o, w') ->
  exists vmIDs,
    w_trace w'
    = w_trace w
      ++ [EPluginDownload vmIDs pluginDir
            (filepath_Join env (GetBaseDir (app d)) (AvalancheCliBinDir env))] /\
    o = Ret (snd (binaryDownloader d vmIDs pluginDir
                    (filepath_Join env (GetBaseDir (app d)) (AvalancheCliBinDir env))
                    (w_fs w))) /\
    (forall x,
        x ∈ vmIDs <->
        x = ID_String env chainVMID \/
        exists ci k vmInfo,
          clusterInfo = Some ci /\ CustomVms ci !! k = Some vmInfo /\ VmId vmInfo = x).
Proof.
  rewrite installNeededPlugins_run. intros [= <- <-].
  exists (pluginsToInstall env chainVMID clusterInfo). split; [done|]. split; [done|].
  intros x. unfold pluginsToInstall. destruct clusterInfo as [ci|].
  - rewrite pluginsToInstall_fold, elem_of_singleton. split.
    + intros [?|([k vm] & Hin & <-)]; [by left|]. right.
      exists ci, k, vm. split; [done|]. split; [by apply elem_of_map_to_list|done].
    + intros [?|(ci' & k & vm & [= <-] & Hlook & <-)]; [by left|]. right.
      exists (k, vm). split; [by apply elem_of_map_to_list|done].
  - rewrite elem_of_singleton. split; [by left|].
    by intros [?|(ci' & k & vm & [=] & _)].
Qed.

Lemma installNeededPlugins_covers_deployed_vms_witness :
  exists vmIDs : gset string,
    w_trace (snd (installNeededPlugins Demo.env Demo.deployer
                    (mkID (list_ascii_of_string "chain2")) (Some Demo.deployedInfo)
                    "plugins" (Demo.world [])))
    = w_trace (Demo.world [])
      ++ [EPluginDownload vmIDs "plugins"
            (filepath_Join Demo.env (GetBaseDir (app Demo.deployer))
                           (AvalancheCliBinDir Demo.env))] /\
    "test" ∈ vmIDs /\ "chain2" ∈ vmIDs.
Proof.
  destruct (installNeededPlugins_covers_deployed_vms Demo.env Demo.deployer
              (mkID (list_ascii_of_string "chain2")) (Some Demo.deployedInfo) "plugins"
              (Demo.world [])
              (snd (installNeededPlugins Demo.env Demo.deployer
                      (mkID (list_ascii_of_string "chain2")) (Some Demo.deployedInfo)
                      "plugins" (Demo.world [])))
              (fst (installNeededPlugins Demo.env Demo.deployer
                      (mkID (list_ascii_of_string "chain2")) (Some Demo.deployedInfo)
                      "plugins" (Demo.world []))))
    as (vmIDs & Htr & _ & Hin); [reflexivity|].
  exists vmIDs. split; [exact Htr|]. split.
  - apply Hin. right.
    exists Demo.deployedInfo, "bc1", (mkCustomVmInfo "test" "bc1"). by repeat split.
  - apply Hin. left. reflexivity.
Defined.

(** ** The default snapshot: downloads, fresh installs and forced installs *)

Lemma RemoveAll_lookup (fs : gmap string FsNode) (path p : string) :
  RemoveAll fs path !! p = if below path p then None else fs !! p.
Proof.
  unfold RemoveAll. destruct (below path p) eqn:Hbelow.
  - apply map_lookup_filter_None. destruct (fs !! p) as [n|]; [right|by left].
    intros x _. simpl. by rewrite Hbelow.
  - destruct (fs !! p) as [n|] eqn:Hp.
    + by apply map_lookup_filter_Some.
    + apply map_lookup_filter_None. by left.
Qed.

Lemma below_refl (path : string) : below path path = true.
Proof. unfold below. by rewrite String.eqb_refl. Qed.

(** X12. When the bootstrap archive is missing and the download does not
    end in a 200 with a fully read body, [SetDefaultSnapshot] returns an
    error after that one request: nothing is written, removed or extracted
    and the file system is as before, with or without [force]. *)
Theorem SetDefaultSnapshot_failed_download (env : Env) (snapshotsDir : string)
    (force : bool) (w : World) :
  Stat_exists (w_fs w)
    (filepath_Join env snapshotsDir (BootstrapSnapshotArchiveName env)) = false ->
  (forall body, http_Get env (BootstrapSnapshotURL env) <> HttpResp 200 (body, None)) ->
  exists e,
    SetDefaultSnapshot env snapshotsDir force w
    = (Ret (Some e), record (EHttpGet (BootstrapSnapshotURL env)) w).
Proof.
  intros Habsent Hfail.
  unfold SetDefaultSnapshot, get_fs, bind at 1 2. rewrite Habsent.
  unfold downloadBootstrapSnapshot, bind at 1 2, emit.
  destruct (http_Get env (BootstrapSnapshotURL env)) as [e|status [body readErr]] eqn:Hget.
  { by eexists. }
  destruct (Nat.eqb_spec status http_StatusOK) as [->|Hstatus]; simpl; [|by eexists].
  destruct readErr as [e|]; [by eexists|]. by destruct (Hfail body).
Qed.

Lemma SetDefaultSnapshot_failed_download_witness :
  exists e,
    SetDefaultSnapshot Demo.env "elsewhere" true (Demo.world [])
    = (Ret (Some e), record (EHttpGet (BootstrapSnapshotURL Demo.env)) (Demo.world [])).
Proof.
  apply (SetDefaultSnapshot_failed_download Demo.env "elsewhere" true (Demo.world []));
    [reflexivity|discriminate].
Defined.

(** X13. On a machine with neither artifact, a download that succeeds is
    written down as the bootstrap archive and the very bytes downloaded are
    what is extracted into the snapshots directory: one request, one
    write, one extraction, in this order. *)
Theorem SetDefaultSnapshot_fresh_install (env : Env) (snapshotsDir body : string)
    (w : World) :
  let archivePath := filepath_Join env snapshotsDir (BootstrapSnapshotArchiveName env) in
  let defaultPath :=
    filepath_Join env snapshotsDir ("anr-snapshot-" +:+ DefaultSnapshotName env) in
  w_fs w !! archivePath = None ->
  w_fs w !! defaultPath = None ->
  archivePath <> defaultPath ->
  http_Get env (BootstrapSnapshotURL env) = HttpResp 200 (body, None) ->
  os_WriteFile_err env archivePath = None ->
  exists o w',
    SetDefaultSnapshot env snapshotsDir false w = (o, w') /\
    w_trace w'
    = w_trace w ++ [EHttpGet (BootstrapSnapshotURL env); EWriteFile archivePath body;
                    EInstallArchive "tar.gz" body snapshotsDir] /\
    w_fs w'
    = fst (binutils_InstallArchive env "tar.gz" body snapshotsDir
             (<[archivePath := File body]> (w_fs w))) /\
    (snd (binutils_InstallArchive env "tar.gz" body snapshotsDir
            (<[archivePath := File body]> (w_fs w))) = None ->
     o = Ret None).
Proof.
  intros archivePath defaultPath Harchive Hdefault Hne Hget Hwrite.
  unfold SetDefaultSnapshot, get_fs, bind at 1 2, Stat_exists.
  fold archivePath. fold defaultPath. rewrite Harchive.
  unfold downloadBootstrapSnapshot, bind at 1 2, emit. rewrite Hget. simpl.
  unfold os_WriteFile, bind at 1 2, emit. rewrite Hwrite.
  unfold get_fs, put_fs, bind, ret, record. simpl.
  rewrite lookup_insert_ne by done. rewrite Hdefault.
  unfold ReadFile. rewrite lookup_insert_eq.
  unfold InstallArchive, bind, emit, get_fs, put_fs, ret, record. simpl.
  destruct (snd (binutils_InstallArchive env "tar.gz" body snapshotsDir
                   (<[archivePath := File body]> (w_fs w)))) as [e|];
    eexists _, _; (split; [reflexivity|]); simpl; rewrite <- !app_assoc; by repeat split.
Qed.

Lemma SetDefaultSnapshot_fresh_install_witness :
  exists o w',
    SetDefaultSnapshot
      (mkEnv (ID_String Demo.env) (ids_FromString Demo.env) (utils_VMID Demo.env)
             (json_Unmarshal Demo.env) (strconv_Quote Demo.env) (filepath_Join Demo.env)
             (fun _ => HttpResp 200 ("archive", None)) (os_WriteFile_err Demo.env)
             (os_Rename Demo.env) (binutils_InstallArchive Demo.env)
             (binutils_StartServerProcess Demo.env) (runtime_GOOS Demo.env)
             (runtime_GOARCH Demo.env) (AvalancheCliBinDir Demo.env)
             (AvalancheGoReleaseVersion Demo.env) (BootstrapSnapshotArchiveName Demo.env)
             (BootstrapSnapshotURL Demo.env) (DefaultSnapshotName Demo.env)
             (backend_LoadSnapshot Demo.env) (backend_CreateBlockchains Demo.env))
      "elsewhere" false (Demo.world [])
    = (o, w') /\
    w_trace w'
    = [EHttpGet "https://example.org/bootstrapSnapshot.tar.gz";
       EWriteFile "elsewhere/bootstrapSnapshot.tar.gz" "archive";
       EInstallArchive "tar.gz" "archive" "elsewhere"] /\
    o = Ret None.
Proof.
  destruct (SetDefaultSnapshot_fresh_install
              (mkEnv (ID_String Demo.env) (ids_FromString Demo.env) (utils_VMID Demo.env)
                 (json_Unmarshal Demo.env) (strconv_Quote Demo.env)
                 (filepath_Join Demo.env)
                 (fun _ => HttpResp 200 ("archive", None)) (os_WriteFile_err Demo.env)
                 (os_Rename Demo.env) (binutils_InstallArchive Demo.env)
                 (binutils_StartServerProcess Demo.env) (runtime_GOOS Demo.env)
                 (runtime_GOARCH Demo.env) (AvalancheCliBinDir Demo.env)
                 (AvalancheGoReleaseVersion Demo.env)
                 (BootstrapSnapshotArchiveName Demo.env)
                 (BootstrapSnapshotURL Demo.env) (DefaultSnapshotName Demo.env)
                 (backend_LoadSnapshot Demo.env) (backend_CreateBlockchains Demo.env))
              "elsewhere" "archive" (Demo.world []))
    as (o & w' & Hrun & Htr & _ & Hok);
    [reflexivity|reflexivity|discriminate|reflexivity|reflexivity|].
  exists o, w'. split; [exact Hrun|]. split; [exact Htr|]. apply Hok. reflexivity.
Defined.

(** X14. With [force] and the bootstrap archive on disk (outside the default
    snapshot's directory), nothing is downloaded: the default snapshot is
    removed and extracted again from the archive's bytes, whether or not
    it existed. *)
Theorem SetDefaultSnapshot_force_reinstalls (env : Env) (snapshotsDir archive : string)
    (w : World) :
  let archivePath := filepath_Join env snapshotsDir (BootstrapSnapshotArchiveName env) in
  let defaultPath :=
    filepath_Join env snapshotsDir ("anr-snapshot-" +:+ DefaultSnapshotName env) in
  w_fs w !! archivePath = Some (File archive) ->
  below defaultPath archivePath = false ->
  exists o w',
    SetDefaultSnapshot env snapshotsDir true w = (o, w') /\
    w_trace w'
    = w_trace w ++ [ERemoveAll defaultPath; EInstallArchive "tar.gz" archive snapshotsDir] /\
    w_fs w'
    = fst (binutils_InstallArchive env "tar.gz" archive snapshotsDir
             (RemoveAll (w_fs w) defaultPath)) /\
    (snd (binutils_InstallArchive env "tar.gz" archive snapshotsDir
            (RemoveAll (w_fs w) defaultPath)) = None ->
     o = Ret None).
Proof.
  intros archivePath defaultPath Harchive Hbelow.
  unfold SetDefaultSnapshot, get_fs, bind at 1 2, Stat_exists.
  fold archivePath. fold defaultPath. rewrite Harchive.
  unfold bind, emit, get_fs, put_fs, ret, record. simpl.
  rewrite (RemoveAll_lookup (w_fs w) defaultPath defaultPath), below_refl.
  unfold ReadFile. rewrite (RemoveAll_lookup (w_fs w) defaultPath archivePath), Hbelow, Harchive.
  unfold InstallArchive, bind, emit, get_fs, put_fs, ret, record. simpl.
  destruct (snd (binutils_InstallArchive env "tar.gz" archive snapshotsDir
                   (RemoveAll (w_fs w) defaultPath))) as [e|];
    eexists _, _; (split; [reflexivity|]); simpl; rewrite <- !app_assoc; by repeat split.
Qed.

Lemma SetDefaultSnapshot_force_reinstalls_witness :
  exists o w',
    SetDefaultSnapshot Demo.env "base/snapshots" true (Demo.world []) = (o, w') /\
    w_trace w'
    = [ERemoveAll "base/snapshots/anr-snapshot-default";
       EInstallArchive "tar.gz" "archive" "base/snapshots"] /\
    o = Ret None.
Proof.
  destruct (SetDefaultSnapshot_force_reinstalls Demo.env "base/snapshots" "archive"
              (Demo.world []))
    as (o & w' & Hrun & Htr & _ & Hok); [reflexivity|reflexivity|].
  exists o, w'. split; [exact Hrun|]. split; [exact Htr|]. apply Hok. reflexivity.
Defined.

(** ** Provisioning avalanchego *)

(** X15. When no local avalanchego is found, [setupLocalEnv] fails without
    installing anything if the operating system is not linux, darwin or
    windows (no request is made at all) or if the download does not end in
    a 200 with a fully read body (one request is made): the file system is
    as before and the returned path is empty. *)
Theorem setupLocalEnv_failure_installs_nothing (env : Env) (d : LocalSubnetDeployer)
    (w : World) (avagoDir : string) :
  binChecker d (filepath_Join env (GetBaseDir (app d)) (AvalancheCliBinDir env))
             "avalanchego-v" (w_fs w) = (false, avagoDir, None) ->
  (runtime_GOOS env <> "linux" -> runtime_GOOS env <> "darwin" ->
   runtime_GOOS env <> "windows" ->
   setupLocalEnv env d w
   = (Ret (EmptyString, Some ("OS not supported: " +:+ runtime_GOOS env)), w))
  /\ (forall url ext,
        avalanchegoURL (runtime_GOOS env) (runtime_GOARCH env)
                       (AvalancheGoReleaseVersion env) = Some (url, ext) ->
        (forall body, http_Get env url <> HttpResp 200 (body, None)) ->
        exists e,
          setupLocalEnv env d w = (Ret (EmptyString, Some e), record (EHttpGet url) w)).
Proof.
  intros Hcheck. split.
  - intros Hlinux Hdarwin Hwindows. unfold setupLocalEnv, get_fs, bind at 1.
    rewrite Hcheck. simpl. unfold avalanchegoURL.
    destruct (String.eqb_spec (runtime_GOOS env) "linux"); [done|].
    destruct (String.eqb_spec (runtime_GOOS env) "darwin"); [done|].
    by destruct (String.eqb_spec (runtime_GOOS env) "windows").
  - intros url ext Hurl Hfail. unfold setupLocalEnv, get_fs, bind at 1.
    rewrite Hcheck. simpl. rewrite Hurl. unfold bind at 1, emit.
    destruct (http_Get env url) as [e|status [body readErr]] eqn:Hget; [by eexists|].
    destruct (Nat.eqb_spec status http_StatusOK) as [->|Hstatus]; simpl; [|by eexists].
    destruct readErr as [e|]; [by eexists|]. by destruct (Hfail body).
Qed.

Lemma setupLocalEnv_failure_installs_nothing_witness :
  exists e,
    setupLocalEnv Demo.env
      (NewLocalSubnetDeployer Demo.env Demo.application (true, None)
         (fun _ _ _ => (false, EmptyString, None)) None (fun _ _ _ fs => (fs, None)))
      (Demo.world [])
    = (Ret (EmptyString, Some e),
       record (EHttpGet
                 "https://github.com/ava-labs/avalanchego/releases/download/v1.7.13/avalanchego-linux-amd64-v1.7.13.tar.gz")
              (Demo.world [])).
Proof.
  destruct (setupLocalEnv_failure_installs_nothing Demo.env
              (NewLocalSubnetDeployer Demo.env Demo.application (true, None)
                 (fun _ _ _ => (false, EmptyString, None)) None
                 (fun _ _ _ fs => (fs, None)))
              (Demo.world []) EmptyString)
    as [_ Hdownload]; [reflexivity|].
  apply (Hdownload _ "tar.gz"); [reflexivity|discriminate].
Defined.

(** X16. When no local avalanchego is found and [setupLocalEnv] returns a
    nil error, it has downloaded the release for this operating system
    with a 200, installed the archive into the binary directory and, for
    the zip archives of darwin and windows only, renamed the [build]
    directory; the path it returns is the binary directory joined with
    [avalanchego-<version>], on every system. *)
Theorem setupLocalEnv_installs_release (env : Env) (d : LocalSubnetDeployer)
    (w w' : World) (avagoDir path : string) :
  let binDir := filepath_Join env (GetBaseDir (app d)) (AvalancheCliBinDir env) in
  binChecker d binDir "avalanchego-v" (w_fs w) = (false, avagoDir, None) ->
  setupLocalEnv env d w = (Ret (path, None), w') ->
  exists url ext archive,
    avalanchegoURL (runtime_GOOS env) (runtime_GOARCH env)
                   (AvalancheGoReleaseVersion env) = Some (url, ext) /\
    http_Get env url = HttpResp 200 (archive, None) /\
    path = filepath_Join env binDir ("avalanchego-" +:+ AvalancheGoReleaseVersion env) /\
    w_trace w'
    = w_trace w
      ++ EHttpGet url :: EInstallArchive ext archive binDir
      :: (if String.eqb (runtime_GOOS env) "linux" then []
          else [ERename (filepath_Join env binDir "build") path]).
Proof.
  intros binDir Hcheck. unfold setupLocalEnv, get_fs, bind at 1. fold binDir.
  rewrite Hcheck. simpl.
  destruct (avalanchegoURL (runtime_GOOS env) (runtime_GOARCH env)
                           (AvalancheGoReleaseVersion env)) as [[url ext]|] eqn:Hurl;
    [|done].
  unfold bind at 1, emit.
  destruct (http_Get env url) as [e|status [archive readErr]] eqn:Hget; [done|].
  destruct (Nat.eqb_spec status http_StatusOK) as [->|Hstatus]; simpl; [|done].
  destruct readErr as [e|]; [done|].
  unfold InstallArchive, bind at 1 2 3 4, emit, get_fs, put_fs, ret at 1, record. simpl.
  destruct (snd (binutils_InstallArchive env ext archive binDir (w_fs w))) as [e|]; [done|].
  assert (Hext : String.eqb ext zipExtension = negb (String.eqb (runtime_GOOS env) "linux")).
  { unfold avalanchegoURL in Hurl.
    destruct (String.eqb (runtime_GOOS env) "linux"); [by injection Hurl as <- <-|].
    destruct (String.eqb (runtime_GOOS env) "darwin"); [by injection Hurl as <- <-|].
    destruct (String.eqb (runtime_GOOS env) "windows"); [by injection Hurl as <- <-|done]. }
  rewrite Hext. destruct (String.eqb (runtime_GOOS env) "linux"); simpl.
  - unfold bind, ret. intros [= <- <-]. exists url, ext, archive. simpl.
    rewrite <- !app_assoc. by repeat split.
  - unfold bind, emit, get_fs, put_fs, ret, record. simpl.
    match goal with
    | |- context [snd (os_Rename env ?a ?b ?f)] =>
        destruct (snd (os_Rename env a b f)) as [e|]; [done|]
    end.
    intros [= <- <-]. exists url, ext, archive. simpl.
    rewrite <- !app_assoc. by repeat split.
Qed.

Lemma setupLocalEnv_installs_release_witness :
  exists url ext archive,
    avalanchegoURL "darwin" "arm64" "v1.7.13" = Some (url, ext) /\
    ext = "zip" /\ archive = "zipped" /\
    url = "https://github.com/ava-labs/avalanchego/releases/download/v1.7.13/avalanchego-macos-v1.7.13.zip".
Proof.
  destruct (setupLocalEnv_installs_release
              (mkEnv (ID_String Demo.env) (ids_FromString Demo.env) (utils_VMID Demo.env)
                 (json_Unmarshal Demo.env) (strconv_Quote Demo.env)
                 (filepath_Join Demo.env)
                 (fun _ => HttpResp 200 ("zipped", None)) (os_WriteFile_err Demo.env)
                 (os_Rename Demo.env) (binutils_InstallArchive Demo.env)
                 (binutils_StartServerProcess Demo.env) "darwin" "arm64"
                 (AvalancheCliBinDir Demo.env)
                 (AvalancheGoReleaseVersion Demo.env)
                 (BootstrapSnapshotArchiveName Demo.env)
                 (BootstrapSnapshotURL Demo.env) (DefaultSnapshotName Demo.env)
                 (backend_LoadSnapshot Demo.env) (backend_CreateBlockchains Demo.env))
              (NewLocalSubnetDeployer Demo.env Demo.application (true, None)
                 (fun _ _ _ => (false, EmptyString, None)) None
                 (fun _ _ _ fs => (fs, None)))
              (Demo.world [])
              (mkWorld Demo.fs []
                 [EHttpGet "https://github.com/ava-labs/avalanchego/releases/download/v1.7.13/avalanchego-macos-v1.7.13.zip";
                  EInstallArchive "zip" "zipped" "base/bin";
                  ERename "base/bin/build" "base/bin/avalanchego-v1.7.13"] false)
              EmptyString "base/bin/avalanchego-v1.7.13")
    as (url & ext & archive & Hurl & Hget & _ & _); [reflexivity|reflexivity|].
  exists url, ext, archive. split; [exact Hurl|].
  injection Hurl as <- <-. by injection Hget as <-.
Defined.

(** X17. Whoever provides the snapshot setup, a nil error of
    [SetupLocalEnv] means that the plugin directory and the avalanchego
    binary it returns both exist, and that they are [plugins] and
    [avalanchego] under one and the same directory; with an error, both
    returned paths are empty. *)
Theorem SetupLocalEnv_postcondition (env : Env) (d : LocalSubnetDeployer) (w w' : World)
    (avalancheGoBinPath pluginDir : string) (err : error) :
  SetupLocalEnv env d w = (Ret (avalancheGoBinPath, pluginDir, err), w') ->
  (err = None ->
   Stat_exists (w_fs w') pluginDir = true /\
   Stat_exists (w_fs w') avalancheGoBinPath = true /\
   exists avagoDir,
     pluginDir = filepath_Join env avagoDir "plugins" /\
     avalancheGoBinPath = filepath_Join env avagoDir "avalanchego")
  /\ (err <> None -> avalancheGoBinPath = EmptyString /\ pluginDir = EmptyString).
Proof.
  unfold SetupLocalEnv, bind at 1.
  destruct (setDefaultSnapshot d (GetSnapshotsDir (app d)) false w) as [[[e|]| |] w1];
    [intros [= <- <- <- <-]; by split|..|done|done].
  unfold bind at 1.
  destruct (setupLocalEnv env d w1) as [[[avagoDir [e|]]| |] w2];
    [intros [= <- <- <- <-]; by split| |done|done].
  unfold get_fs, bind, FolderExists, FileExists. simpl.
  destruct (Stat_exists (w_fs w2) (filepath_Join env avagoDir "plugins")) eqn:Hplugins;
    simpl; [|intros [= <- <- <- <-]; by split].
  destruct (Stat_exists (w_fs w2) (filepath_Join env avagoDir "avalanchego")) eqn:Hbin;
    simpl; [|intros [= <- <- <- <-]; by split].
  intros [= <- <- <- <-]. split; [|done]. intros _.
  split; [done|]. split; [done|]. by exists avagoDir.
Qed.

Lemma SetupLocalEnv_postcondition_witness :
  Stat_exists (w_fs Demo.pollTwice) "base/bin/avalanchego-v1.7.13/plugins" = true /\
  Stat_exists (w_fs Demo.pollTwice) "base/bin/avalanchego-v1.7.13/avalanchego" = true.
Proof.
  destruct (SetupLocalEnv_postcondition Demo.env Demo.deployer Demo.pollTwice
              Demo.pollTwice "base/bin/avalanchego-v1.7.13/avalanchego"
              "base/bin/avalanchego-v1.7.13/plugins" None)
    as [Hok _]; [reflexivity|].
  destruct Hok as (Hplugins & Hbin & _); [reflexivity|]. by split.
Defined.



(** ** Already deployed, and the start of the backend *)

(** X19. [alreadyDeployed] is false on a nil cluster info, and on a cluster
    info it is true exactly when some entry of the custom-VM mapping
    carries the VM ID, whatever blockchain it belongs to. *)
Theorem alreadyDeployed_iff_vm_listed (env : Env) (chainVMID : ID)
    (clusterInfo : option ClusterInfo) :
  alreadyDeployed env chainVMID clusterInfo = true <->
  exists ci blockchainID vmInfo,
    clusterInfo = Some ci /\ CustomVms ci !! blockchainID = Some vmInfo /\
    VmId vmInfo = ID_String env chainVMID.
Proof.
  destruct clusterInfo as [ci|].
  - rewrite alreadyDeployed_true. split.
    + intros (k & vm & Hlook & Hid). by exists ci, k, vm.
    + intros (ci' & k & vm & [= <-] & Hlook & Hid). by exists k, vm.
  - simpl. split; [done|]. by intros (ci & k & vm & [=] & _).
Qed.

Lemma alreadyDeployed_iff_vm_listed_witness :
  alreadyDeployed Demo.env (mkID (list_ascii_of_string "test")) (Some Demo.deployedInfo)
  = true.
Proof.
  apply (alreadyDeployed_iff_vm_listed Demo.env (mkID (list_ascii_of_string "test"))
           (Some Demo.deployedInfo)).
  exists Demo.deployedInfo, "bc1", (mkCustomVmInfo "test" "bc1"). by repeat split.
Defined.

(** X20. [DeployToLocalNetwork] does not touch the local environment when the
    backend cannot be brought up: if the process check fails, its wrapped
    error is returned and nothing has happened; if the server is not
    running and cannot be started, the wrapped error is returned after that
    one start attempt, and [backendStartedHere] is left as it was. *)
Theorem DeployToLocalNetwork_backend_failures (env : Env) (d : LocalSubnetDeployer)
    (chain chainGenesis : string) (w : World) :
  (forall isRunning e,
      procChecker d = (isRunning, Some e) ->
      DeployToLocalNetwork env d chain chainGenesis w
      = (Ret (ids_Empty, ids_Empty,
              Some ("failed querying if server process is running: " +:+ e)), w))
  /\ (forall e,
        procChecker d = (false, None) ->
        binutils_StartServerProcess env = Some e ->
        DeployToLocalNetwork env d chain chainGenesis w
        = (Ret (ids_Empty, ids_Empty,
                Some ("failed starting gRPC server process: " +:+ e)),
           record EStartServerProcess w)).
Proof.
  split.
  - intros isRunning e Hcheck. unfold DeployToLocalNetwork, StartServer, bind.
    by rewrite Hcheck.
  - intros e Hcheck Hstart. unfold DeployToLocalNetwork, StartServer, bind, emit.
    rewrite Hcheck. simpl. by rewrite Hstart.
Qed.

Lemma DeployToLocalNetwork_backend_failures_witness :
  DeployToLocalNetwork Demo.env
    (NewLocalSubnetDeployer Demo.env Demo.application (false, Some "ps: not found")
       (fun _ _ _ => (true, "base/bin/avalanchego-v1.7.13", None)) None
       (fun _ _ _ fs => (fs, None)))
    "test" "genesis.json" Demo.pollTwice
  = (Ret (ids_Empty, ids_Empty,
          Some ("failed querying if server process is running: " +:+ "ps: not found")),
     Demo.pollTwice).
Proof.
  apply (proj1 (DeployToLocalNetwork_backend_failures Demo.env
                  (NewLocalSubnetDeployer Demo.env Demo.application
                     (false, Some "ps: not found")
                     (fun _ _ _ => (true, "base/bin/avalanchego-v1.7.13", None)) None
                     (fun _ _ _ fs => (fs, None)))
                  "test" "genesis.json" Demo.pollTwice) false "ps: not found").
  reflexivity.
Defined.

(** ** Who started the backend *)

Lemma keepsFlag_ret {A : Type} (a : A) : keepsFlag (ret a).
Proof. by intros w o w' [= _ <-]. Qed.

Lemma keepsFlag_panic {A : Type} (msg : string) : keepsFlag (panic (A := A) msg).
Proof. by intros w o w' [= _ <-]. Qed.

Lemma keepsFlag_lift {A : Type} (o : Outcome A) : keepsFlag (lift o).
Proof. by intros w o' w' [= _ <-]. Qed.

Lemma keepsFlag_emit (e : Effect) : keepsFlag (emit e).
Proof. by intros w o w' [= _ <-]. Qed.

Lemma keepsFlag_get_fs : keepsFlag get_fs.
Proof. by intros w o w' [= _ <-]. Qed.

Lemma keepsFlag_put_fs (fs : gmap string FsNode) : keepsFlag (put_fs fs).
Proof. by intros w o w' [= _ <-]. Qed.

Lemma keepsFlag_bind {A B : Type} (m : M A) (k : A -> M B) :
  keepsFlag m -> (forall a, keepsFlag (k a)) -> keepsFlag (bind m k).
Proof.
  intros Hm Hk w o w'. unfold bind.
  destruct (m w) as [[a|msg|] w1] eqn:Hrun; specialize (Hm _ _ _ Hrun).
  - intros Hrun'. by rewrite (Hk a _ _ _ Hrun').
  - by intros [= _ <-].
  - by intros [= _ <-].
Qed.

Lemma keepsFlag_defer {A : Type} (body : M A) (cleanup : M unit) :
  keepsFlag body -> keepsFlag cleanup -> keepsFlag (defer body cleanup).
Proof.
  intros Hbody Hcleanup w o w'. unfold defer.
  destruct (body w) as [[a|msg|] w1] eqn:Hrun; specialize (Hbody _ _ _ Hrun);
    intros [= _ <-]; [| |done];
    destruct (cleanup w1) as [o2 w2] eqn:Hc; simpl; by rewrite (Hcleanup _ _ _ Hc).
Qed.

Lemma keepsFlag_WaitForHealthy (d : LocalSubnetDeployer) (i : Z) :
  keepsFlag (WaitForHealthy d i).
Proof. intros w o w' Hrun. by apply WaitForHealthy_frame in Hrun as (_ & ? & _). Qed.

Create HintDb keepsflag.

Ltac keeps_flag :=
  repeat first
    [ solve [auto with keepsflag nocore]
    | apply keepsFlag_ret | apply keepsFlag_panic | apply keepsFlag_lift
    | apply keepsFlag_emit | apply keepsFlag_get_fs | apply keepsFlag_put_fs
    | apply keepsFlag_WaitForHealthy
    | apply keepsFlag_bind; [|intros ?]
    | match goal with
      | |- keepsFlag (match ?x with _ => _ end) => destruct x
      | |- keepsFlag (let (_, _) := ?x in _) => destruct x
      end ].

#[local] Hint Resolve keepsFlag_WaitForHealthy : keepsflag.

Lemma keepsFlag_SetDefaultSnapshot (env : Env) (snapshotsDir : string) (force : bool) :
  keepsFlag (SetDefaultSnapshot env snapshotsDir force).
Proof.
  unfold SetDefaultSnapshot, downloadBootstrapSnapshot, os_WriteFile, InstallArchive, abort.
  keeps_flag.
Qed.

Lemma keepsFlag_setupLocalEnv (env : Env) (d : LocalSubnetDeployer) :
  keepsFlag (setupLocalEnv env d).
Proof. unfold setupLocalEnv, InstallArchive. keeps_flag. Qed.

#[local] Hint Resolve keepsFlag_setupLocalEnv : keepsflag.

Lemma keepsFlag_createBlockchain (env : Env) (d : LocalSubnetDeployer)
    (chain chainGenesis : string) (chainVMID : ID) :
  keepsFlag (createBlockchain env d chain chainGenesis chainVMID).
Proof. unfold createBlockchain, cli_CreateBlockchains, report, abort. keeps_flag. Qed.

#[local] Hint Resolve keepsFlag_createBlockchain : keepsflag.

Lemma keepsFlag_deployVM (env : Env) (d : LocalSubnetDeployer)
    (chain chainGenesis avalancheGoBinPath pluginDir runDir : string)
    (networkBooted : bool) (clusterInfo : option ClusterInfo) :
  keepsFlag (deployVM env d chain chainGenesis avalancheGoBinPath pluginDir runDir
                      networkBooted clusterInfo).
Proof.
  unfold deployVM, installNeededPlugins, startNetwork, abort. keeps_flag.
Qed.

#[local] Hint Resolve keepsFlag_deployVM : keepsflag.

Lemma keepsFlag_doDeploy (env : Env) (d : LocalSubnetDeployer)
    (chain chainGenesis : string) :
  (forall dir force, keepsFlag (setDefaultSnapshot d dir force)) ->
  keepsFlag (doDeploy env d chain chainGenesis).
Proof.
  intros Hsnapshot.
  unfold doDeploy, SetupLocalEnv, abort.
  apply keepsFlag_bind.
  { apply keepsFlag_bind; [apply Hsnapshot|]. intros ?. keeps_flag. }
  intros [[bin plug] [e|]]; [apply keepsFlag_ret|].
  destruct (getClientFunc d); [apply keepsFlag_ret|].
  apply keepsFlag_defer; [|apply keepsFlag_emit].
  unfold probeNetwork, getGenesis, abort. keeps_flag.
Qed.

(** X21. With the deployer built by [NewLocalSubnetDeployer],
    [DeployToLocalNetwork] never clears [backendStartedHere], and it sets
    it only when it found no server process running and started one
    successfully: [BackendStartedHere] afterwards tells the truth about
    who started the backend. *)
Theorem DeployToLocalNetwork_backendStartedHere (env : Env) (a : Application)
    (pc : bool * error)
    (bc : string -> string -> gmap string FsNode -> bool * string * error)
    (gc : error)
    (bd : gset string -> string -> string -> gmap string FsNode -> gmap string FsNode * error)
    (chain chainGenesis : string) (w w' : World) (o : Outcome Deployed) :
  DeployToLocalNetwork env (NewLocalSubnetDeployer env a pc bc gc bd) chain chainGenesis w
  = (o, w') ->
  (w_backendStartedHere w = true -> w_backendStartedHere w' = true)
  /\ (w_backendStartedHere w = false -> w_backendStartedHere w' = true ->
      pc = (false, None) /\ binutils_StartServerProcess env = None)
  /\ (pc = (false, None) -> binutils_StartServerProcess env = None ->
      w_backendStartedHere w' = true).
Proof.
  set (d := NewLocalSubnetDeployer env a pc bc gc bd).
  assert (Hdo : keepsFlag (doDeploy env d chain chainGenesis)).
  { apply keepsFlag_doDeploy. intros dir force. apply keepsFlag_SetDefaultSnapshot. }
  unfold DeployToLocalNetwork, StartServer, bind. simpl.
  destruct pc as [isRunning [e|]].
  { intros [= _ <-]. split; [done|]. split; [congruence|done]. }
  destruct isRunning; simpl.
  { intros Hrun. rewrite (Hdo _ _ _ Hrun). split; [done|]. split; [congruence|done]. }
  unfold emit. destruct (binutils_StartServerProcess env) as [e|].
  { intros [= _ <-]. simpl. split; [done|]. split; [congruence|done]. }
  intros Hrun. rewrite (Hdo _ _ _ Hrun). simpl. by repeat split.
Qed.

Lemma DeployToLocalNetwork_backendStartedHere_witness :
  w_backendStartedHere
    (snd (DeployToLocalNetwork Demo.env
            (NewLocalSubnetDeployer Demo.env Demo.application (false, None)
               (fun _ _ _ => (true, "base/bin/avalanchego-v1.7.13", None)) None
               (fun _ _ _ fs => (fs, None)))
            "test" "genesis.json" Demo.pollTwice))
  = true.
Proof.
  destruct (DeployToLocalNetwork_backendStartedHere Demo.env Demo.application
              (false, None)
              (fun _ _ _ => (true, "base/bin/avalanchego-v1.7.13", None)) None
              (fun _ _ _ fs => (fs, None)) "test" "genesis.json" Demo.pollTwice
              (snd (DeployToLocalNetwork Demo.env
                      (NewLocalSubnetDeployer Demo.env Demo.application (false, None)
                         (fun _ _ _ => (true, "base/bin/avalanchego-v1.7.13", None)) None
                         (fun _ _ _ fs => (fs, None)))
                      "test" "genesis.json" Demo.pollTwice))
              (fst (DeployToLocalNetwork Demo.env
                      (NewLocalSubnetDeployer Demo.env Demo.application (false, None)
                         (fun _ _ _ => (true, "base/bin/avalanchego-v1.7.13", None)) None
                         (fun _ _ _ fs => (fs, None)))
                      "test" "genesis.json" Demo.pollTwice)))
    as (_ & _ & Hset); [reflexivity|].
  apply Hset; reflexivity.
Defined.

(** ** Package [vm]: the chain ID, the descriptors *)

Lemma getChainID_loop_Ret (pkg : Vm.Package) (todo : list Vm.Answer)
    (asked0 : list Vm.Question) (id : option Z) (err : error) (c' : Vm.Console) :
  Vm.getChainID_loop pkg todo asked0 = (Ret (id, err), c') ->
  exists used a rest,
    todo = used ++ a :: rest
    /\ Forall (fun b => Vm.a_err b = None /\
                 Vm.ChainIDExists pkg (Vm.big_String (Vm.a_number b)) = (true, None)) used
    /\ c' = Vm.mkConsole rest
              (asked0 ++ repeat (Vm.AskPositiveBigInt "ChainId") (S (length used)))
    /\ match err with
       | None =>
           id = Vm.a_number a /\ Vm.a_err a = None
           /\ Vm.ChainIDExists pkg (Vm.big_String id) = (false, None)
       | Some e =>
           id = None
           /\ (Vm.a_err a = Some e
               \/ (Vm.a_err a = None
                   /\ snd (Vm.ChainIDExists pkg (Vm.big_String (Vm.a_number a))) = Some e))
       end.
Proof.
  revert asked0. induction todo as [|a rest IH]; intros asked0; simpl; [done|].
  destruct (Vm.a_err a) as [e|] eqn:Herr.
  { intros [= <- <- <-]. exists [], a, rest. repeat split; auto. }
  destruct (Vm.ChainIDExists pkg (Vm.big_String (Vm.a_number a)))
    as [exists_ [e|]] eqn:Hex.
  { destruct exists_; intros [= <- <- <-]; exists [], a, rest; repeat split; auto;
      right; by rewrite Hex. }
  destruct exists_.
  - intros Hrun. destruct (IH _ Hrun) as (used & b & rest' & -> & Hused & -> & Hres).
    exists (a :: used), b, rest'. split; [done|]. split; [by constructor|].
    split; [|done]. simpl. by rewrite <- app_assoc.
  - intros [= <- <- <-]. exists [], a, rest. repeat split; auto.
Qed.

(** X22. [getChainID] returns only after an answer that is not an existing
    chain ID: every answer before it was an existing one, one [ChainId]
    question was asked per answer consumed, the ID returned without an error
    is the one [ChainIDExists] reported unused, and with an error the ID is
    nil. *)
Theorem getChainID_stops_at_first_unused (pkg : Vm.Package) (c c' : Vm.Console)
    (id : option Z) (err : error) :
  Vm.getChainID pkg c = (Ret (id, err), c') ->
  exists used a rest,
    Vm.answers c = used ++ a :: rest
    /\ Forall (fun b => Vm.a_err b = None /\
                 Vm.ChainIDExists pkg (Vm.big_String (Vm.a_number b)) = (true, None)) used
    /\ Vm.answers c' = rest
    /\ Vm.asked c' =
         Vm.asked c ++ repeat (Vm.AskPositiveBigInt "ChainId") (S (length used))
    /\ match err with
       | None =>
           id = Vm.a_number a /\ Vm.a_err a = None
           /\ Vm.ChainIDExists pkg (Vm.big_String id) = (false, None)
       | Some e =>
           id = None
           /\ (Vm.a_err a = Some e
               \/ (Vm.a_err a = None
                   /\ snd (Vm.ChainIDExists pkg (Vm.big_String (Vm.a_number a))) = Some e))
       end.
Proof.
  unfold Vm.getChainID. intros Hrun.
  destruct (getChainID_loop_Ret _ _ _ _ _ _ Hrun) as (used & a & rest & Hc & Hused & -> & Hres).
  by exists used, a, rest.
Qed.

Lemma getChainID_stops_at_first_unused_witness :
  exists used a rest,
    [VmDemo.number 43114; VmDemo.number 43114; VmDemo.number 7; VmDemo.number 8]
      = used ++ a :: rest
    /\ length used = 2 /\ Vm.a_number a = Some 7%Z /\ rest = [VmDemo.number 8].
Proof.
  destruct (getChainID_stops_at_first_unused VmDemo.pkg
              (VmDemo.console [VmDemo.number 43114; VmDemo.number 43114;
                               VmDemo.number 7; VmDemo.number 8])
              (Vm.mkConsole [VmDemo.number 8]
                 (repeat (Vm.AskPositiveBigInt "ChainId") 3))
              (Some 7%Z) None)
    as (used & a & rest & Hc & _ & Hrest & Hasked & Hid & _); [reflexivity|].
  exists used, a, rest. split; [exact Hc|].
  simpl in Hrest, Hasked. injection Hasked as Hlen.
  split; [|split; [by rewrite <- Hid | by rewrite <- Hrest]].
  clear -Hlen. destruct used as [|? [|? [|? ?]]]; simpl in *; congruence.
Defined.

(** X23. [getChainID] does return: as soon as the user gives an answer
    that is not an existing chain ID (an unused ID, a failed prompt or a
    failed look-up), the function returns right after it, having asked once
    per existing ID entered before and once more; what follows is left
    for the next prompt. *)
Theorem getChainID_returns_at_first_unused (pkg : Vm.Package) (c : Vm.Console)
    (used rest : list Vm.Answer) (a : Vm.Answer) :
  Vm.answers c = used ++ a :: rest ->
  Forall (fun b => Vm.a_err b = None /\
            Vm.ChainIDExists pkg (Vm.big_String (Vm.a_number b)) = (true, None)) used ->
  ~ (Vm.a_err a = None /\
     Vm.ChainIDExists pkg (Vm.big_String (Vm.a_number a)) = (true, None)) ->
  exists id err,
    Vm.getChainID pkg c =
      (Ret (id, err),
       Vm.mkConsole rest
         (Vm.asked c ++ repeat (Vm.AskPositiveBigInt "ChainId") (S (length used))))
    /\ (err = None <->
        Vm.a_err a = None /\
        Vm.ChainIDExists pkg (Vm.big_String (Vm.a_number a)) = (false, None))
    /\ (err = None -> id = Vm.a_number a).
Proof.
  unfold Vm.getChainID. intros -> Hused Ha. generalize (Vm.asked c) as asked0.
  induction Hused as [|b used [Hb1 Hb2] _ IH]; intros asked0; simpl.
  - destruct (Vm.a_err a) as [e|] eqn:Herr.
    { eexists _, _. split; [done|]. split; [|done]. split; [done|]. by intros [? _]. }
    destruct (Vm.ChainIDExists pkg (Vm.big_String (Vm.a_number a)))
      as [exists_ [e|]] eqn:Hex.
    { destruct exists_; eexists _, _; (split; [done|]); (split; [|done]);
        (split; [done|]); by intros [_ ?]. }
    destruct exists_; [by destruct Ha|].
    eexists _, _. split; [done|]. by repeat split.
  - rewrite Hb1, Hb2. destruct (IH (asked0 ++ [Vm.AskPositiveBigInt "ChainId"]))
      as (id & err & Hrun & Hres).
    exists id, err. split; [|done]. rewrite Hrun. by rewrite <- app_assoc.
Qed.

Lemma getChainID_returns_at_first_unused_witness :
  exists id err,
    Vm.getChainID VmDemo.pkg
      (VmDemo.console [VmDemo.number 43114; VmDemo.failure "interrupt"; VmDemo.number 8])
    = (Ret (id, err),
       Vm.mkConsole [VmDemo.number 8] (repeat (Vm.AskPositiveBigInt "ChainId") 2))
    /\ err <> None.
Proof.
  destruct (getChainID_returns_at_first_unused VmDemo.pkg
              (VmDemo.console [VmDemo.number 43114; VmDemo.failure "interrupt";
                               VmDemo.number 8])
              [VmDemo.number 43114] [VmDemo.number 8] (VmDemo.failure "interrupt"))
    as (id & err & Hrun & Herr & _).
  - reflexivity.
  - constructor; [|constructor]. split; reflexivity.
  - simpl. intros [Hnone _]. discriminate Hnone.
  - exists id, err. split; [exact Hrun|].
    intros Hnone. apply Herr in Hnone. simpl in Hnone. destruct Hnone as [Hnone _].
    discriminate Hnone.
Defined.

(** X24. What [getDescriptors] returns is consistent: without an error the
    direction is [forward], the chain ID is one [ChainIDExists] reported
    unused, and the token symbol was asked for last, once, after the chain
    ID questions; with an error the direction is [stop], the chain ID is nil
    and the token name is empty, whatever had been entered. *)
Theorem getDescriptors_result (pkg : Vm.Package) (c c' : Vm.Console)
    (id : option Z) (tokenName : string) (dir : Vm.stateDirection) (err : error) :
  Vm.getDescriptors pkg c = (Ret (id, tokenName, dir, err), c') ->
  match err with
  | None =>
      dir = Vm.forward
      /\ Vm.ChainIDExists pkg (Vm.big_String id) = (false, None)
      /\ exists k chainID token,
           Vm.asked c' =
             Vm.asked c ++ repeat (Vm.AskPositiveBigInt "ChainId") (S k)
                        ++ [Vm.AskString "Token symbol"]
           /\ Vm.answers c !! k = Some chainID /\ Vm.a_number chainID = id
           /\ Vm.answers c !! S k = Some token /\ Vm.a_text token = tokenName
           /\ Vm.answers c' = drop (S (S k)) (Vm.answers c)
  | Some _ => dir = Vm.stop /\ id = None /\ tokenName = EmptyString
  end.
Proof.
  unfold Vm.getDescriptors, st_bind.
  destruct (Vm.getChainID pkg c) as [[[id0 err0]| |] c0] eqn:Hid; [|done..].
  unfold Vm.getChainID in Hid.
  apply getChainID_loop_Ret in Hid as (used & a & rest & Hc & _ & -> & Hres).
  destruct err0 as [e|]; [by intros [= <- <- <- <- <-]|].
  destruct Hres as (-> & Herr & Hex).
  unfold Vm.getTokenName, Vm.CaptureString, Vm.ask, st_bind, st_ret.
  simpl. destruct rest as [|token rest]; [done|]. simpl.
  destruct (Vm.a_err token) as [e|] eqn:Htok; intros [= <- <- <- <- <-]; [done|].
  split; [done|]. split; [done|].
  exists (length used), a, token. simpl. rewrite Hc.
  split; [by rewrite <- app_assoc|].
  split; [by rewrite list_lookup_middle|]. split; [done|].
  rewrite cons_middle, app_assoc.
  split. { rewrite lookup_app_r; rewrite length_app; simpl; [|lia].
           by replace (S (length used) - (length used + 1)) with 0 by lia. }
  split; [done|].
  rewrite (cons_middle token), app_assoc, drop_app_length'; [done|].
  rewrite !length_app. simpl. lia.
Qed.

Lemma getDescriptors_result_witness :
  Vm.ChainIDExists VmDemo.pkg (Vm.big_String (Some 7%Z)) = (false, None).
Proof.
  destruct (getDescriptors_result VmDemo.pkg
              (VmDemo.console [VmDemo.number 43114; VmDemo.number 7; VmDemo.text "TST"])
              (Vm.mkConsole []
                 [Vm.AskPositiveBigInt "ChainId"; Vm.AskPositiveBigInt "ChainId";
                  Vm.AskString "Token symbol"])
              (Some 7%Z) "TST" Vm.forward None)
    as (_ & Hunused & _); [reflexivity|exact Hunused].
Defined.

(** ** Package [vm]: the fee configuration *)

Lemma CapturePositiveBigInt_bind {B : Type} (prompt : string)
    (k : option Z * error -> St Vm.Console B) (c : Vm.Console) :
  st_bind (Vm.CapturePositiveBigInt prompt) k c =
  match Vm.answers c with
  | [] => (Pending, Vm.mkConsole [] (Vm.asked c ++ [Vm.AskPositiveBigInt prompt]))
  | a :: rest =>
      k (Vm.a_number a, Vm.a_err a)
        (Vm.mkConsole rest (Vm.asked c ++ [Vm.AskPositiveBigInt prompt]))
  end.
Proof.
  unfold Vm.CapturePositiveBigInt, Vm.ask, st_bind, st_ret.
  by destruct (Vm.answers c).
Qed.

(** One prompt of the custom configuration, the [k]-th: no answer, a failed
    prompt, or an answer and the next prompt. *)
Ltac custom_prompt k :=
  rewrite CapturePositiveBigInt_bind; simpl;
  match goal with
  | |- context [match ?l with [] => _ | _ :: _ => _ end] =>
      is_var l; destruct l as [|? ?]
  end;
  [left; exists k; split; [lia|]; split; [reflexivity|];
   simpl; by rewrite <- ?app_assoc|];
  match goal with
  | |- context [match Vm.a_err ?a with Some _ => _ | None => _ end] =>
      let E := fresh "E" in
      destruct (Vm.a_err a) as [?e|] eqn:E;
      [right; left; exists k, e, a; split; [lia|]; split; [reflexivity|];
       split; [assumption|];
       split; [simpl; repeat (constructor; [assumption|]); constructor|];
       simpl; unfold st_ret; by rewrite <- ?app_assoc|]
  end.

(** The three ways the custom prompts end: the user stops answering, a
    prompt fails, or all eight are answered. *)
Lemma customFeeConfig_cases {Other : Type} (pkg : Vm.Package)
    (config : Vm.ChainConfig Other) (c : Vm.Console) :
  (exists k,
     k < 8 /\ length (Vm.answers c) = k
     /\ Vm.customFeeConfig pkg config c =
          (Pending, Vm.mkConsole [] (Vm.asked c ++ take (S k) customPrompts)))
  \/ (exists k e a,
        k < 8 /\ Vm.answers c !! k = Some a /\ Vm.a_err a = Some e
        /\ Forall (fun b => Vm.a_err b = None) (take k (Vm.answers c))
        /\ Vm.customFeeConfig pkg config c =
             (Ret (config, Vm.stop, Some e),
              Vm.mkConsole (drop (S k) (Vm.answers c))
                           (Vm.asked c ++ take (S k) customPrompts)))
  \/ (exists a1 a2 a3 a4 a5 a6 a7 a8 rest,
        Vm.answers c = a1 :: a2 :: a3 :: a4 :: a5 :: a6 :: a7 :: a8 :: rest
        /\ Forall (fun b => Vm.a_err b = None) [a1; a2; a3; a4; a5; a6; a7; a8]
        /\ Vm.customFeeConfig pkg config c =
             match Vm.a_number a2 with
             | None =>
                 (Panic "invalid memory address or nil pointer dereference",
                  Vm.mkConsole rest (Vm.asked c ++ customPrompts))
             | Some rate =>
                 (Ret (Vm.withFeeConfig config
                         (Vm.mkFeeConfig (Vm.a_number a1) (Vm.big_Uint64 pkg rate)
                            (Vm.a_number a3) (Vm.a_number a4) (Vm.a_number a5)
                            (Vm.a_number a6) (Vm.a_number a7) (Vm.a_number a8)),
                       Vm.forward, None),
                  Vm.mkConsole rest (Vm.asked c ++ customPrompts))
             end).
Proof.
  destruct c as [ans asked0]. unfold Vm.customFeeConfig. simpl.
  custom_prompt 0; custom_prompt 1; custom_prompt 2; custom_prompt 3;
  custom_prompt 4; custom_prompt 5; custom_prompt 6; custom_prompt 7.
  right. right. eexists _, _, _, _, _, _, _, _, _. split; [reflexivity|].
  split; [repeat (constructor; [assumption|]); constructor|].
  match goal with |- context [Vm.a_number ?a2] =>
    match goal with |- context [match Vm.a_number a2 with Some _ => _ | None => _ end] =>
      destruct (Vm.a_number a2)
    end
  end; unfold st_ret, st_panic; simpl; by rewrite <- ?app_assoc.
Qed.

(** [getFeeConfig] by cases on the answer to its opening question. *)
Lemma getFeeConfig_cases {Other : Type} (pkg : Vm.Package)
    (config : Vm.ChainConfig Other) (c : Vm.Console) :
  Vm.getFeeConfig pkg config c =
  match Vm.answers c with
  | [] => (Pending, Vm.mkConsole [] (Vm.asked c ++ [feeQuestion pkg]))
  | a :: rest =>
      let c1 := Vm.mkConsole rest (Vm.asked c ++ [feeQuestion pkg]) in
      let starter := Vm.withFeeConfig config (Vm.StarterFeeConfig pkg) in
      match Vm.a_err a with
      | Some e => (Ret (config, Vm.stop, Some e), c1)
      | None =>
          if String.eqb (Vm.a_text a) Vm.useFast then
            (Ret (Vm.withFeeConfig config
                    (Vm.withTargetGas (Vm.StarterFeeConfig pkg) (Vm.fastTarget pkg)),
                  Vm.forward, None), c1)
          else if String.eqb (Vm.a_text a) Vm.useMedium then
            (Ret (Vm.withFeeConfig config
                    (Vm.withTargetGas (Vm.StarterFeeConfig pkg) (Vm.mediumTarget pkg)),
                  Vm.forward, None), c1)
          else if String.eqb (Vm.a_text a) Vm.useSlow then
            (Ret (Vm.withFeeConfig config
                    (Vm.withTargetGas (Vm.StarterFeeConfig pkg) (Vm.slowTarget pkg)),
                  Vm.forward, None), c1)
          else if String.eqb (Vm.a_text a) (Vm.goBackMsg pkg) then
            (Ret (starter, Vm.backward, None), c1)
          else Vm.customFeeConfig pkg starter c1
      end
  end.
Proof.
  unfold Vm.getFeeConfig, Vm.CaptureList, Vm.ask, st_bind, st_ret, feeQuestion.
  destruct (Vm.answers c) as [|a rest]; [done|]. simpl.
  destruct (Vm.a_err a); [done|].
  by repeat (match goal with |- context [String.eqb ?x ?y] => destruct (String.eqb x y) end).
Qed.

(** X25. Whatever the user answers, [getFeeConfig] returns the chain
    configuration it was given with at most the fee configuration replaced;
    the direction is [stop] exactly when there is an error; going back
    resets the fees to [StarterFeeConfig]; and on an error the fees are the
    original ones if the opening question failed and [StarterFeeConfig]
    otherwise: custom values entered before a failed prompt are dropped. *)
Theorem getFeeConfig_result_invariants {Other : Type} (pkg : Vm.Package)
    (config config' : Vm.ChainConfig Other) (c c' : Vm.Console)
    (dir : Vm.stateDirection) (err : error) :
  Vm.getFeeConfig pkg config c = (Ret (config', dir, err), c') ->
  Vm.otherFields config' = Vm.otherFields config
  /\ (dir = Vm.stop <-> err <> None)
  /\ (dir = Vm.backward ->
      Vm.FeeConfig_ config' = Vm.StarterFeeConfig pkg
      /\ Vm.asked c' = Vm.asked c ++ [feeQuestion pkg])
  /\ (err <> None ->
      config' =
        if Nat.eqb (length (Vm.asked c')) (S (length (Vm.asked c)))
        then config
        else Vm.withFeeConfig config (Vm.StarterFeeConfig pkg)).
Proof.
  rewrite getFeeConfig_cases. destruct (Vm.answers c) as [|a rest]; [done|]. simpl.
  destruct (Vm.a_err a) as [e|].
  { intros [= <- <- <- <-]. simpl. split; [done|]. split; [done|]. split; [done|].
    intros _. rewrite length_app. simpl.
    replace (length (Vm.asked c) + 1) with (S (length (Vm.asked c))) by lia.
    by rewrite Nat.eqb_refl. }
  destruct (String.eqb (Vm.a_text a) Vm.useFast).
  { intros [= <- <- <- <-]. simpl. split; [done|]. split; [split; [done|by intros []]|]. done. }
  destruct (String.eqb (Vm.a_text a) Vm.useMedium).
  { intros [= <- <- <- <-]. simpl. split; [done|]. split; [split; [done|by intros []]|]. done. }
  destruct (String.eqb (Vm.a_text a) Vm.useSlow).
  { intros [= <- <- <- <-]. simpl. split; [done|]. split; [split; [done|by intros []]|]. done. }
  destruct (String.eqb (Vm.a_text a) (Vm.goBackMsg pkg)).
  { intros [= <- <- <- <-]. simpl. split; [done|]. split; [split; [done|by intros []]|]. done. }
  destruct (customFeeConfig_cases pkg (Vm.withFeeConfig config (Vm.StarterFeeConfig pkg))
              (Vm.mkConsole rest (Vm.asked c ++ [feeQuestion pkg])))
    as [(k & _ & _ & ->)|[(k & e & b & Hk & _ & _ & _ & ->)|
        (a1 & a2 & a3 & a4 & a5 & a6 & a7 & a8 & rest' & _ & _ & ->)]].
  - done.
  - intros [= <- <- <- <-]. simpl. split; [done|]. split; [done|]. split; [done|].
    intros _. rewrite !length_app. simpl.
    match goal with
    | |- context [Nat.eqb ?x ?y] => destruct (Nat.eqb_spec x y); [lia|done]
    end.
  - destruct (Vm.a_number a2); [|done].
    intros [= <- <- <- <-]. simpl. split; [done|]. split; [split; [done|by intros []]|]. done.
Qed.

Lemma getFeeConfig_result_invariants_witness :
  Vm.withFeeConfig VmDemo.config (Vm.StarterFeeConfig VmDemo.pkg) =
  Vm.withFeeConfig VmDemo.config VmDemo.starter.
Proof.
  destruct (getFeeConfig_result_invariants VmDemo.pkg VmDemo.config
              (Vm.withFeeConfig VmDemo.config VmDemo.starter)
              (VmDemo.console [VmDemo.text "Customize fee config"; VmDemo.number 11;
                               VmDemo.number 12; VmDemo.failure "interrupt"])
              (Vm.mkConsole [] (feeQuestion VmDemo.pkg :: take 3 customPrompts))
              Vm.stop (Some "interrupt"))
    as (_ & _ & _ & Hfees); [reflexivity|].
  symmetry. apply Hfees. discriminate.
Defined.

(** X26. [getFeeConfig] goes [forward] in two ways only.  Either the user
    chose one of the three presets, one question was asked, and the fees are
    [StarterFeeConfig] with the target gas of the preset; or the choice was
    none of the presets nor the way back (not only [customFee]: the
    [default] branch), the eight custom prompts were asked in the order of
    the code, and each fee field is the answer to its own prompt, the
    block rate converted by [Uint64]. *)
Theorem getFeeConfig_forward {Other : Type} (pkg : Vm.Package)
    (config config' : Vm.ChainConfig Other) (c c' : Vm.Console) (err : error) :
  Vm.getFeeConfig pkg config c = (Ret (config', Vm.forward, err), c') ->
  (exists choice target rest,
     Vm.answers c = choice :: rest /\ Vm.answers c' = rest
     /\ ((Vm.a_text choice, target) ∈
          [(Vm.useFast, Vm.fastTarget pkg); (Vm.useMedium, Vm.mediumTarget pkg);
           (Vm.useSlow, Vm.slowTarget pkg)])
     /\ Vm.asked c' = Vm.asked c ++ [feeQuestion pkg]
     /\ Vm.FeeConfig_ config' = Vm.withTargetGas (Vm.StarterFeeConfig pkg) target)
  \/ (exists choice a1 a2 a3 a4 a5 a6 a7 a8 rate,
        Vm.answers c =
          choice :: a1 :: a2 :: a3 :: a4 :: a5 :: a6 :: a7 :: a8 :: Vm.answers c'
        /\ (Vm.a_text choice ∉ [Vm.useFast; Vm.useMedium; Vm.useSlow; Vm.goBackMsg pkg])
        /\ Vm.asked c' = Vm.asked c ++ feeQuestion pkg :: customPrompts
        /\ Vm.a_number a2 = Some rate
        /\ Vm.FeeConfig_ config' =
             Vm.mkFeeConfig (Vm.a_number a1) (Vm.big_Uint64 pkg rate) (Vm.a_number a3)
               (Vm.a_number a4) (Vm.a_number a5) (Vm.a_number a6) (Vm.a_number a7)
               (Vm.a_number a8)).
Proof.
  rewrite getFeeConfig_cases. destruct (Vm.answers c) as [|a rest]; [done|]. simpl.
  destruct (Vm.a_err a) as [e|]; [done|].
  destruct (String.eqb (Vm.a_text a) Vm.useFast) eqn:Hfast.
  { intros [= <- <- <-]. left. exists a, (Vm.fastTarget pkg), rest.
    apply String.eqb_eq in Hfast. rewrite Hfast. repeat split; auto. rewrite !elem_of_cons. auto. }
  destruct (String.eqb (Vm.a_text a) Vm.useMedium) eqn:Hmedium.
  { intros [= <- <- <-]. left. exists a, (Vm.mediumTarget pkg), rest.
    apply String.eqb_eq in Hmedium. rewrite Hmedium. repeat split; auto. rewrite !elem_of_cons. auto. }
  destruct (String.eqb (Vm.a_text a) Vm.useSlow) eqn:Hslow.
  { intros [= <- <- <-]. left. exists a, (Vm.slowTarget pkg), rest.
    apply String.eqb_eq in Hslow. rewrite Hslow. repeat split; auto. rewrite !elem_of_cons. auto. }
  destruct (String.eqb (Vm.a_text a) (Vm.goBackMsg pkg)) eqn:Hback; [done|].
  apply String.eqb_neq in Hfast, Hmedium, Hslow, Hback.
  destruct (customFeeConfig_cases pkg (Vm.withFeeConfig config (Vm.StarterFeeConfig pkg))
              (Vm.mkConsole rest (Vm.asked c ++ [feeQuestion pkg])))
    as [(k & _ & _ & ->)|[(k & e & b & Hk & _ & _ & _ & ->)|
        (a1 & a2 & a3 & a4 & a5 & a6 & a7 & a8 & rest' & Hrest & _ & ->)]];
    [done..|].
  simpl in Hrest. destruct (Vm.a_number a2) as [rate|] eqn:Hrate; [|done].
  intros [= <- <- <-]. right. exists a, a1, a2, a3, a4, a5, a6, a7, a8, rate.
  simpl. rewrite Hrest. split; [done|].
  split; [by rewrite !not_elem_of_cons; auto using not_elem_of_nil|].
  split; [by rewrite <- app_assoc|]. done.
Qed.

Lemma getFeeConfig_forward_witness :
  "Customize fee config" ∉
    [Vm.useFast; Vm.useMedium; Vm.useSlow; Vm.goBackMsg VmDemo.pkg].
Proof.
  destruct (getFeeConfig_forward VmDemo.pkg VmDemo.config
              (Vm.mkChainConfig 1%Z
                 (Vm.mkFeeConfig (Some 11%Z) 12%Z (Some 13%Z) (Some 14%Z) (Some 15%Z)
                    (Some 16%Z) (Some 17%Z) (Some 18%Z)))
              (VmDemo.console VmDemo.customAnswers)
              (Vm.mkConsole [] (feeQuestion VmDemo.pkg :: customPrompts)) None)
    as [(choice & target & rest & Hc & _ & Hin & _)|
        (choice & a1 & a2 & a3 & a4 & a5 & a6 & a7 & a8 & rate & Hc & Hcustom & _)].
  - vm_compute. reflexivity.
  - exfalso. injection Hc as <- _. simpl in Hin. clear -Hin.
    apply elem_of_cons in Hin as [Hin|Hin]; [discriminate Hin|].
    apply elem_of_cons in Hin as [Hin|Hin]; [discriminate Hin|].
    apply elem_of_cons in Hin as [Hin|Hin]; [discriminate Hin|].
    by apply not_elem_of_nil in Hin.
  - injection Hc as <- _. exact Hcustom.
Defined.

(** X27. [getFeeConfig] panics in one situation only: the custom prompts
    were all answered without an error and the prompter returned a nil
    number for the target block rate, which the code dereferences with
    [Uint64]; the eight other answers may be nil. *)
Theorem getFeeConfig_panics_iff {Other : Type} (pkg : Vm.Package)
    (config : Vm.ChainConfig Other) (c : Vm.Console) :
  (exists msg c', Vm.getFeeConfig pkg config c = (Panic msg, c'))
  <->
  (exists choice a1 a2 a3 a4 a5 a6 a7 a8 rest,
     Vm.answers c = choice :: a1 :: a2 :: a3 :: a4 :: a5 :: a6 :: a7 :: a8 :: rest
     /\ Forall (fun b => Vm.a_err b = None) [choice; a1; a2; a3; a4; a5; a6; a7; a8]
     /\ (Vm.a_text choice ∉ [Vm.useFast; Vm.useMedium; Vm.useSlow; Vm.goBackMsg pkg])
     /\ Vm.a_number a2 = None).
Proof.
  rewrite getFeeConfig_cases. split.
  - intros (msg & c' & Hrun). destruct (Vm.answers c) as [|a rest]; [done|]. simpl in Hrun.
    destruct (Vm.a_err a) as [e|] eqn:Herr; [done|].
    destruct (String.eqb (Vm.a_text a) Vm.useFast) eqn:Hfast; [done|].
    destruct (String.eqb (Vm.a_text a) Vm.useMedium) eqn:Hmedium; [done|].
    destruct (String.eqb (Vm.a_text a) Vm.useSlow) eqn:Hslow; [done|].
    destruct (String.eqb (Vm.a_text a) (Vm.goBackMsg pkg)) eqn:Hback; [done|].
    apply String.eqb_neq in Hfast, Hmedium, Hslow, Hback.
    destruct (customFeeConfig_cases pkg (Vm.withFeeConfig config (Vm.StarterFeeConfig pkg))
                (Vm.mkConsole rest (Vm.asked c ++ [feeQuestion pkg])))
      as [(k & _ & _ & Hc)|[(k & e & b & Hk & _ & _ & _ & Hc)|
          (a1 & a2 & a3 & a4 & a5 & a6 & a7 & a8 & rest' & Hrest & Hok & Hc)]];
      rewrite Hc in Hrun; [done..|].
    simpl in Hrest. destruct (Vm.a_number a2) as [rate|] eqn:Hrate; [done|].
    exists a, a1, a2, a3, a4, a5, a6, a7, a8, rest'. rewrite Hrest.
    split; [done|]. split; [by constructor|].
    split; [by rewrite !not_elem_of_cons; auto using not_elem_of_nil|done].
  - intros (a & a1 & a2 & a3 & a4 & a5 & a6 & a7 & a8 & rest & -> & Hok & Hchoice & Hrate).
    simpl. apply Forall_cons in Hok as [Herr Hok]. rewrite Herr.
    rewrite !not_elem_of_cons in Hchoice.
    destruct Hchoice as (Hfast & Hmedium & Hslow & Hback & _).
    apply String.eqb_neq in Hfast, Hmedium, Hslow, Hback.
    rewrite Hfast, Hmedium, Hslow, Hback.
    destruct (customFeeConfig_cases pkg (Vm.withFeeConfig config (Vm.StarterFeeConfig pkg))
                (Vm.mkConsole (a1 :: a2 :: a3 :: a4 :: a5 :: a6 :: a7 :: a8 :: rest)
                              (Vm.asked c ++ [feeQuestion pkg])))
      as [(k & Hk & Hlen & _)|[(k & e & b & Hk & Hb & He & _)|
          (b1 & b2 & b3 & b4 & b5 & b6 & b7 & b8 & rest' & Hrest & _ & Hc)]].
    + simpl in Hlen. lia.
    + exfalso. simpl in Hb.
      assert (Hin : b ∈ [a1; a2; a3; a4; a5; a6; a7; a8]).
      { do 8 (destruct k as [|k];
                [injection Hb as <-; rewrite !elem_of_cons; auto 10|simpl in Hb]).
        lia. }
      rewrite Forall_forall in Hok. by rewrite (Hok b Hin) in He.
    + simpl in Hrest. injection Hrest as <- <- <- <- <- <- <- <- <-.
      rewrite Hc, Hrate. eauto.
Qed.

(** ** Package [subnet]: the public deployer *)

(** [loadWallet] by cases on the network, the key and the wallet. *)
Lemma loadWallet_cases {NodeID Time : Type} (libs : Public.Libs NodeID Time)
    (d : Public.PublicDeployer) (preloadTxs : list ID) (tr : list (Public.Call NodeID)) :
  (exists n, Public.network d = Public.OtherNetwork n
     /\ Public.loadWallet libs d preloadTxs tr =
          (Ret (None, EmptyString, Some "unsupported public network"), tr))
  \/ (exists api networkID,
        ((Public.network d, api, networkID) ∈
           [(Public.Fuji, Public.FujiAPIEndpoint libs, Public.FujiID libs);
            (Public.Mainnet, Public.MainnetAPIEndpoint libs, Public.MainnetID libs)])
        /\ ((exists kc e,
               Public.key_LoadSoft libs networkID (Public.privKeyPath d) = (kc, Some e)
               /\ Public.loadWallet libs d preloadTxs tr =
                    (Ret (None, EmptyString, Some e),
                     tr ++ [Public.LoadSoft networkID (Public.privKeyPath d)]))
            \/ (exists kc,
                  Public.key_LoadSoft libs networkID (Public.privKeyPath d) = (kc, None)
                  /\ Public.loadWallet libs d preloadTxs tr =
                       (match Public.primary_NewWalletWithTxs libs api kc preloadTxs with
                        | Some e => Ret (None, EmptyString, Some e)
                        | None => Ret (Some (Public.mkWallet api kc preloadTxs), api, None)
                        end,
                        tr ++ [Public.LoadSoft networkID (Public.privKeyPath d);
                               Public.NewWalletWithTxs api kc preloadTxs])))).
Proof.
  unfold Public.loadWallet, Public.call, st_bind, st_ret.
  destruct (Public.network d) as [| |n]; [right|right|left; by exists n].
  - exists (Public.FujiAPIEndpoint libs), (Public.FujiID libs).
    split; [rewrite !elem_of_cons; auto|].
    destruct (Public.key_LoadSoft libs _ _) as [kc [e|]]; [left; by exists kc, e|].
    right. exists kc. split; [done|]. rewrite <- app_assoc.
    by destruct (Public.primary_NewWalletWithTxs libs _ _ _).
  - exists (Public.MainnetAPIEndpoint libs), (Public.MainnetID libs).
    split; [rewrite !elem_of_cons; auto|].
    destruct (Public.key_LoadSoft libs _ _) as [kc [e|]]; [left; by exists kc, e|].
    right. exists kc. split; [done|]. rewrite <- app_assoc.
    by destruct (Public.primary_NewWalletWithTxs libs _ _ _).
Qed.

(** X28. On a network that is neither Fuji nor Mainnet, [Deploy] and
    [AddValidator] fail with [unsupported public network] before anything
    is done: the private key is not read, no wallet is built and no
    transaction is issued. *)
Theorem public_unsupported_network {NodeID Time : Type} (libs : Public.Libs NodeID Time)
    (d : Public.PublicDeployer) (n : nat) (tr : list (Public.Call NodeID)) :
  Public.network d = Public.OtherNetwork n ->
  (forall controlKeys threshold chain genesis,
     Public.Deploy libs d controlKeys threshold chain genesis tr =
       (Ret (ids_Empty, ids_Empty, Some "unsupported public network"), tr))
  /\ (forall subnet nodeID weight startTime duration,
        Public.AddValidator libs d subnet nodeID weight startTime duration tr =
          (Ret (Some "unsupported public network"), tr)).
Proof.
  intros Hnet. split; intros.
  - unfold Public.Deploy, st_bind.
    destruct (loadWallet_cases libs d [] tr) as [(n' & _ & ->)|(api & nid & Hin & _)]; [done|].
    rewrite Hnet, !elem_of_cons in Hin. destruct Hin as [[=]|[[=]|Hin]].
    by apply not_elem_of_nil in Hin.
  - unfold Public.AddValidator, st_bind.
    destruct (loadWallet_cases libs d [subnet] tr) as [(n' & _ & ->)|(api & nid & Hin & _)];
      [done|].
    rewrite Hnet, !elem_of_cons in Hin. destruct Hin as [[=]|[[=]|Hin]].
    by apply not_elem_of_nil in Hin.
Qed.

Lemma public_unsupported_network_witness :
  Public.Deploy PublicDemo.libs PublicDemo.other ["P-custom1"] 1%Z "test" "{}" []
  = (Ret (ids_Empty, ids_Empty, Some "unsupported public network"), []).
Proof.
  destruct (public_unsupported_network PublicDemo.libs PublicDemo.other 0 [])
    as [HDeploy _]; [reflexivity|].
  apply HDeploy.
Defined.

(** X29. What [Deploy] returns.  Without an error, four calls were made, in
    this order: the key of the network was read, the wallet was built for the
    endpoint of the same network with nothing preloaded, the subnet
    transaction was issued for the parsed control keys, the threshold and
    lock time 0, and the chain transaction was issued for the subnet ID the
    subnet transaction returned, the VM ID of the chain name and no feature
    extensions; the IDs returned are those the two transactions returned.
    With an error, both IDs are [ids.Empty], also when the subnet had
    been created and only the chain transaction failed. *)
Theorem Deploy_result {NodeID Time : Type} (libs : Public.Libs NodeID Time)
    (d : Public.PublicDeployer) (controlKeys : list string) (threshold : Z)
    (chain genesis : string) (tr tr' : list (Public.Call NodeID))
    (subnetID blockchainID : ID) (err : error) :
  Public.Deploy libs d controlKeys threshold chain genesis tr =
    (Ret (subnetID, blockchainID, err), tr') ->
  match err with
  | None =>
      exists api networkID kc vmID addrs,
        ((Public.network d, api, networkID) ∈
           [(Public.Fuji, Public.FujiAPIEndpoint libs, Public.FujiID libs);
            (Public.Mainnet, Public.MainnetAPIEndpoint libs, Public.MainnetID libs)])
        /\ Public.key_LoadSoft libs networkID (Public.privKeyPath d) = (kc, None)
        /\ Public.VMID libs chain = (vmID, None)
        /\ Public.address_ParseToIDs libs controlKeys = (addrs, None)
        /\ Public.wallet_IssueCreateSubnetTx libs (Public.mkWallet api kc [])
             (Public.mkOutputOwners addrs threshold 0) = (subnetID, None)
        /\ Public.wallet_IssueCreateChainTx libs (Public.mkWallet api kc [])
             subnetID genesis vmID [] chain = (blockchainID, None)
        /\ tr' = tr ++ [Public.LoadSoft networkID (Public.privKeyPath d);
                        Public.NewWalletWithTxs api kc [];
                        Public.IssueCreateSubnetTx (Public.mkOutputOwners addrs threshold 0);
                        Public.IssueCreateChainTx subnetID genesis vmID [] chain]
  | Some _ =>
      subnetID = ids_Empty /\ blockchainID = ids_Empty
      /\ exists calls, tr' = tr ++ calls
  end.
Proof.
  unfold Public.Deploy, st_bind.
  destruct (loadWallet_cases libs d [] tr)
    as [(n & _ & ->)|(api & nid & Hin & [(kc & e & _ & ->)|(kc & Hkey & ->)])].
  { intros [= <- <- <- <-]. repeat split; auto. exists []. by rewrite app_nil_r. }
  { intros [= <- <- <- <-]. repeat split; eauto. }
  destruct (Public.primary_NewWalletWithTxs libs api kc []) as [e|].
  { intros [= <- <- <- <-]. repeat split; eauto. }
  destruct (Public.VMID libs chain) as [vmID [e|]] eqn:Hvm.
  { intros [= <- <- <- <-]. repeat split; eauto. }
  unfold Public.createSubnetTx, Public.createBlockchainTx, Public.call, st_bind, st_ret.
  destruct (Public.address_ParseToIDs libs controlKeys) as [addrs [e|]] eqn:Haddrs.
  { intros [= <- <- <- <-]. repeat split; eauto. }
  destruct (Public.wallet_IssueCreateSubnetTx libs _ _) as [sid [e|]] eqn:Hsub.
  { intros [= <- <- <- <-]. repeat split; eauto. rewrite <- app_assoc. eauto. }
  destruct (Public.wallet_IssueCreateChainTx libs _ _ _ _ _ _) as [bid [e|]] eqn:Hchain.
  { intros [= <- <- <- <-]. repeat split; eauto. rewrite <- !app_assoc. eauto. }
  intros [= <- <- <- <-]. exists api, nid, kc, vmID, addrs.
  repeat split; auto. by rewrite <- !app_assoc.
Qed.

Lemma Deploy_result_witness :
  Public.Deploy PublicDemo.libs PublicDemo.fuji ["P-custom1"] 1%Z "bad" "{}" []
  = (Ret (ids_Empty, ids_Empty, Some "tx rejected"),
     [Public.LoadSoft 5%Z "fuji.pk";
      Public.NewWalletWithTxs "https://api.avax-test.network" "keychain" [];
      Public.IssueCreateSubnetTx (Public.mkOutputOwners ["P-custom1"] 1%Z 0%Z);
      Public.IssueCreateChainTx (PublicDemo.idOf "subnet-1") "{}" (PublicDemo.idOf "vm-bad") [] "bad"])
  /\ exists calls : list (Public.Call string),
       Public.IssueCreateSubnetTx (Public.mkOutputOwners ["P-custom1"] 1%Z 0%Z) ∈ calls.
Proof.
  split; [reflexivity|].
  destruct (Deploy_result PublicDemo.libs PublicDemo.fuji ["P-custom1"] 1%Z "bad" "{}" []
              [Public.LoadSoft 5%Z "fuji.pk";
               Public.NewWalletWithTxs "https://api.avax-test.network" "keychain" [];
               Public.IssueCreateSubnetTx (Public.mkOutputOwners ["P-custom1"] 1%Z 0%Z);
               Public.IssueCreateChainTx (PublicDemo.idOf "subnet-1") "{}" (PublicDemo.idOf "vm-bad") [] "bad"]
              ids_Empty ids_Empty (Some "tx rejected"))
    as (_ & _ & calls & Hcalls); [reflexivity|].
  exists calls. simpl in Hcalls. rewrite <- Hcalls. rewrite !elem_of_cons. auto.
Defined.

(** X30. When [AddValidator] succeeds it has made three calls: the key of
    the network was read, the wallet was built for the endpoint of the same
    network with the subnet's transaction preloaded, and one transaction
    was issued, for the node and weight given, on that subnet, valid from
    the start time to the start time plus the duration, both as unsigned
    64-bit seconds since the epoch. *)
Theorem AddValidator_success {NodeID Time : Type} (libs : Public.Libs NodeID Time)
    (d : Public.PublicDeployer) (subnet : ID) (nodeID : NodeID) (weight : Z)
    (startTime : Time) (duration : Z) (tr tr' : list (Public.Call NodeID)) :
  Public.AddValidator libs d subnet nodeID weight startTime duration tr = (Ret None, tr') ->
  exists api networkID kc v,
    ((Public.network d, api, networkID) ∈
       [(Public.Fuji, Public.FujiAPIEndpoint libs, Public.FujiID libs);
        (Public.Mainnet, Public.MainnetAPIEndpoint libs, Public.MainnetID libs)])
    /\ tr' = tr ++ [Public.LoadSoft networkID (Public.privKeyPath d);
                    Public.NewWalletWithTxs api kc [subnet];
                    Public.IssueAddSubnetValidatorTx v]
    /\ Public.NodeID_ v = nodeID /\ Public.Wght v = weight /\ Public.Subnet v = subnet
    /\ Public.Start v = (Public.time_Unix libs startTime mod 2 ^ 64)%Z
    /\ Public.End_ v =
         (Public.time_Unix libs (Public.time_Add libs startTime duration) mod 2 ^ 64)%Z
    /\ snd (Public.wallet_IssueAddSubnetValidatorTx libs
              (Public.mkWallet api kc [subnet]) v) = None.
Proof.
  unfold Public.AddValidator, st_bind.
  destruct (loadWallet_cases libs d [subnet] tr)
    as [(n & _ & ->)|(api & nid & Hin & [(kc & e & _ & ->)|(kc & Hkey & ->)])]; [done..|].
  destruct (Public.primary_NewWalletWithTxs libs api kc [subnet]) as [e|]; [done|].
  unfold Public.call, st_ret.
  destruct (Public.wallet_IssueAddSubnetValidatorTx libs _ _) as [id [e|]] eqn:Htx; [done|].
  intros [= <-]. eexists api, nid, kc, _. split; [done|].
  split; [by rewrite <- app_assoc|]. simpl. rewrite Htx. by repeat split.
Qed.

Lemma AddValidator_success_witness :
  exists v : Public.SubnetValidator string,
    Public.Start v = 18446744073709551516%Z /\ Public.End_ v = 200%Z.
Proof.
  destruct (AddValidator_success PublicDemo.libs PublicDemo.fuji (PublicDemo.idOf "subnet-1")
              "NodeID-1" 20%Z
              (-100)%Z 300%Z []
              [Public.LoadSoft 5%Z "fuji.pk";
               Public.NewWalletWithTxs "https://api.avax-test.network" "keychain"
                 [PublicDemo.idOf "subnet-1"];
               Public.IssueAddSubnetValidatorTx
                 (Public.mkSubnetValidator "NodeID-1" 18446744073709551516%Z 200%Z 20%Z
                    (PublicDemo.idOf "subnet-1"))])
    as (api & nid & kc & v & _ & _ & _ & _ & _ & HStart & HEnd & _); [reflexivity|].
  exists v. split; [rewrite HStart|rewrite HEnd]; reflexivity.
Defined.
